(** * Object-detection hub: the video pipeline and the annotator

    A shallow embedding of [detector/types.py], [detector/visualize.py] and
    [detector/video.py].  Python objects that are mutated in place (numpy
    arrays, the capture and writer handles, the file system) live in an
    explicit [World]; the code is written in a state-and-exception monad over
    it.  Everything that belongs to OpenCV, ffmpeg, pathlib, colorsys, hashlib,
    the detector model and IEEE floating point is an operation of the
    [Externals] interface, so every theorem holds for any behaviour of those
    collaborators. *)

From Stdlib Require Import ZArith String Ascii List QArith Lia DecimalString.
From Stdlib Require Import Sorting.Sorted Sorting.Permutation.
From stdpp Require Import gmap strings list fin_maps.

Local Open Scope string_scope.
Local Open Scope list_scope.
Local Open Scope Z_scope.

(** ** Values *)

(** A file-system path, as [str(path)]. *)
Definition Path := string.

(** A BGR colour triple. *)
Definition Color : Type := Z * Z * Z.

(** A [numpy] image: [shape[:2]] and the bytes of the buffer. *)
Record Image := mkImage {
  im_rows : Z;
  im_cols : Z;
  im_data : list Z;
}.

(** The contents of a file. *)
Definition Content := list Z.

(** References to numpy arrays on the heap. *)
Definition loc := nat.

(** Python exceptions raised by the modelled code or its collaborators. *)
Inductive Exn :=
| ValueError (msg : string)
| RuntimeError (msg : string)
| ImportError (msg : string)
| OSError (msg : string)
| CalledProcessError (returncode : Z).

(** The drawing calls of OpenCV that the annotator issues.  The font face is
    always [FONT_HERSHEY_SIMPLEX] and is left out. *)
Inductive DrawCall :=
| Rectangle (pt1 pt2 : Z * Z) (color : Color) (thickness : Z)
| PutText (text : string) (org : Z * Z) (fontScale : Q) (color : Color) (thickness : Z).

(** ** Python floats

    Literals, [float(i)], [*], [/], [%], [bool(x)], [int(x)] and
    [format(x, ".2f")].  Their rounding is left to the instance.  The floats
    of the model are finite: [int(x)] raises on a NaN or an infinity, which
    neither OpenCV's properties nor the detector's boxes are. *)

Class PyFloat := {
  float : Type;
  f_lit : Q -> float;
  f_of_int : Z -> float;
  f_mul : float -> float -> float;
  f_div : float -> float -> float;
  f_mod : float -> float -> float;
  f_truthy : float -> bool;
  f_int : float -> Z;
  f_fmt2 : float -> string;
}.

(** ** Outcomes of a call

    [Stuck] is not a Python behaviour: a reference to an array or handle that
    does not exist, a loop that outlives its fuel, or the rename of a
    directory, whose files the model does not follow. *)

Inductive Outcome (A : Type) :=
| Returned (a : A)
| Raised (e : Exn)
| Stuck.
Arguments Returned {A} a.
Arguments Raised {A} e.
Arguments Stuck {A}.

Declare Scope py_scope.
Delimit Scope py_scope with py.

Section Model.
Context `{FL : PyFloat}.

(** ** [detector/types.py] *)

Record Detection := mkDetection {
  class_id : Z;
  class_name : string;
  confidence : float;
  x1 : float;
  y1 : float;
  x2 : float;
  y2 : float;
}.

(** Field values of a dataclass turned into a dict. *)
Inductive PyVal :=
| VInt (i : Z)
| VStr (s : string)
| VFloat (x : float).

(** [dataclasses.asdict(d)]: the fields in declaration order. *)
Definition asdict (d : Detection) : list (string * PyVal) :=
  [ ("class_id", VInt (class_id d));
    ("class_name", VStr (class_name d));
    ("confidence", VFloat (confidence d));
    ("x1", VFloat (x1 d));
    ("y1", VFloat (y1 d));
    ("x2", VFloat (x2 d));
    ("y2", VFloat (y2 d)) ].

(** ** Python dicts with string keys, in insertion order *)

Definition dict (V : Type) := list (string * V).

Fixpoint dict_get {V} (d : dict V) (k : string) : option V :=
  match d with
  | [] => None
  | (k', v) :: d' => if String.eqb k' k then Some v else dict_get d' k
  end.

(** [d[k] = v]: the value is replaced in place, a new key goes last. *)
Fixpoint dict_set {V} (d : dict V) (k : string) (v : V) : dict V :=
  match d with
  | [] => [(k, v)]
  | (k', v') :: d' =>
      if String.eqb k' k then (k', v) :: d' else (k', v') :: dict_set d' k v
  end.

(** [d.setdefault(k, v)], for its effect on [d]. *)
Definition dict_setdefault {V} (d : dict V) (k : string) (v : V) : dict V :=
  match dict_get d k with
  | Some _ => d
  | None => dict_set d k v
  end.

Definition dict_keys {V} (d : dict V) : list string := map fst d.

(** [str(i)] for an int. *)
Definition str_of_int (i : Z) : string := NilZero.string_of_int (Z.to_int i).

(** ** [sorted(xs, key=...)] with keys [(int, str)]

    Tuples compare lexicographically, ints by value, strings by code point.
    [sorted] is stable: among equal keys the input order is kept. *)

Definition key_ltb (a b : Z * string) : bool :=
  (a.1 <? b.1) || ((a.1 =? b.1) && String.ltb a.2 b.2).

Fixpoint insert_by {A} (key : A -> Z * string) (x : A) (l : list A) : list A :=
  match l with
  | [] => [x]
  | y :: l' =>
      if key_ltb (key y) (key x) then y :: insert_by key x l' else x :: y :: l'
  end.

Fixpoint sorted_by {A} (key : A -> Z * string) (l : list A) : list A :=
  match l with
  | [] => []
  | x :: l' => insert_by key x (sorted_by key l')
  end.


(** ** The world of one invocation *)

(** What a container yields once opened: the values of [cap.get] and the
    results [(ok, frame)] of successive [cap.read()] calls.  After the last
    one every read fails. *)
Record Video := mkVideo {
  v_fps : float;
  v_width : float;
  v_height : float;
  v_frame_count : float;
  v_reads : list (bool * option Image);
  v_seekable : bool;
}.

(** A [cv2.VideoCapture] object. *)
Record Capture := mkCapture {
  cap_video : option Video;
  cap_pending : list (bool * option Image);
  cap_opened : bool;
}.

(** A [cv2.VideoWriter] object. *)
Record Writer := mkWriter {
  wr_path : Path;
  wr_fourcc : string;
  wr_fps : float;
  wr_size : Z * Z;
  wr_frames : list Image;
  wr_opened : bool;
}.

(** The calls that [pathlib] makes to the operating system. *)
Inductive OsCall :=
| OsStat (p : Path)
| OsMkdir (p : Path)
| OsReplace (src dst : Path)
| OsUnlink (p : Path).

(** ** Collaborators *)

Class Externals := {
  (** [colorsys.hsv_to_rgb]. *)
  hsv_to_rgb : float -> float -> float -> float * float * float;
  (** [int(hashlib.md5(name.encode('utf-8')).hexdigest()[:8], 16)]. *)
  md5_hex8 : string -> Z;
  (** OpenCV's rasteriser for one drawing call, [cv2.getTextSize] (font scale
      and thickness) and [cv2.addWeighted]. *)
  cv2_render : DrawCall -> Image -> Image;
  cv2_getTextSize : string -> Q -> Z -> (Z * Z) * Z;
  cv2_addWeighted : Image -> Q -> Image -> Q -> Q -> Image;
  (** OpenCV's demuxer (what [cv2.VideoCapture] finds in a file), its muxer
      (what a released [cv2.VideoWriter] leaves in its file) and whether a
      writer can be opened. *)
  cv2_demux : Content -> option Video;
  cv2_mux : string -> float -> Z * Z -> list Image -> Content;
  cv2_writer_opens :
    gmap Path Content -> gset Path -> Path -> string -> float -> Z * Z -> bool;
  (** [pathlib]: [p.with_suffix(s)] for a path that has a name, [p.name],
      [repr(p)] and [p.parent]. *)
  with_suffix : Path -> string -> Path;
  path_name : Path -> string;
  path_repr : Path -> string;
  path_parent : Path -> Path;
  (** The operating system: the error, if any, with which it refuses a call
      that the files and directories of the model would allow (no
      permission, a read-only or full file system, a file among the
      ancestors of the path). *)
  os_refuses : gmap Path Content -> gset Path -> OsCall -> option Exn;
  (** [imageio_ffmpeg.get_ffmpeg_exe()], import included, and
      [subprocess.run(cmd)]: an exception or the exit status, and what the
      process did to the files. *)
  get_ffmpeg_exe : Exn + string;
  subprocess_run :
    list string -> gmap Path Content -> (Exn + Z) * gmap Path Content;
  (** The detector: the state of the model and one [predict_image] call. *)
  Model : Type;
  predict_image : Model -> Image -> float -> (Exn + list Detection) * Model;
}.

Context `{Ext : Externals}.

Record World := mkWorld {
  w_heap : gmap loc Image;
  w_calls : list (loc * DrawCall);
  w_fs : gmap Path Content;
  w_dirs : gset Path;
  w_cap : option Capture;
  w_writer : option Writer;
  w_model : Model;
}.

Definition set_heap (f : gmap loc Image -> gmap loc Image) (w : World) : World :=
  mkWorld (f (w_heap w)) (w_calls w) (w_fs w) (w_dirs w) (w_cap w) (w_writer w) (w_model w).
Definition set_calls (f : list (loc * DrawCall) -> list (loc * DrawCall)) (w : World) : World :=
  mkWorld (w_heap w) (f (w_calls w)) (w_fs w) (w_dirs w) (w_cap w) (w_writer w) (w_model w).
Definition set_fs (f : gmap Path Content -> gmap Path Content) (w : World) : World :=
  mkWorld (w_heap w) (w_calls w) (f (w_fs w)) (w_dirs w) (w_cap w) (w_writer w) (w_model w).
Definition set_dirs (f : gset Path -> gset Path) (w : World) : World :=
  mkWorld (w_heap w) (w_calls w) (w_fs w) (f (w_dirs w)) (w_cap w) (w_writer w) (w_model w).
Definition set_cap (c : option Capture) (w : World) : World :=
  mkWorld (w_heap w) (w_calls w) (w_fs w) (w_dirs w) c (w_writer w) (w_model w).
Definition set_writer (c : option Writer) (w : World) : World :=
  mkWorld (w_heap w) (w_calls w) (w_fs w) (w_dirs w) (w_cap w) c (w_model w).
Definition set_model (m : Model) (w : World) : World :=
  mkWorld (w_heap w) (w_calls w) (w_fs w) (w_dirs w) (w_cap w) (w_writer w) m.

(** ** The monad: state and exceptions *)

Definition M (A : Type) : Type := World -> Outcome A * World.

Definition ret {A} (a : A) : M A := fun w => (Returned a, w).

Definition bind {A B} (m : M A) (k : A -> M B) : M B :=
  fun w =>
    match m w with
    | (Returned a, w') => k a w'
    | (Raised e, w') => (Raised e, w')
    | (Stuck, w') => (Stuck, w')
    end.

Definition raise {A} (e : Exn) : M A := fun w => (Raised e, w).
Definition stuck {A} : M A := fun w => (Stuck, w).
Definition gets {A} (f : World -> A) : M A := fun w => (Returned (f w), w).
Definition modify (f : World -> World) : M unit := fun w => (Returned tt, f w).

(** [try: body / except Exception: handler]. *)
Definition try_except {A} (body : M A) (handler : Exn -> M A) : M A :=
  fun w =>
    match body w with
    | (Raised e, w') => handler e w'
    | r => r
    end.

(** [try: body / finally: cleanup]. *)
Definition try_finally {A} (body : M A) (cleanup : M unit) : M A :=
  fun w =>
    match body w with
    | (Stuck, w') => (Stuck, w')
    | (r, w') =>
        match cleanup w' with
        | (Returned _, w'') => (r, w'')
        | (Raised e, w'') => (Raised e, w'')
        | (Stuck, w'') => (Stuck, w'')
        end
    end.

Notation "x <- c ;; k" := (bind c (fun x => k))
  (at level 100, c at next level, right associativity) : py_scope.
Notation "c ;; k" := (bind c (fun _ => k))
  (at level 100, right associativity) : py_scope.
Local Open Scope py_scope.

(** [while True: body]; the body answers whether to go round again. *)
Fixpoint while_true {S} (fuel : nat) (body : S -> M (bool * S)) (s : S) : M S :=
  match fuel with
  | O => stuck
  | Datatypes.S fuel' =>
      r <- body s ;;
      if r.1 then while_true fuel' body r.2 else ret r.2
  end.

(** ** numpy arrays *)

Definition np_read (a : loc) : M Image :=
  fun w =>
    match w_heap w !! a with
    | Some img => (Returned img, w)
    | None => (Stuck, w)
    end.

Definition np_alloc (img : Image) : M loc :=
  fun w =>
    let a := fresh (dom (w_heap w)) in
    (Returned a, set_heap <[a := img]> w).

(** [a.copy()]. *)
Definition np_copy (a : loc) : M loc :=
  img <- np_read a ;; np_alloc img.

(** [a[:] = b]. *)
Definition np_assign (a b : loc) : M unit :=
  _ <- np_read a ;;
  img <- np_read b ;;
  modify (set_heap <[a := img]>).

(** [a.shape[:2]]. *)
Definition np_shape (a : loc) : M (Z * Z) :=
  img <- np_read a ;; ret (im_rows img, im_cols img).

(** ** OpenCV drawing, in place *)

Definition cv2_draw (a : loc) (c : DrawCall) : M unit :=
  img <- np_read a ;;
  modify (fun w => set_calls (fun l => l ++ [(a, c)]) (set_heap <[a := cv2_render c img]> w)).

Definition cv2_rectangle (a : loc) (pt1 pt2 : Z * Z) (color : Color) (thickness : Z) : M unit :=
  cv2_draw a (Rectangle pt1 pt2 color thickness).

Definition cv2_putText (a : loc) (text : string) (org : Z * Z) (fontScale : Q)
    (color : Color) (thickness : Z) : M unit :=
  cv2_draw a (PutText text org fontScale color thickness).

(** [cv2.addWeighted(a, alpha, b, beta, gamma)] returns a new array. *)
Definition cv2_blend (a : loc) (alpha : Q) (b : loc) (beta gamma : Q) : M loc :=
  ia <- np_read a ;;
  ib <- np_read b ;;
  np_alloc (cv2_addWeighted ia alpha ib beta gamma).

(** ** [detector/visualize.py] *)

(** Deterministic BGR colour for a class id. *)
Definition _color_for_class (class_id : Z) : Color :=
  let h := f_mod (f_mul (f_of_int class_id) (f_lit 0.61803398875)) (f_lit 1.0) in
  let '(r, g, b) := hsv_to_rgb h (f_lit 0.85) (f_lit 0.95) in
  (f_int (f_mul b (f_of_int 255)),
   f_int (f_mul g (f_of_int 255)),
   f_int (f_mul r (f_of_int 255))).

(** The colour of one legend row: the colour of the boxes when the name has
    one, a colour derived from the name otherwise. *)
Definition legend_color (colors : option (dict Color)) (name : string) : Color :=
  let derived := _color_for_class (md5_hex8 name mod 1000) in
  match colors with
  | Some ((_ :: _) as cs) =>
      match dict_get cs name with
      | Some color => color
      | None => derived
      end
  | _ => derived
  end.

(** The text of one legend row, [f"{name}: {counts.get(name, 0)}"]. *)
Definition legend_text (counts : dict Z) (name : string) : string :=
  name +:+ ": " +:+ str_of_int (default 0 (dict_get counts name)).

(** The [for name in class_names] loop of [_draw_legend]. *)
Fixpoint legend_rows (out : loc) (class_names : list string) (counts : dict Z)
    (colors : option (dict Color)) (x1 pad line_h y : Z) : M unit :=
  match class_names with
  | [] => ret tt
  | name :: rest =>
      let color := legend_color colors name in
      cv2_rectangle out (x1 + pad, y - 12) (x1 + pad + 14, y + 2) color (-1) ;;
      let txt := legend_text counts name in
      cv2_putText out txt (x1 + pad + 22, y) 0.55%Q (15, 23, 42) 2 ;;
      legend_rows out rest counts colors x1 pad line_h (y + line_h)
  end.

(** Draw a simple legend on the image (top-right). *)
Definition _draw_legend (out : loc) (class_names : list string) (counts : dict Z)
    (colors : option (dict Color)) : M unit :=
  match class_names with
  | [] => ret tt
  | _ :: _ =>
      let pad := 10 in
      let line_h := 22 in
      let box_w := 220 in
      let box_h := pad * 2 + line_h * Z.of_nat (length class_names) in
      hw <- np_shape out ;;
      let '(h, w) := hw in
      let x2 := w - 10 in
      let y1 := 10 in
      let x1 := Z.max 10 (x2 - box_w) in
      let y2 := Z.min (h - 10) (y1 + box_h) in
      overlay <- np_copy out ;;
      cv2_rectangle overlay (x1, y1) (x2, y2) (255, 255, 255) (-1) ;;
      blended <- cv2_blend overlay 0.75%Q out 0.25%Q 0%Q ;;
      np_assign out blended ;;
      cv2_rectangle out (x1, y1) (x2, y2) (203, 213, 225) 1 ;;
      legend_rows out class_names counts colors x1 pad line_h (y1 + pad + 16)
  end.

(** The [for det in detections] loop of [draw_detections_bgr]; it returns the
    two dicts it fills. *)
Fixpoint draw_boxes (out : loc) (detections : list Detection)
    (class_counts : dict Z) (class_colors : dict Color) : M (dict Z * dict Color) :=
  match detections with
  | [] => ret (class_counts, class_colors)
  | det :: rest =>
      let bx1 := f_int (x1 det) in
      let by1 := f_int (y1 det) in
      let bx2 := f_int (x2 det) in
      let by2 := f_int (y2 det) in
      let color := _color_for_class (class_id det) in
      let class_colors := dict_setdefault class_colors (class_name det) color in
      let class_counts :=
        dict_set class_counts (class_name det)
          (default 0 (dict_get class_counts (class_name det)) + 1) in
      cv2_rectangle out (bx1, by1) (bx2, by2) color 2 ;;
      let label := class_name det +:+ " " +:+ f_fmt2 (confidence det) in
      let '((tw, th), baseline) := cv2_getTextSize label 0.6%Q 2 in
      cv2_rectangle out (bx1, Z.max 0 (by1 - th - baseline - 6)) (bx1 + tw + 6, by1) color (-1) ;;
      cv2_putText out label (bx1 + 3, by1 - 4) 0.6%Q (0, 0, 0) 2 ;;
      draw_boxes out rest class_counts class_colors
  end.

(** The sort key of the legend, [(-class_counts[k], k)]. *)
Definition legend_key (class_counts : dict Z) (k : string) : Z * string :=
  (- default 0 (dict_get class_counts k), k).

(** Draw bounding boxes and labels on a copy of the image (BGR). *)
Definition draw_detections_bgr (image_bgr : loc) (detections : list Detection) : M loc :=
  out <- np_copy image_bgr ;;
  dicts <- draw_boxes out detections [] [] ;;
  let '(class_counts, class_colors) := dicts in
  match class_counts with
  | [] => ret out
  | _ :: _ =>
      let names := sorted_by (legend_key class_counts) (dict_keys class_counts) in
      _draw_legend out (take 12 names) class_counts (Some class_colors) ;;
      ret out
  end.

(** ** OpenCV video input and output *)

Inductive CapProp :=
| CAP_PROP_FPS
| CAP_PROP_FRAME_WIDTH
| CAP_PROP_FRAME_HEIGHT
| CAP_PROP_FRAME_COUNT.

Definition with_cap {A} (k : Capture -> M A) : M A :=
  fun w =>
    match w_cap w with
    | Some c => k c w
    | None => (Stuck, w)
    end.

Definition with_writer {A} (k : Writer -> M A) : M A :=
  fun w =>
    match w_writer w with
    | Some c => k c w
    | None => (Stuck, w)
    end.

(** [cap = cv2.VideoCapture(path)]. *)
Definition VideoCapture (path : Path) : M unit :=
  modify (fun w =>
    let v := w_fs w !! path ≫= cv2_demux in
    set_cap (Some (mkCapture v (from_option v_reads [] v) (bool_decide (is_Some v)))) w).

Definition cap_isOpened : M bool :=
  with_cap (fun c => ret (cap_opened c)).

(** [cap.get(prop)]; [0.0] when there is nothing to ask. *)
Definition cap_get (prop : CapProp) : M float :=
  with_cap (fun c =>
    match cap_video c with
    | Some v =>
        if cap_opened c then
          ret match prop with
              | CAP_PROP_FPS => v_fps v
              | CAP_PROP_FRAME_WIDTH => v_width v
              | CAP_PROP_FRAME_HEIGHT => v_height v
              | CAP_PROP_FRAME_COUNT => v_frame_count v
              end
        else ret (f_lit 0)
    | None => ret (f_lit 0)
    end).

(** [ok, frame = cap.read()]: every decoded frame is a new array. *)
Definition cap_read : M (bool * option loc) :=
  with_cap (fun c =>
    if cap_opened c then
      match cap_pending c with
      | [] => ret (false, None)
      | (ok, frame) :: rest =>
          modify (set_cap (Some (mkCapture (cap_video c) rest (cap_opened c)))) ;;
          match frame with
          | Some img => a <- np_alloc img ;; ret (ok, Some a)
          | None => ret (ok, None)
          end
      end
    else ret (false, None)).

(** [cap.set(cv2.CAP_PROP_POS_FRAMES, n)]; nothing happens on a source that
    cannot seek. *)
Definition cap_set_pos_frames (n : nat) : M unit :=
  with_cap (fun c =>
    match cap_video c with
    | Some v =>
        if cap_opened c && v_seekable v then
          modify (set_cap (Some (mkCapture (cap_video c) (drop n (v_reads v)) (cap_opened c))))
        else ret tt
    | None => ret tt
    end).

Definition cap_release : M unit :=
  with_cap (fun c =>
    modify (set_cap (Some (mkCapture (cap_video c) (cap_pending c) false)))).

(** [writer = cv2.VideoWriter(path, fourcc, fps, size)]: a writer that opens
    creates its file; none opens on a path that is a directory. *)
Definition VideoWriter (path : Path) (fourcc : string) (fps : float) (size : Z * Z) : M unit :=
  modify (fun w =>
    if negb (bool_decide (path ∈ w_dirs w)) &&
       cv2_writer_opens (w_fs w) (w_dirs w) path fourcc fps size then
      set_writer (Some (mkWriter path fourcc fps size [] true))
        (set_fs <[path := cv2_mux fourcc fps size []]> w)
    else
      set_writer (Some (mkWriter path fourcc fps size [] false)) w).

Definition writer_isOpened : M bool :=
  with_writer (fun c => ret (wr_opened c)).

Definition writer_write (frame : loc) : M unit :=
  img <- np_read frame ;;
  with_writer (fun c =>
    if wr_opened c then
      modify (set_writer (Some
        (mkWriter (wr_path c) (wr_fourcc c) (wr_fps c) (wr_size c) (wr_frames c ++ [img]) true)))
    else ret tt).

(** [writer.release()] finishes the file. *)
Definition writer_release : M unit :=
  with_writer (fun c =>
    if wr_opened c then
      modify (fun w =>
        set_writer (Some
          (mkWriter (wr_path c) (wr_fourcc c) (wr_fps c) (wr_size c) (wr_frames c) false))
          (set_fs <[wr_path c := cv2_mux (wr_fourcc c) (wr_fps c) (wr_size c) (wr_frames c)]> w))
    else ret tt).

(** ** pathlib and subprocess

    [w_fs] holds the files and [w_dirs] the directories; a path that both
    have is a file to the calls below.  Every call goes to the operating
    system, which may refuse it. *)

Definition fs_exists (fs : gmap Path Content) (dirs : gset Path) (p : Path) : bool :=
  bool_decide (is_Some (fs !! p)) || bool_decide (p ∈ dirs).

(** [p.exists()]: true of a file and of a directory.  An error of [os.stat]
    other than that nothing is there is raised. *)
Definition path_exists (p : Path) : M bool :=
  fun w =>
    match os_refuses (w_fs w) (w_dirs w) (OsStat p) with
    | Some e => (Raised e, w)
    | None => (Returned (fs_exists (w_fs w) (w_dirs w) p), w)
    end.

(** [p.mkdir(parents=True, exist_ok=True)]: the error of the system when it
    refuses, [FileExistsError] when a file is at [p]; otherwise [p] is a
    directory afterwards. *)
Definition path_mkdir (p : Path) : M unit :=
  fun w =>
    match os_refuses (w_fs w) (w_dirs w) (OsMkdir p), w_fs w !! p with
    | Some e, _ => (Raised e, w)
    | None, Some _ => (Raised (OSError "File exists"), w)
    | None, None => (Returned tt, set_dirs (fun d => {[p]} ∪ d) w)
    end.

(** [src.replace(dst)]: the error of the system when it refuses,
    [FileNotFoundError] when nothing is at [src], [IsADirectoryError] when
    [src] is a file and [dst] a directory; otherwise the file moves, and
    replaces a file at [dst].  The rename of a directory is not modelled:
    the pipeline renames the file of its writer only, which is no directory
    (see [stream_post]). *)
Definition path_replace (src dst : Path) : M unit :=
  fun w =>
    match os_refuses (w_fs w) (w_dirs w) (OsReplace src dst), w_fs w !! src with
    | Some e, _ => (Raised e, w)
    | None, Some c =>
        if bool_decide (dst ∈ w_dirs w) && negb (bool_decide (is_Some (w_fs w !! dst))) then
          (Raised (OSError "Is a directory"), w)
        else (Returned tt, set_fs (fun fs => <[dst := c]> (delete src fs)) w)
    | None, None =>
        if bool_decide (src ∈ w_dirs w) then (Stuck, w)
        else (Raised (OSError "No such file or directory"), w)
    end.

(** [p.unlink()]: the error of the system when it refuses,
    [FileNotFoundError] when nothing is at [p], and an error as well when
    [p] is a directory. *)
Definition path_unlink (p : Path) : M unit :=
  fun w =>
    match os_refuses (w_fs w) (w_dirs w) (OsUnlink p), w_fs w !! p with
    | Some e, _ => (Raised e, w)
    | None, Some _ => (Returned tt, set_fs (delete p) w)
    | None, None =>
        (Raised (OSError (if bool_decide (p ∈ w_dirs w) then "Is a directory"
                          else "No such file or directory")), w)
    end.

(** [p.with_suffix(suffix)] for a suffix that [pathlib] accepts, as
    [".raw.mp4"] is: [ValueError] for a path whose name is empty. *)
Definition path_with_suffix (p : Path) (suffix : string) : M Path :=
  if String.eqb (path_name p) "" then
    raise (ValueError (path_repr p +:+ " has an empty name"))
  else ret (with_suffix p suffix).

(** [from imageio_ffmpeg import get_ffmpeg_exe; get_ffmpeg_exe()]. *)
Definition import_get_ffmpeg_exe : M string :=
  match get_ffmpeg_exe with
  | inl e => raise e
  | inr exe => ret exe
  end.

(** [subprocess.run(cmd, check=True, ...)]. *)
Definition subprocess_run_check (cmd : list string) : M unit :=
  fun w =>
    match subprocess_run cmd (w_fs w) with
    | (inl e, fs') => (Raised e, set_fs (fun _ => fs') w)
    | (inr code, fs') =>
        (if code =? 0 then Returned tt else Raised (CalledProcessError code),
         set_fs (fun _ => fs') w)
    end.

(** [detector.predict_image(frame, conf=conf)]. *)
Definition detector_predict_image (frame : loc) (conf : float) : M (list Detection) :=
  img <- np_read frame ;;
  fun w =>
    match predict_image (w_model w) img conf with
    | (inl e, m) => (Raised e, set_model m w)
    | (inr dets, m) => (Returned dets, set_model m w)
    end.

(** ** [detector/video.py] *)

(** One entry of [per_frame]. *)
Record FrameRecord := mkFrameRecord {
  frame_index : Z;
  timestamp_s : float;
  detections : list (list (string * PyVal));
}.

(** The [meta] dict. *)
Record Meta := mkMeta {
  fps : float;
  width : Z;
  height : Z;
  total_frames : Z;
  frames_read : Z;
  frame_step : Z;
  sampled_frames : Z;
}.

(** The variables that the frame loop updates. *)
Record LoopState := mkLoop {
  frame_idx : Z;
  sampled : Z;
  flat : list Detection;
  per_frame : list FrameRecord;
}.

(** One round of [while True] (lines 53 to 73); [false] is [break]. *)
Definition loop_body (conf : float) (frame_step max_frames : Z) (fps : float)
    (st : LoopState) : M (bool * LoopState) :=
  r <- cap_read ;;
  match r with
  | (true, Some frame) =>
      sf <- (if frame_idx st mod frame_step =? 0 then
               dets <- detector_predict_image frame conf ;;
               let flat := flat st ++ dets in
               let sampled := sampled st + 1 in
               let per_frame :=
                 per_frame st ++
                 [ {| frame_index := frame_idx st;
                      timestamp_s :=
                        if f_truthy fps then f_div (f_of_int (frame_idx st)) fps
                        else f_lit 0.0;
                      detections := map asdict dets |} ] in
               frame <- draw_detections_bgr frame dets ;;
               ret (mkLoop (frame_idx st) sampled flat per_frame, frame)
             else ret (st, frame)) ;;
      let '(st, frame) := sf in
      writer_write frame ;;
      let frame_idx := frame_idx st + 1 in
      let st := mkLoop frame_idx (sampled st) (flat st) (per_frame st) in
      if negb (max_frames =? 0) && (max_frames <=? frame_idx) then ret (false, st)
      else ret (true, st)
  | _ => ret (false, st)
  end.

(** Enough rounds for the loop: one per pending read, and the failing one. *)
Definition loop_fuel : M nat :=
  with_cap (fun c => ret (S (length (cap_pending c)))).

(** The command line of the transcoder (lines 87 to 95). *)
Definition ffmpeg_cmd (ffmpeg : string) (raw_path output_path : Path) : list string :=
  [ ffmpeg; "-y";
    "-i"; raw_path;
    "-c:v"; "libx264";
    "-pix_fmt"; "yuv420p";
    "-movflags"; "+faststart";
    "-an";
    output_path ].

(** The transcode block, [try / except Exception / finally] (lines 81 to 110). *)
Definition transcode (raw_path output_path : Path) : M unit :=
  try_finally
    (try_except
       (ffmpeg <- import_get_ffmpeg_exe ;;
        let cmd := ffmpeg_cmd ffmpeg raw_path output_path in
        subprocess_run_check cmd)
       (fun _ =>
          try_except
            (raw_exists <- path_exists raw_path ;;
             go <- (if raw_exists then
                      out_exists <- path_exists output_path ;;
                      ret (negb out_exists)
                    else ret false) ;;
             if go then path_replace raw_path output_path else ret tt)
            (fun _ => ret tt)))
    (try_except
       (raw_exists <- path_exists raw_path ;;
        if raw_exists && negb (String.eqb raw_path output_path) then path_unlink raw_path
        else ret tt)
       (fun _ => ret tt)).

(** The local variables of [process_video] that are live after the frame
    loop. *)
Record Locals := mkLocals {
  l_fps : float;
  l_width : Z;
  l_height : Z;
  l_total_frames : Z;
  l_frame_step : Z;
  l_raw_path : Path;
  l_loop : LoopState;
}.

(** [process_video] up to the release of the two handles (lines 23 to 76). *)
Definition stream_frames (input_path output_path : Path) (conf : float)
    (frame_step max_frames : Z) : M Locals :=
  let frame_step := Z.max 1 frame_step in
  VideoCapture input_path ;;
  opened <- cap_isOpened ;;
  if negb opened then raise (ValueError ("Failed to open video: " +:+ input_path)) else
  fps <- cap_get CAP_PROP_FPS ;;
  let fps := if f_truthy fps then fps else f_lit 25.0 in
  width <- cap_get CAP_PROP_FRAME_WIDTH ;;
  let width := if f_truthy width then f_int width else 0 in
  height <- cap_get CAP_PROP_FRAME_HEIGHT ;;
  let height := if f_truthy height then f_int height else 0 in
  total_frames <- cap_get CAP_PROP_FRAME_COUNT ;;
  let total_frames := if f_truthy total_frames then f_int total_frames else 0 in
  hw <- (if (width <=? 0) || (height <=? 0) then
           r <- cap_read ;;
           match r with
           | (true, Some frame) =>
               hw <- np_shape frame ;;
               cap_set_pos_frames 0 ;;
               ret hw
           | _ => raise (ValueError ("Failed to read frames from video: " +:+ input_path))
           end
         else ret (height, width)) ;;
  let '(height, width) := hw in
  path_mkdir (path_parent output_path) ;;
  let fourcc := "mp4v" in
  raw_path <- path_with_suffix output_path ".raw.mp4" ;;
  VideoWriter raw_path fourcc fps (width, height) ;;
  wopened <- writer_isOpened ;;
  if negb wopened then raise (ValueError ("Failed to open video writer: " +:+ output_path)) else
  fuel <- loop_fuel ;;
  st <- while_true fuel (loop_body conf frame_step max_frames fps) (mkLoop 0 0 [] []) ;;
  cap_release ;;
  writer_release ;;
  ret (mkLocals fps width height total_frames frame_step raw_path st).

(** The returned triple (lines 112 to 121). *)
Definition pipeline_result (l : Locals) : Meta * list Detection * list FrameRecord :=
  let meta :=
    {| fps := l_fps l;
       width := l_width l;
       height := l_height l;
       total_frames := l_total_frames l;
       frames_read := frame_idx (l_loop l);
       frame_step := l_frame_step l;
       sampled_frames := sampled (l_loop l) |} in
  (meta, flat (l_loop l), per_frame (l_loop l)).

Definition process_video (input_path output_path : Path) (conf : float)
    (frame_step max_frames : Z) : M (Meta * list Detection * list FrameRecord) :=
  l <- stream_frames input_path output_path conf frame_step max_frames ;;
  transcode (l_raw_path l) output_path ;;
  ret (pipeline_result l).

(** ** Vocabulary of the statements *)

(** How often a class name occurs among the detections of a frame. *)
Definition class_count (dets : list Detection) (n : string) : Z :=
  Z.of_nat (length (filter (fun d => class_name d = n) dets)).

(** The colour of the boxes of a class name: that of its first detection. *)
Definition class_color (dets : list Detection) (n : string) : option Color :=
  match List.find (fun d => String.eqb (class_name d) n) dets with
  | Some d => Some (_color_for_class (class_id d))
  | None => None
  end.

(** [a] stands before [b] in the legend: more detections, or as many and a
    smaller name. *)
Definition ranks_before (dets : list Detection) (a b : string) : Prop :=
  class_count dets b < class_count dets a \/
  (class_count dets a = class_count dets b /\ String.ltb a b = true).

(** The three drawing calls of one bounding box. *)
Definition box_calls (det : Detection) : list DrawCall :=
  let bx1 := f_int (x1 det) in
  let by1 := f_int (y1 det) in
  let color := _color_for_class (class_id det) in
  let label := class_name det +:+ " " +:+ f_fmt2 (confidence det) in
  let '((tw, th), baseline) := cv2_getTextSize label 0.6%Q 2 in
  [ Rectangle (bx1, by1) (f_int (x2 det), f_int (y2 det)) color 2;
    Rectangle (bx1, Z.max 0 (by1 - th - baseline - 6)) (bx1 + tw + 6, by1) color (-1);
    PutText label (bx1 + 3, by1 - 4) 0.6%Q (0, 0, 0) 2 ].

(** The two drawing calls of legend row [i] of a panel whose left edge is
    [x1]: a filled swatch, then the name and the count. *)
Definition legend_entry_calls (x1 : Z) (i : nat) (color : Color) (name : string) (count : Z)
    : list DrawCall :=
  let y := 36 + 22 * Z.of_nat i in
  [ Rectangle (x1 + 10, y - 12) (x1 + 10 + 14, y + 2) color (-1);
    PutText (name +:+ ": " +:+ str_of_int count) (x1 + 10 + 22, y) 0.55%Q (15, 23, 42) 2 ].

(** A read that yields a frame. *)
Definition good_read (r : bool * option Image) : bool :=
  match r with
  | (true, Some _) => true
  | _ => false
  end.

(** How many frames a stream yields before its first failing read. *)
Fixpoint good_prefix (reads : list (bool * option Image)) : nat :=
  match reads with
  | r :: rest => if good_read r then S (good_prefix rest) else O
  | [] => O
  end.

(** The frame indices below [n] that a stride selects. *)
Definition sample_indices (frame_step n : Z) : list Z :=
  filter (fun i => i mod frame_step = 0) (seqZ 0 n).

(** Whether the container leaves the frame size to be probed. *)
Definition needs_probe (v : Video) : bool :=
  let width := if f_truthy (v_width v) then f_int (v_width v) else 0 in
  let height := if f_truthy (v_height v) then f_int (v_height v) else 0 in
  (width <=? 0) || (height <=? 0).

(** The reads that the frame loop finds pending: all of them, or all but the
    probed one on a source that cannot seek back. *)
Definition loop_stream (v : Video) : list (bool * option Image) :=
  if needs_probe v && negb (v_seekable v) then tail (v_reads v) else v_reads v.

(** How many frames the loop decodes from [reads] when it starts at index
    [idx]. *)
Definition loop_frames (max_frames idx : Z) (reads : list (bool * option Image)) : nat :=
  if max_frames =? 0 then good_prefix reads
  else Nat.min (good_prefix reads) (Z.to_nat (Z.max 1 (max_frames - idx))).

(** How many reads it takes from the capture for that. *)
Definition loop_reads (max_frames idx : Z) (reads : list (bool * option Image)) : nat :=
  let cut := Z.to_nat (Z.max 1 (max_frames - idx)) in
  if negb (max_frames =? 0) && (cut <=? good_prefix reads)%nat then cut
  else Nat.min (S (good_prefix reads)) (length reads).

(** The [try] part of the transcode block: whether it went through, and the
    files it leaves. *)
Definition ffmpeg_attempt (raw_path output_path : Path) (fs : gmap Path Content)
    : bool * gmap Path Content :=
  match get_ffmpeg_exe with
  | inl _ => (false, fs)
  | inr ffmpeg =>
      match subprocess_run (ffmpeg_cmd ffmpeg raw_path output_path) fs with
      | (inr code, fs') => (code =? 0, fs')
      | (inl _, fs') => (false, fs')
      end
  end.

(** What [p.exists()] answers, if it does. *)
Definition exists_answer (fs : gmap Path Content) (dirs : gset Path) (p : Path)
    : option bool :=
  match os_refuses fs dirs (OsStat p) with
  | Some _ => None
  | None => Some (fs_exists fs dirs p)
  end.

(** The files after the [except] part of the transcode block: the rename is
    made when both [exists()] answer, something is at the intermediate path
    and nothing at the final one, and the system does not refuse it. *)
Definition fallback_rename (raw_path output_path : Path) (dirs : gset Path)
    (fs : gmap Path Content) : gmap Path Content :=
  match exists_answer fs dirs raw_path, exists_answer fs dirs output_path,
        os_refuses fs dirs (OsReplace raw_path output_path), fs !! raw_path with
  | Some true, Some false, None, Some c => <[output_path := c]> (delete raw_path fs)
  | _, _, _, _ => fs
  end.

(** The files after its [finally] part: the intermediate file is removed
    when [exists()] answers that it is there, the two paths differ and the
    system does not refuse the removal. *)
Definition cleanup_raw (raw_path output_path : Path) (dirs : gset Path)
    (fs : gmap Path Content) : gmap Path Content :=
  match exists_answer fs dirs raw_path, os_refuses fs dirs (OsUnlink raw_path),
        fs !! raw_path with
  | Some true, None, Some _ =>
      if String.eqb raw_path output_path then fs else delete raw_path fs
  | _, _, _ => fs
  end.

(** The files that the whole transcode block leaves. *)
Definition after_transcode (raw_path output_path : Path) (dirs : gset Path)
    (fs : gmap Path Content) : gmap Path Content :=
  let attempt := ffmpeg_attempt raw_path output_path fs in
  cleanup_raw raw_path output_path dirs
    (if attempt.1 then attempt.2 else fallback_rename raw_path output_path dirs attempt.2).

(** What the frame loop has done when it ends in [st'] and [w'], having
    started in [st] and [w] with capture [c] and writer [wr]. *)
Definition loop_post (frame_step max_frames : Z) (st : LoopState) (w : World)
    (c : Capture) (wr : Writer) (st' : LoopState) (w' : World) : Prop :=
  let n := loop_frames max_frames (frame_idx st) (cap_pending c) in
  frame_idx st' = frame_idx st + Z.of_nat n /\
  (exists new,
     per_frame st' = per_frame st ++ new /\
     map frame_index new =
       filter (fun i => i mod frame_step = 0) (seqZ (frame_idx st) (Z.of_nat n)) /\
     sampled st' = sampled st + Z.of_nat (length new) /\
     map asdict (flat st') = map asdict (flat st) ++ concat (map detections new)) /\
  w_fs w' = w_fs w /\ w_dirs w' = w_dirs w /\
  w_cap w' =
    Some (mkCapture (cap_video c)
            (drop (loop_reads max_frames (frame_idx st) (cap_pending c)) (cap_pending c))
            true) /\
  (exists imgs,
     length imgs = n /\
     w_writer w' =
       Some (mkWriter (wr_path wr) (wr_fourcc wr) (wr_fps wr) (wr_size wr)
               (wr_frames wr ++ imgs) true)).

(** What [stream_frames] has done when it returns [l] in [w1], having started
    in [w]: the counters and lists of the loop, the two released handles and
    the intermediate file, at a path that is no directory. *)
Definition stream_post (input_path output_path : Path) (frame_step max_frames : Z)
    (w : World) (l : Locals) (w1 : World) : Prop :=
  exists v imgs,
    w_fs w !! input_path ≫= cv2_demux = Some v /\
    l_frame_step l = Z.max 1 frame_step /\
    l_raw_path l = with_suffix output_path ".raw.mp4" /\
    frame_idx (l_loop l) = Z.of_nat (loop_frames max_frames 0 (loop_stream v)) /\
    map frame_index (per_frame (l_loop l)) =
      sample_indices (Z.max 1 frame_step) (frame_idx (l_loop l)) /\
    sampled (l_loop l) = Z.of_nat (length (per_frame (l_loop l))) /\
    map asdict (flat (l_loop l)) = concat (map detections (per_frame (l_loop l))) /\
    w_cap w1 =
      Some (mkCapture (Some v)
              (drop (loop_reads max_frames 0 (loop_stream v)) (loop_stream v)) false) /\
    Z.of_nat (length imgs) = frame_idx (l_loop l) /\
    w_writer w1 =
      Some (mkWriter (l_raw_path l) "mp4v" (l_fps l) (l_width l, l_height l) imgs false) /\
    w_fs w1 =
      <[l_raw_path l := cv2_mux "mp4v" (l_fps l) (l_width l, l_height l) imgs]> (w_fs w) /\
    l_raw_path l ∉ w_dirs w1.

(** The two dicts of [draw_detections_bgr] after one more detection. *)
Definition counts_step (class_counts : dict Z) (det : Detection) : dict Z :=
  dict_set class_counts (class_name det)
    (default 0 (dict_get class_counts (class_name det)) + 1).

Definition colors_step (class_colors : dict Color) (det : Detection) : dict Color :=
  dict_setdefault class_colors (class_name det) (_color_for_class (class_id det)).

(** From [w] to [w'] no array that existed in [w] was freed, none but [out]
    was changed, and nothing outside the heap and the call log was touched. *)
Definition touches_only (out : loc) (w w' : World) : Prop :=
  (forall a, is_Some (w_heap w !! a) -> a <> out -> w_heap w' !! a = w_heap w !! a) /\
  (forall a, is_Some (w_heap w !! a) -> is_Some (w_heap w' !! a)) /\
  w_fs w' = w_fs w /\ w_dirs w' = w_dirs w /\ w_cap w' = w_cap w /\
  w_writer w' = w_writer w /\ w_model w' = w_model w.

(** Weakest precondition: [m] run in [w] is not stuck, and it meets [Q] when
    it returns and [R] when it raises. *)
Definition wp {A} (m : M A) (w : World)
    (Q : A -> World -> Prop) (R : Exn -> World -> Prop) : Prop :=
  match m w with
  | (Returned a, w') => Q a w'
  | (Raised e, w') => R e w'
  | (Stuck, _) => False
  end.

End Model.

Notation "x <- c ;; k" := (bind c (fun x => k))
  (at level 100, c at next level, right associativity) : py_scope.
Notation "c ;; k" := (bind c (fun _ => k))
  (at level 100, right associativity) : py_scope.

(** ** A small concrete platform

    Rationals stand for floats; a file is a video when its bytes are the
    frame width, the frame height and one byte per frame; the model reports
    one object per frame; ffmpeg is not installed and the operating system
    refuses nothing. *)

Module Demo.

Definition q_int (q : Q) : Z := Z.quot (Qnum q) (Z.pos (Qden q)).

#[export] Instance demo_float : PyFloat := {|
  float := Q;
  f_lit := fun q => q;
  f_of_int := inject_Z;
  f_mul := Qmult;
  f_div := Qdiv;
  f_mod := fun a b => Qminus a (Qmult b (inject_Z (q_int (Qdiv a b))));
  f_truthy := fun q => negb (Qeq_bool q 0);
  f_int := q_int;
  f_fmt2 := fun q =>
    str_of_int (q_int q) +:+ "." +:+ str_of_int (Z.abs (q_int (Qmult q 100)) mod 100);
|}.

Definition demo_frame (h w b : Z) : Image := mkImage h w [b].

Definition demo_demux (c : Content) : option Video :=
  match c with
  | w :: h :: frames =>
      Some (mkVideo 25%Q (inject_Z w) (inject_Z h) (inject_Z (Z.of_nat (length frames)))
              (map (fun b => (true, Some (demo_frame h w b))) frames) true)
  | _ => None
  end.

Definition demo_mux (fourcc : string) (fps : Q) (size : Z * Z) (frames : list Image) : Content :=
  size.1 :: size.2 :: map (fun img => hd 0 (im_data img)) frames.

Definition demo_predict (calls : nat) (img : Image) (conf : Q)
    : (Exn + list Detection) * nat :=
  (inr [mkDetection (hd 0 (im_data img)) "person" conf 1%Q 2%Q 5%Q 7%Q], S calls).

(** The platform, but for the transcoder and for what the operating system
    refuses. *)
Definition demo_platform_os (exe : Exn + string)
    (run : list string -> gmap Path Content -> (Exn + Z) * gmap Path Content)
    (os : OsCall -> option Exn)
    : Externals := {|
  hsv_to_rgb := fun h s v => (h, s, v);
  md5_hex8 := fun s => Z.of_nat (String.length s);
  cv2_render := fun c img => mkImage (im_rows img) (im_cols img) (map Z.succ (im_data img));
  cv2_getTextSize := fun s scale th => ((8 * Z.of_nat (String.length s), 12), 4);
  cv2_addWeighted := fun a alpha b beta gamma => a;
  cv2_demux := demo_demux;
  cv2_mux := demo_mux;
  cv2_writer_opens := fun fs dirs p fourcc fps size => (0 <? size.1) && (0 <? size.2);
  with_suffix := fun p s => p +:+ s;
  path_name := fun p => p;
  path_repr := fun p => "PosixPath('" +:+ p +:+ "')";
  path_parent := fun p => "/";
  os_refuses := fun fs dirs c => os c;
  get_ffmpeg_exe := exe;
  subprocess_run := run;
  Model := nat;
  predict_image := demo_predict;
|}.

(** An operating system that refuses nothing. *)
Definition demo_platform (exe : Exn + string)
    (run : list string -> gmap Path Content -> (Exn + Z) * gmap Path Content)
    : Externals :=
  demo_platform_os exe run (fun _ => None).

(** ffmpeg is not installed. *)
#[export] Instance demo_ext : Externals :=
  demo_platform (inl (ImportError "No module named 'imageio_ffmpeg'"))
    (fun cmd fs => (inr 0, fs)).

(** ffmpeg is installed; it creates its output file, the last argument, and
    exits with status 1 before it has written anything to it. *)
Definition demo_ext_failing : Externals :=
  demo_platform (inr "ffmpeg") (fun cmd fs => (inr 1, <[List.last cmd "" := []]> fs)).

(** A world with the given files and nothing else. *)
Definition demo_world (fs : gmap Path Content) : World :=
  mkWorld ∅ [] fs ∅ None None 0%nat.

(** A video of fourteen frames, 4 wide and 2 high. *)
Definition demo_clip : Content :=
  [4; 2; 10; 11; 12; 13; 14; 15; 16; 17; 18; 19; 20; 21; 22; 23].

Definition demo_input : World := demo_world {[ "in.mp4" := demo_clip ]}.

(** The same files on the platform whose transcoder fails. *)
Definition demo_input_failing : World (Ext := demo_ext_failing) :=
  mkWorld (Ext := demo_ext_failing) ∅ [] {[ "in.mp4" := demo_clip ]} ∅ None None 0%nat.

(** Whether a call returned. *)
Definition has_returned {E : Externals} {A} (x : Outcome A * World) : bool :=
  match x.1 with
  | Returned _ => true
  | _ => false
  end.

(** A container that gives neither a frame size nor a frame. *)
Definition demo_broken : World := demo_world {[ "in.mp4" := [0; 0] ]}.

(** A container whose frames are too narrow for the writer. *)
Definition demo_narrow : World := demo_world {[ "in.mp4" := [0; 2; 10; 11] ]}.

(** A world with one frame on the heap, at address 0, and three detections
    of two classes. *)
Definition demo_image : Image := mkImage 480 640 [7; 7; 7].

Definition demo_heap : World :=
  mkWorld {[ 0%nat := demo_image ]} [] ∅ ∅ None None 0%nat.

Definition demo_dets : list Detection :=
  [ mkDetection 2 "car" 0.9%Q 10%Q 20%Q 110%Q 90%Q;
    mkDetection 0 "person" 0.8%Q 200%Q 40%Q 260%Q 200%Q;
    mkDetection 0 "person" 0.7%Q 300%Q 50%Q 350%Q 210%Q ].

End Demo.

(** * More of the code *)

(** ** More words for [detector/video.py] *)

Section VideoVocabulary.
Context {FL : PyFloat} {Ext : Externals}.

(** [e] is an exception that [predict_image] can raise at this threshold. *)
Definition det_raises (conf : float) (e : Exn) : Prop :=
  exists m img, (predict_image m img conf).1 = inl e.

(** The [timestamp_s] of the record of frame [idx] (line 64). *)
Definition record_time (fps : float) (idx : Z) : float :=
  if f_truthy fps then f_div (f_of_int idx) fps else f_lit 0.0.

(** The frames [imgs] written for the reads [pending], the first of which has
    index [idx]: a frame that was not sampled, or whose record in [new] has no
    detection, is written as it was decoded. *)
Definition written_as_decoded (frame_step idx : Z) (pending : list (bool * option Image))
    (new : list FrameRecord) (imgs : list Image) : Prop :=
  forall (i : nat) rimg,
    pending !! i = Some (true, Some rimg) ->
    (i < length imgs)%nat ->
    ((idx + Z.of_nat i) mod frame_step <> 0 \/
     exists rec, rec ∈ new /\ frame_index rec = idx + Z.of_nat i /\ detections rec = []) ->
    imgs !! i = Some rimg.

(** What one round of the loop adds to [loop_body_wp]. *)
Definition body_more (frame_step : Z) (fps : float) (st : LoopState)
    (pending : list (bool * option Image)) (wr : Writer)
    (r : bool * LoopState) (w' : World) : Prop :=
  match pending with
  | (true, Some img) :: _ =>
      exists wimg new,
        w_writer w' =
          Some (mkWriter (wr_path wr) (wr_fourcc wr) (wr_fps wr) (wr_size wr)
                  (wr_frames wr ++ [wimg]) true) /\
        per_frame r.2 = per_frame st ++ new /\
        Forall (fun rec => frame_index rec = frame_idx st /\
                           timestamp_s rec = record_time fps (frame_idx st)) new /\
        (frame_idx st mod frame_step <> 0 -> wimg = img) /\
        (forall rec, rec ∈ new -> detections rec = [] -> wimg = img)
  | _ => True
  end.

(** What the loop adds to [loop_post]. *)
Definition loop_more (frame_step : Z) (fps : float) (st : LoopState) (c : Capture)
    (wr : Writer) (st' : LoopState) (w' : World) : Prop :=
  exists imgs new,
    w_writer w' =
      Some (mkWriter (wr_path wr) (wr_fourcc wr) (wr_fps wr) (wr_size wr)
              (wr_frames wr ++ imgs) true) /\
    per_frame st' = per_frame st ++ new /\
    Forall (fun rec => frame_idx st <= frame_index rec /\
                       timestamp_s rec = record_time fps (frame_index rec)) new /\
    written_as_decoded frame_step (frame_idx st) (cap_pending c) new imgs.

(** What [stream_frames] adds to [stream_post]: the frame rate and the frame
    size in force, the time stamps, the frames written and the directory
    made. *)
Definition stream_more (input_path output_path : Path) (frame_step : Z)
    (w : World) (l : Locals) (w1 : World) : Prop :=
  exists v imgs,
    w_fs w !! input_path ≫= cv2_demux = Some v /\
    l_fps l = (if f_truthy (v_fps v) then v_fps v else f_lit 25.0) /\
    l_total_frames l =
      (if f_truthy (v_frame_count v) then f_int (v_frame_count v) else 0) /\
    (if needs_probe v then
       exists img rest,
         v_reads v = (true, Some img) :: rest /\
         l_width l = im_cols img /\ l_height l = im_rows img
     else
       l_width l = f_int (v_width v) /\ l_height l = f_int (v_height v) /\
       0 < l_width l /\ 0 < l_height l) /\
    Forall (fun rec => timestamp_s rec = record_time (l_fps l) (frame_index rec))
      (per_frame (l_loop l)) /\
    w_writer w1 =
      Some (mkWriter (l_raw_path l) "mp4v" (l_fps l) (l_width l, l_height l) imgs false) /\
    written_as_decoded (Z.max 1 frame_step) 0 (loop_stream v) (per_frame (l_loop l)) imgs /\
    w_dirs w1 = {[path_parent output_path]} ∪ w_dirs w.

(** The state in which the frame loop is left by an exception of the
    detector: nothing on disk has changed and both handles are still open. *)
Definition loop_raise (conf : float) (w : World) (e : Exn) (w' : World) : Prop :=
  det_raises conf e /\
  w_fs w' = w_fs w /\ w_dirs w' = w_dirs w /\
  wr_opened <$> w_writer w' = Some true /\
  cap_opened <$> w_cap w' = Some true.

(** [e] is an exception that [p.mkdir(parents=True, exist_ok=True)] raises
    in [w]: what the system refuses it with, or that a file is in the way. *)
Definition mkdir_raises (w : World) (p : Path) (e : Exn) : Prop :=
  os_refuses (w_fs w) (w_dirs w) (OsMkdir p) = Some e \/
  (os_refuses (w_fs w) (w_dirs w) (OsMkdir p) = None /\ is_Some (w_fs w !! p) /\
   e = OSError "File exists").

(** The six ways in which [process_video] can raise, and what each leaves
    behind. *)
Definition stream_raise (input_path output_path : Path) (conf : float)
    (w : World) (e : Exn) (w' : World) : Prop :=
  (e = ValueError ("Failed to open video: " +:+ input_path) /\
   w_fs w !! input_path ≫= cv2_demux = None /\
   w_fs w' = w_fs w /\ w_dirs w' = w_dirs w /\ w_writer w' = w_writer w) \/
  (exists v,
     w_fs w !! input_path ≫= cv2_demux = Some v /\
     ((e = ValueError ("Failed to read frames from video: " +:+ input_path) /\
       needs_probe v = true /\ good_prefix (v_reads v) = O /\
       w_fs w' = w_fs w /\ w_dirs w' = w_dirs w /\ w_writer w' = w_writer w) \/
      (mkdir_raises w (path_parent output_path) e /\
       w_fs w' = w_fs w /\ w_dirs w' = w_dirs w /\ w_writer w' = w_writer w /\
       cap_opened <$> w_cap w' = Some true) \/
      (e = ValueError (path_repr output_path +:+ " has an empty name") /\
       path_name output_path = "" /\
       w_fs w' = w_fs w /\ w_dirs w' = {[path_parent output_path]} ∪ w_dirs w /\
       w_writer w' = w_writer w /\
       cap_opened <$> w_cap w' = Some true) \/
      (e = ValueError ("Failed to open video writer: " +:+ output_path) /\
       w_fs w' = w_fs w /\ w_dirs w' = {[path_parent output_path]} ∪ w_dirs w /\
       wr_opened <$> w_writer w' = Some false) \/
      (det_raises conf e /\
       is_Some (w_fs w' !! with_suffix output_path ".raw.mp4") /\
       w_dirs w' = {[path_parent output_path]} ∪ w_dirs w /\
       wr_opened <$> w_writer w' = Some true /\
       cap_opened <$> w_cap w' = Some true))).

(** The system never refuses the call [c]. *)
Definition os_allows (c : OsCall) : Prop :=
  forall fs dirs, os_refuses fs dirs c = None.

End VideoVocabulary.


(** ** More words for [detector/visualize.py] *)

Section VisualizeVocabulary.
Context {FL : PyFloat} {Ext : Externals}.

(** OpenCV draws in place: a drawing call keeps the shape of the array. *)
Definition shape_kept : Prop :=
  forall c img,
    im_rows (cv2_render c img) = im_rows img /\ im_cols (cv2_render c img) = im_cols img.

(** The corners of the legend panel of [n] rows on an image (lines 28 to
    37): it starts at height 10, ends 10 short of the right edge, is 220
    wide but starts no further left than 10, and is as high as its rows need
    but ends no lower than 10 short of the bottom edge. *)
Definition legend_x2 (img : Image) : Z := im_cols img - 10.

Definition legend_x1 (img : Image) : Z := Z.max 10 (legend_x2 img - 220).

Definition legend_y2 (img : Image) (n : nat) : Z :=
  Z.min (im_rows img - 10) (10 + (10 * 2 + 22 * Z.of_nat n)).

(** The sum of the counts that the legend prints for [names]. *)
Definition shown_total (counts : dict Z) (names : list string) : Z :=
  foldr Z.add 0 (map (fun n => default 0 (dict_get counts n)) names).

(** The sum of the values of a dict of counts. *)
Definition total (counts : dict Z) : Z := foldr Z.add 0 (map snd counts).

End VisualizeVocabulary.


(** ** Exceptions of the rest of the code

    The exceptions that the detector wrapper and the backend raise or catch
    by name, next to those of the libraries. *)

Inductive PyExn :=
| AssertionError
| AttributeError
| TypeError
| FileNotFoundError
| HTTPException (status_code : Z) (detail : string)
| LibError (e : Exn).

(** ** [detector/yolo_detector.py] *)

Module Yolo.
Section Yolo.
Context {FL : PyFloat}.

(** [r0.boxes]: the [N x 4] array [xyxy], which may be [None], and the
    arrays [conf] and [cls]. *)
Record Boxes := mkBoxes {
  b_xyxy : option (list (float * float * float * float));
  b_conf : list float;
  b_cls : list float;
}.

(** One element of the list that [model.predict] returns:
    [getattr(r0, "boxes", None)] and [getattr(r0, "names", None)]. *)
Record Result := mkResult {
  r_boxes : option Boxes;
  r_names : option (gmap Z string);
}.

(** The [ultralytics] package: the import, which may fail, the constructor
    [YOLO(model_name)], [getattr(model, "names", None)] and
    [model.predict(source=..., conf=..., verbose=False)]; and what the cast
    of numpy from a float to [int64] makes of a value whose integer part is
    no int64, which depends on the processor (x86-64 gives [-2^63]). *)
Class Ultralytics := {
  YOLO : Type;
  import_YOLO : option Exn;
  YOLO_new : string -> Exn + YOLO;
  yolo_names : YOLO -> option (gmap Z string);
  yolo_predict : YOLO -> Image -> float -> Exn + list Result;
  astype_overflow : float -> Z;
}.

Context {U : Ultralytics}.

(** The value of the low 64 bits of [z], read as a signed integer. *)
Definition to_int64 (z : Z) : Z := (z + 2 ^ 63) mod 2 ^ 64 - 2 ^ 63.

(** [a.astype(int)] on one entry (line 55): the cast to [int64], which
    drops the fraction of a value whose integer part is an int64. *)
Definition astype_int (x : float) : Z :=
  let i := f_int x in
  if (- 2 ^ 63 <=? i) && (i <? 2 ^ 63) then i else to_int64 (astype_overflow x).

Record YOLODetector := mkYOLODetector {
  model_name : string;
  _model : option YOLO;
}.

(** [YOLODetector(model_name)]. *)
Definition __init__ (model_name : string) : YOLODetector :=
  mkYOLODetector model_name None.

Definition _load (self : YOLODetector) : (PyExn + unit) * YOLODetector :=
  match _model self with
  | Some _ => (inr tt, self)
  | None =>
      match import_YOLO with
      | Some _ =>
          (inl (LibError (RuntimeError
             ("Ultralytics is not installed or failed to import. " +:+
              "Install requirements.txt and ensure your environment supports it."))),
           self)
      | None =>
          match YOLO_new (model_name self) with
          | inl e => (inl (LibError e), self)
          | inr m => (inr tt, mkYOLODetector (model_name self) (Some m))
          end
      end
  end.

(** [a or b] on two optional dicts: an empty dict is false. *)
Definition dict_or (a b : option (gmap Z string)) : option (gmap Z string) :=
  match a with
  | Some d => if decide (d = ∅) then b else a
  | None => b
  end.

(** [zip(xyxy, confs, cls_ids)]. *)
Fixpoint zip3 {A B C} (l1 : list A) (l2 : list B) (l3 : list C) : list (A * B * C) :=
  match l1, l2, l3 with
  | a :: l1, b :: l2, c :: l3 => (a, b, c) :: zip3 l1 l2 l3
  | _, _, _ => []
  end.

(** The body of the [for] loop (lines 61 to 72); [int(cid)] is the value of
    the int64 [cid]. *)
Definition detection_of (names : gmap Z string)
    (row : float * float * float * float * float * Z) : Detection :=
  let '(bx1, by1, bx2, by2, c, cid) := row in
  let name := default (str_of_int cid) (names !! cid) in
  mkDetection cid name c bx1 by1 bx2 by2.

(** Lines 45 to 73: from the results of the model to the detections. *)
Definition detections_of (m : YOLO) (results : list Result) : list Detection :=
  match results with
  | [] => []
  | r0 :: _ =>
      match r_boxes r0 with
      | None => []
      | Some boxes =>
          match b_xyxy boxes with
          | None => []
          | Some xyxy =>
              let confs := b_conf boxes in
              let cls_ids := map astype_int (b_cls boxes) in
              let names := default ∅ (dict_or (dict_or (yolo_names m) (r_names r0)) (Some ∅)) in
              map (detection_of names) (zip3 xyxy confs cls_ids)
          end
      end
  end.

(** Run inference on a BGR uint8 image. *)
Definition predict_image (self : YOLODetector) (image_bgr : Image) (conf : float)
    : (PyExn + list Detection) * YOLODetector :=
  match _load self with
  | (inl e, self) => (inl e, self)
  | (inr _, self) =>
      match _model self with
      | None => (inl AssertionError, self)
      | Some m =>
          match yolo_predict m image_bgr conf with
          | inl e => (inl (LibError e), self)
          | inr results => (inr (detections_of m results), self)
          end
      end
  end.

(** The table of class names in force (line 57): that of the model, or that
    of the result when the model has none or an empty one. *)
Definition names_in_force (m : YOLO) (r0 : Result) : gmap Z string :=
  match yolo_names m with
  | Some d => if decide (d = ∅) then default ∅ (r_names r0) else d
  | None => default ∅ (r_names r0)
  end.

Definition to_jsonable (detections : list Detection) : list (list (string * PyVal)) :=
  map asdict detections.

End Yolo.
End Yolo.


(** ** Values that [json] can write

    [None], [bool], [int], [float], [str], lists, and dicts with string keys
    in insertion order. *)

Section Json.
Context {FL : PyFloat}.

Local Unset Elimination Schemes.

Inductive Json :=
| JNone
| JBool (b : bool)
| JInt (i : Z)
| JFloat (x : float)
| JStr (s : string)
| JList (l : list Json)
| JDict (d : list (string * Json)).

Local Set Elimination Schemes.

(** The values that Python can build: the keys of a dict differ. *)
Fixpoint wf_json (j : Json) : bool :=
  match j with
  | JList l => forallb wf_json l
  | JDict d =>
      bool_decide (NoDup (map fst d)) && forallb (fun kv => let '(_, v) := kv in wf_json v) d
  | _ => true
  end.

Definition json_of_val (v : PyVal) : Json :=
  match v with
  | VInt i => JInt i
  | VStr s => JStr s
  | VFloat x => JFloat x
  end.

(** The dict that [asdict] gives, as a value. *)
Definition json_of_fields (d : list (string * PyVal)) : Json :=
  JDict (map (fun kv => (kv.1, json_of_val kv.2)) d).

(** The [meta] dict of [process_video] (lines 112 to 120) and one entry of
    its [per_frame] list (lines 62 to 66), as values. *)
Definition meta_dict (m : Meta) : dict Json :=
  [ ("fps", JFloat (fps m));
    ("width", JInt (width m));
    ("height", JInt (height m));
    ("total_frames", JInt (total_frames m));
    ("frames_read", JInt (frames_read m));
    ("frame_step", JInt (frame_step m));
    ("sampled_frames", JInt (sampled_frames m)) ].

Definition record_dict (r : FrameRecord) : dict Json :=
  [ ("frame_index", JInt (frame_index r));
    ("timestamp_s", JFloat (timestamp_s r));
    ("detections", JList (map json_of_fields (detections r))) ].

(** [d.get(k, default)] on a value: only a dict has [get]. *)
Definition py_get (j : Json) (k : string) (dflt : Json) : PyExn + Json :=
  match j with
  | JDict d => inr (default dflt (dict_get d k))
  | _ => inl AttributeError
  end.

(** [for x in j]: the elements of a list, the keys of a dict, the characters
    of a string (here the bytes of its text); nothing else can be
    iterated. *)
Definition py_iter (j : Json) : PyExn + list Json :=
  match j with
  | JList l => inr l
  | JDict d => inr (map (fun kv => JStr kv.1) d)
  | JStr s => inr (map (fun c => JStr (String c "")) (list_ascii_of_string s))
  | _ => inl TypeError
  end.

(** [d.update(other)] on dicts. *)
Definition dict_update {V} (d other : dict V) : dict V :=
  fold_left (fun acc kv => dict_set acc kv.1 kv.2) other d.

End Json.

(** ** A state-and-exception monad for the backend *)

Definition St (S A : Type) : Type := S -> (PyExn + A) * S.

Definition st_ret {S A} (a : A) : St S A := fun s => (inr a, s).

Definition st_bind {S A B} (m : St S A) (k : A -> St S B) : St S B :=
  fun s =>
    match m s with
    | (inr a, s') => k a s'
    | (inl e, s') => (inl e, s')
    end.

Definition st_raise {S A} (e : PyExn) : St S A := fun s => (inl e, s).

Definition st_lift {S A} (r : PyExn + A) : St S A := fun s => (r, s).

(** [try: body except <those that catches selects>: handler]. *)
Definition st_except {S A} (body : St S A) (catches : PyExn -> bool)
    (handler : PyExn -> St S A) : St S A :=
  fun s =>
    match body s with
    | (inl e, s') => if catches e then handler e s' else (inl e, s')
    | r => r
    end.

Declare Scope st_scope.
Delimit Scope st_scope with st.
Notation "x <- c ;; k" := (st_bind c (fun x => k))
  (at level 100, c at next level, right associativity) : st_scope.
Notation "c ;; k" := (st_bind c (fun _ => k))
  (at level 100, right associativity) : st_scope.

(** ** [backend/storage.py] *)

Module Storage.
Section Storage.
Context {FL : PyFloat}.
Local Open Scope st_scope.

(** What the storage layer takes from [json] and [pathlib]: what a file
    holds, the text that [json.dumps(data, indent=2, ensure_ascii=False)]
    gives, [json.loads], [p / name], [p.name] and [p.parent]. *)
Class Files := {
  Text : Type;
  json_dumps : Json -> Text;
  json_loads : Text -> Exn + Json;
  joinpath : Path -> string -> Path;
  path_name : Path -> string;
  parent : Path -> Path;
}.

Context {F : Files}.

(** The files with what they hold, the directories and the clock,
    [time.time()]. *)
Record Disk := mkDisk {
  files : gmap Path Text;
  dirs : gset Path;
  clock : float;
}.

Definition mkdir (p : Path) : St Disk unit :=
  fun d => (inr tt, mkDisk (files d) ({[p]} ∪ dirs d) (clock d)).

Definition write_text (p : Path) (t : Text) : St Disk unit :=
  fun d => (inr tt, mkDisk (<[p := t]> (files d)) (dirs d) (clock d)).

Definition read_text (p : Path) : St Disk Text :=
  fun d =>
    match files d !! p with
    | Some t => (inr t, d)
    | None => (inl FileNotFoundError, d)
    end.

Definition path_exists (p : Path) : St Disk bool :=
  fun d => (inr (bool_decide (is_Some (files d !! p))), d).

Definition time_time : St Disk float := fun d => (inr (clock d), d).

Definition analysis_dir (results_dir : Path) (analysis_id : string) : Path :=
  joinpath results_dir analysis_id.

Definition write_json (path : Path) (data : Json) : St Disk unit :=
  mkdir (parent path) ;;
  write_text path (json_dumps data).

Definition load_json (path : Path) : St Disk Json :=
  t <- read_text path ;;
  match json_loads t with
  | inl e => st_raise (LibError e)
  | inr j => st_ret j
  end.

Definition save_analysis_bundle (results_dir : Path) (analysis_id : string)
    (input_path preview_path : Path) (detections : list Detection)
    (model_name : string) (conf_threshold : float) (duration_ms : Z) : St Disk unit :=
  let adir := analysis_dir results_dir analysis_id in
  mkdir adir ;;
  now <- time_time ;;
  let meta :=
    [ ("analysis_id", JStr analysis_id);
      ("type", JStr "image");
      ("input_file", JStr (path_name input_path));
      ("preview_file", JStr (path_name preview_path));
      ("model", JStr model_name);
      ("conf_threshold", JFloat conf_threshold);
      ("duration_ms", JInt duration_ms);
      ("created_at", JInt (f_int now));
      ("num_detections", JInt (Z.of_nat (length detections))) ] in
  write_json (joinpath adir "detections.json") (JList (map json_of_fields (map asdict detections))) ;;
  write_json (joinpath adir "meta.json") (JDict meta).

Definition save_analysis_bundle_video (results_dir : Path) (analysis_id : string)
    (input_path preview_path output_video_path : Path)
    (detections_flat : list Detection) (detections_per_frame : list (dict Json))
    (model_name : string) (conf_threshold : float) (duration_ms : Z)
    (video_meta : dict Json) : St Disk unit :=
  let adir := analysis_dir results_dir analysis_id in
  mkdir adir ;;
  now <- time_time ;;
  let meta :=
    [ ("analysis_id", JStr analysis_id);
      ("type", JStr "video");
      ("input_file", JStr (path_name input_path));
      ("preview_file", JStr (path_name preview_path));
      ("output_video_file", JStr (path_name output_video_path));
      ("model", JStr model_name);
      ("conf_threshold", JFloat conf_threshold);
      ("duration_ms", JInt duration_ms);
      ("created_at", JInt (f_int now));
      ("num_detections", JInt (Z.of_nat (length detections_flat))) ] in
  let meta := dict_update meta video_meta in
  write_json (joinpath adir "detections.json")
    (JList (map json_of_fields (map asdict detections_flat))) ;;
  write_json (joinpath adir "detections_per_frame.json") (JList (map JDict detections_per_frame)) ;;
  write_json (joinpath adir "meta.json") (JDict meta).

Definition load_analysis_meta (results_dir : Path) (analysis_id : string) : St Disk Json :=
  load_json (joinpath (analysis_dir results_dir analysis_id) "meta.json").

Definition load_analysis_detections (results_dir : Path) (analysis_id : string) : St Disk Json :=
  load_json (joinpath (analysis_dir results_dir analysis_id) "detections.json").

Definition load_analysis_detections_per_frame (results_dir : Path) (analysis_id : string)
    : St Disk Json :=
  load_json (joinpath (analysis_dir results_dir analysis_id) "detections_per_frame.json").

(** [json.loads] gives back the value whose text [json.dumps] wrote. *)
Definition codec_ok : Prop :=
  forall j, wf_json j = true -> json_loads (json_dumps j) = inr j.

(** The three files of a bundle are three files. *)
Definition bundle_paths_differ (adir : Path) : Prop :=
  joinpath adir "detections.json" <> joinpath adir "meta.json" /\
  joinpath adir "detections_per_frame.json" <> joinpath adir "meta.json" /\
  joinpath adir "detections.json" <> joinpath adir "detections_per_frame.json".

End Storage.
End Storage.


(** ** [backend/crud.py]: the rows of the detections table *)

Module Crud.
Section Crud.
Context {FL : PyFloat}.

(** A [backend.models.Detection] that has not been flushed yet. *)
Record DetectionRow := mkDetectionRow {
  analysis_fk : Z;
  row_class_id : Z;
  row_class_name : string;
  row_confidence : float;
  row_x1 : Z;
  row_y1 : Z;
  row_x2 : Z;
  row_y2 : Z;
}.

(** The objects that a session holds for the next flush, in the order of
    [db.add]. *)
Definition Session := list DetectionRow.

Definition bulk_create_detections (db : Session) (analysis_pk : Z)
    (detections : list Detection) : Session :=
  let rows :=
    map (fun d =>
           mkDetectionRow analysis_pk (class_id d) (class_name d) (confidence d)
             (f_int (x1 d)) (f_int (y1 d)) (f_int (x2 d)) (f_int (y2 d)))
        detections in
  db ++ rows.

End Crud.
End Crud.

(** ** [backend/main.py]: the helpers and the read-only endpoints *)

Module Api.
Section Api.
Context {FL : PyFloat} {F : Storage.Files}.
Import Storage.
Local Open Scope st_scope.




(** What [csv.writer(buf).writerow(row)] appends to the buffer. *)
Class Csv := {
  csv_row : list Json -> string;
}.

Context {C : Csv}.

Record Response := mkResponse {
  content : string;
  media_type : string;
  headers : dict string;
}.

Record FileResponse := mkFileResponse {
  fr_path : Path;
  fr_media_type : option string;
}.

Definition is_FileNotFoundError (e : PyExn) : bool :=
  match e with
  | FileNotFoundError => true
  | _ => false
  end.

(** [GET /api/analysis/{analysis_id}]; [results_dir] is
    [settings.results_dir]. *)
Definition get_analysis_api (results_dir : Path) (analysis_id : string) : St Disk (dict Json) :=
  md <- st_except
          (meta <- load_analysis_meta results_dir analysis_id ;;
           dets <- load_analysis_detections results_dir analysis_id ;;
           st_ret (meta, dets))
          is_FileNotFoundError
          (fun _ => st_raise (HTTPException 404 "Analysis not found")) ;;
  st_ret [("meta", md.1); ("detections", md.2)].

(** The row of one detection (lines 515 to 523). *)
Definition csv_detection_row (d : Json) : PyExn + list Json :=
  match d with
  | JDict f =>
      inr (map (fun k => default JNone (dict_get f k))
             ["class_id"; "class_name"; "confidence"; "x1"; "y1"; "x2"; "y2"])
  | _ => inl AttributeError
  end.

(** The [for d in dets] loop: the rows written before the first element that
    has no [get], and that exception. *)
Fixpoint csv_detection_rows (dets : list Json) : list (list Json) * option PyExn :=
  match dets with
  | [] => ([], None)
  | d :: rest =>
      match csv_detection_row d with
      | inl e => ([], Some e)
      | inr row =>
          let '(rows, err) := csv_detection_rows rest in
          (row :: rows, err)
      end
  end.

(** [GET /api/analysis/{analysis_id}/export.csv]. *)
Definition export_csv (results_dir : Path) (analysis_id : string) : St Disk Response :=
  md <- st_except
          (meta <- load_analysis_meta results_dir analysis_id ;;
           dets <- load_analysis_detections results_dir analysis_id ;;
           st_ret (meta, dets))
          is_FileNotFoundError
          (fun _ => st_raise (HTTPException 404 "Analysis not found")) ;;
  let '(meta, dets) := md in
  v1 <- st_lift (py_get meta "analysis_id" (JStr analysis_id)) ;;
  v2 <- st_lift (py_get meta "model" (JStr "")) ;;
  v3 <- st_lift (py_get meta "conf_threshold" (JStr "")) ;;
  v4 <- st_lift (py_get meta "duration_ms" (JStr "")) ;;
  let head :=
    [ [JStr "analysis_id"; v1];
      [JStr "model"; v2];
      [JStr "conf_threshold"; v3];
      [JStr "duration_ms"; v4];
      [];
      map JStr ["class_id"; "class_name"; "confidence"; "x1"; "y1"; "x2"; "y2"] ] in
  ds <- st_lift (py_iter dets) ;;
  match csv_detection_rows ds with
  | (_, Some e) => st_raise e
  | (rows, None) =>
      st_ret (mkResponse
                (String.concat "" (map csv_row (head ++ rows)))
                "text/csv; charset=utf-8"
                [("Content-Disposition",
                  "attachment; filename=" +:+ analysis_id +:+ "_detections.csv")])
  end.

(** [bool(j)]. *)
Definition py_truthy (j : Json) : bool :=
  match j with
  | JNone => false
  | JBool b => b
  | JInt i => negb (i =? 0)
  | JFloat x => f_truthy x
  | JStr s => negb (String.eqb s "")
  | JList l => match l with [] => false | _ => true end
  | JDict d => match d with [] => false | _ => true end
  end.

(** [j != s] for a string [s]. *)
Definition differs_from_str (j : Json) (s : string) : bool :=
  match j with
  | JStr t => negb (String.eqb t s)
  | _ => true
  end.

(** [GET /api/analysis/{analysis_id}/video]. *)
Definition get_output_video (results_dir : Path) (analysis_id : string) : St Disk FileResponse :=
  let meta_path := joinpath (analysis_dir results_dir analysis_id) "meta.json" in
  there <- path_exists meta_path ;;
  if negb there then st_raise (HTTPException 404 "Analysis not found") else
  meta <- load_analysis_meta results_dir analysis_id ;;
  type <- st_lift (py_get meta "type" JNone) ;;
  if differs_from_str type "video" then
    st_raise (HTTPException 400 "This analysis is not a video analysis")
  else
  named <- st_lift (py_get meta "output_video_file" JNone) ;;
  let vfile := if py_truthy named then named else JStr "output.mp4" in
  match vfile with
  | JStr name =>
      let vpath := joinpath (analysis_dir results_dir analysis_id) name in
      there <- path_exists vpath ;;
      if negb there then st_raise (HTTPException 404 "Output video not found") else
      st_ret (mkFileResponse vpath (Some "video/mp4"))
  | _ => st_raise TypeError
  end.

End Api.
End Api.


(** ** [backend/reporting.py] *)

Module Reporting.
Section Reporting.
Context {FL : PyFloat} {F : Storage.Files}.
Import Storage.
Local Open Scope st_scope.

(** The calls on a [reportlab] canvas that the report makes. *)
Inductive CanvasCall (Img : Type) :=
| SetFont (name : string) (size : Z)
| DrawString (x y : float) (text : string)
| DrawImage (img : Img) (x y width height : float)
| ShowPage.
Arguments SetFont {Img} name size.
Arguments DrawString {Img} x y text.
Arguments DrawImage {Img} img x y width height.
Arguments ShowPage {Img}.

(** What the report takes from [reportlab] and from Python: the imports of
    lines 19 to 22, which may fail; the page size [A4] and the unit [mm];
    [ImageReader] on what a file holds, and whether [drawImage] raises on its
    result; the document that [save] writes for the calls of a canvas; float
    addition, subtraction and [<]; and [str] of a float, a list and a
    dict. *)
Class Reportlab := {
  import_reportlab : option Exn;
  A4 : float * float;
  mm : float;
  Img : Type;
  ImageReader : Text -> Exn + Img;
  drawImage_raises : Img -> option Exn;
  pdf_of : list (CanvasCall Img) -> Text;
  f_add : float -> float -> float;
  f_sub : float -> float -> float;
  f_ltb : float -> float -> bool;
  py_repr : Json -> string;
}.

Context {R : Reportlab}.

(** [str(j)]. *)
Definition py_str (j : Json) : string :=
  match j with
  | JStr s => s
  | JInt i => str_of_int i
  | JNone => "None"
  | JBool true => "True"
  | JBool false => "False"
  | _ => py_repr j
  end.

(** [len(j)]. *)
Definition py_len (j : Json) : PyExn + Z :=
  match j with
  | JList l => inr (Z.of_nat (length l))
  | JDict d => inr (Z.of_nat (length d))
  | JStr s => inr (Z.of_nat (String.length s))
  | _ => inl TypeError
  end.

(** [n * mm]. *)
Definition mmf (n : Z) : float := f_mul (f_of_int n) mm.

(** The [for d in detections] loop (lines 53 to 56); an element that has no
    [get] ends it with an exception. *)
Fixpoint count_classes (ds : list Json) (counts : dict Z) : PyExn + dict Z :=
  match ds with
  | [] => inr counts
  | d :: rest =>
      match py_get d "class_name" (JStr "") with
      | inl e => inl e
      | inr v =>
          let name := py_str v in
          let counts :=
            if negb (String.eqb name "")
            then dict_set counts name (default 0 (dict_get counts name) + 1)
            else counts in
          count_classes rest counts
      end
  end.

(** The sort key of line 57, [(-kv[1], kv[0])]. *)
Definition top_key (kv : string * Z) : Z * string := (- kv.2, kv.1).

(** A canvas, by the calls made on it, and the height [y] of the next
    line. *)
Definition Cursor : Type := list (CanvasCall Img) * float.

(** Lines 29 to 35: the title and the three lines of the meta dict. *)
Definition draw_header (h : float) (meta : Json) : PyExn + list (CanvasCall Img) :=
  let c : list (CanvasCall Img) := [] in
  let c := c ++ [SetFont "Helvetica-Bold" 16] in
  let c := c ++ [DrawString (mmf 20) (f_sub h (mmf 20)) "Object Detection Hub — Raport"] in
  let c := c ++ [SetFont "Helvetica" 10] in
  match py_get meta "analysis_id" (JStr "") with
  | inl e => inl e
  | inr v =>
      let c := c ++ [DrawString (mmf 20) (f_sub h (mmf 26)) ("Analysis ID: " +:+ py_str v)] in
      match py_get meta "type" (JStr "image") with
      | inl e => inl e
      | inr v =>
          let c := c ++ [DrawString (mmf 20) (f_sub h (mmf 31)) ("Typ: " +:+ py_str v)] in
          match py_get meta "model" (JStr ""), py_get meta "conf_threshold" (JStr ""),
                py_get meta "duration_ms" (JStr "") with
          | inr v1, inr v2, inr v3 =>
              inr (c ++ [DrawString (mmf 20) (f_sub h (mmf 36))
                           ("Model: " +:+ py_str v1 +:+ " | conf: " +:+ py_str v2 +:+
                            " | czas: " +:+ py_str v3 +:+ " ms")])
          | inl e, _, _ => inl e
          | _, inl e, _ => inl e
          | _, _, inl e => inl e
          end
      end
  end.

(** Lines 40 to 49: the preview image, when there is one that can be
    drawn. *)
Definition draw_preview (preview_image_path : option Path) (cy : Cursor) : St Disk Cursor :=
  match preview_image_path with
  | None => st_ret cy
  | Some p =>
      there <- path_exists p ;;
      if there then
        content <- read_text p ;;
        match ImageReader content with
        | inl _ => st_ret cy
        | inr img =>
            let box_w := mmf 170 in
            let box_h := mmf 95 in
            match drawImage_raises img with
            | Some _ => st_ret cy
            | None =>
                st_ret (cy.1 ++ [DrawImage img (mmf 20) (f_sub cy.2 box_h) box_w box_h],
                        f_sub cy.2 (f_add box_h (mmf 8)))
            end
        end
      else st_ret cy
  end.

(** The [for line in extra_lines[:6]] loop. *)
Definition draw_extra_lines (lines : list string) (cy : Cursor) : Cursor :=
  fold_left (fun (cy : Cursor) line =>
               (cy.1 ++ [DrawString (mmf 20) cy.2 line], f_sub cy.2 (mmf 5)))
            lines cy.

(** The line of one class in the report. *)
Definition class_line (kv : string * Z) : string :=
  "• " +:+ kv.1 +:+ ": " +:+ str_of_int kv.2.

(** The [for name, cnt in top[:20]] loop, with its page breaks. *)
Definition draw_class_lines (h : float) (top : list (string * Z)) (cy : Cursor) : Cursor :=
  fold_left (fun (cy : Cursor) (kv : string * Z) =>
               let c := cy.1 ++ [DrawString (mmf 24) cy.2 (class_line kv)] in
               let y := f_sub cy.2 (mmf 5) in
               if f_ltb y (mmf 20)
               then (c ++ [ShowPage; SetFont "Helvetica" 10], f_sub h (mmf 20))
               else (c, y))
            top cy.

(** Lines 59 to 87: the summary, the extra lines, the classes and the end of
    the last page. *)
Definition draw_summary (h : float) (n : Z) (extra_lines : option (list string))
    (top : list (string * Z)) (cy : Cursor) : list (CanvasCall Img) :=
  let '(c, y) := cy in
  let c := c ++ [SetFont "Helvetica-Bold" 12] in
  let c := c ++ [DrawString (mmf 20) y "Podsumowanie"] in
  let y := f_sub y (mmf 6) in
  let c := c ++ [SetFont "Helvetica" 10] in
  let c := c ++ [DrawString (mmf 20) y ("Liczba detekcji: " +:+ str_of_int n)] in
  let y := f_sub y (mmf 6) in
  let '(c, y) :=
    match extra_lines with
    | Some ((_ :: _) as lines) => draw_extra_lines (take 6 lines) (c, y)
    | _ => (c, y)
    end in
  let y := f_sub y (mmf 2) in
  let c := c ++ [SetFont "Helvetica-Bold" 11] in
  let c := c ++ [DrawString (mmf 20) y "Wykryte klasy (Top)"] in
  let y := f_sub y (mmf 6) in
  let c := c ++ [SetFont "Helvetica" 10] in
  let '(c, y) := draw_class_lines h (take 20 top) (c, y) in
  c ++ [ShowPage].

(** Generate a simple PDF report for an analysis. *)
Definition generate_pdf_report (out_path : Path) (meta detections : Json)
    (preview_image_path : option Path) (extra_lines : option (list string)) : St Disk unit :=
  match import_reportlab with
  | Some e => st_raise (LibError e)
  | None =>
      mkdir (parent out_path) ;;
      let '(w, h) := A4 in
      c <- st_lift (draw_header h meta) ;;
      cy <- draw_preview preview_image_path (c, f_sub h (mmf 46)) ;;
      ds <- st_lift (py_iter detections) ;;
      counts <- st_lift (count_classes ds []) ;;
      let top := sorted_by top_key counts in
      n <- st_lift (py_len detections) ;;
      let c := draw_summary h n extra_lines top cy in
      write_text out_path (pdf_of c)
  end.

(** The texts that a list of canvas calls draws, in order. *)
Definition texts (c : list (CanvasCall Img)) : list string :=
  omap (fun call => match call with DrawString _ _ t => Some t | _ => None end) c.

(** The lines of the header for a meta dict. *)
Definition header_texts (meta : dict Json) : list string :=
  let field k dflt := py_str (default (JStr dflt) (dict_get meta k)) in
  [ "Object Detection Hub — Raport";
    "Analysis ID: " +:+ field "analysis_id" "";
    "Typ: " +:+ field "type" "image";
    "Model: " +:+ field "model" "" +:+ " | conf: " +:+ field "conf_threshold" "" +:+
      " | czas: " +:+ field "duration_ms" "" +:+ " ms" ].

End Reporting.

Arguments SetFont {FL Img} name size.
Arguments DrawString {FL Img} x y text.
Arguments DrawImage {FL Img} img x y width height.
Arguments ShowPage {FL Img}.

End Reporting.

(** ** More concrete inputs *)

Module MoreDemo.
Import Demo.

(** ffmpeg is installed; it copies its input, the fourth argument, to its
    output, the last one, and fails when there is no input. *)
Definition demo_ext_ok : Externals :=
  demo_platform (inr "ffmpeg")
    (fun cmd fs =>
       match fs !! nth 3 cmd "" with
       | Some c => (inr 0, <[List.last cmd "" := c]> fs)
       | None => (inr 1, fs)
       end).

Definition demo_input_ok : World (Ext := demo_ext_ok) :=
  mkWorld (Ext := demo_ext_ok) ∅ [] {[ "in.mp4" := demo_clip ]} ∅ None None 0%nat.

(** The same transcoder on a system that refuses every [unlink]. *)
Definition demo_ext_locked : Externals :=
  demo_platform_os (inr "ffmpeg")
    (fun cmd fs =>
       match fs !! nth 3 cmd "" with
       | Some c => (inr 0, <[List.last cmd "" := c]> fs)
       | None => (inr 1, fs)
       end)
    (fun c =>
       match c with
       | OsUnlink _ => Some (OSError "Permission denied")
       | _ => None
       end).

Definition demo_input_locked : World (Ext := demo_ext_locked) :=
  mkWorld (Ext := demo_ext_locked) ∅ [] {[ "in.mp4" := demo_clip ]} ∅ None None 0%nat.

(** ffmpeg is not installed, and the system refuses every rename. *)
Definition demo_ext_norename : Externals :=
  demo_platform_os (inl (ImportError "No module named 'imageio_ffmpeg'"))
    (fun cmd fs => (inr 0, fs))
    (fun c =>
       match c with
       | OsReplace _ _ => Some (OSError "Permission denied")
       | _ => None
       end).

Definition demo_input_norename : World (Ext := demo_ext_norename) :=
  mkWorld (Ext := demo_ext_norename) ∅ [] {[ "in.mp4" := demo_clip ]} ∅ None None 0%nat.

(** Whether a call raised. *)
Definition has_raised {E : Externals} {A} (x : Outcome A * World) : bool :=
  match x.1 with
  | Raised _ => true
  | _ => false
  end.

(** ultralytics with a model that names the classes 0 and 2 and finds three
    boxes, the last one of a class that its table does not list, with one
    confidence too many; it rejects a threshold above 1. *)
Definition demo_yolo : Yolo.Ultralytics := {|
  Yolo.YOLO := string;
  Yolo.import_YOLO := None;
  Yolo.YOLO_new := fun name =>
    if String.eqb name "" then inl (OSError "No such file or directory") else inr name;
  Yolo.yolo_names := fun _ => Some {[ 0 := "person"; 2 := "car" ]};
  Yolo.yolo_predict := fun m img conf =>
    if Qle_bool conf 1 then
      inr [ Yolo.mkResult
              (Some (Yolo.mkBoxes
                       (Some [ (10, 20, 110, 90); (200, 40, 260, 200); (1, 2, 5, 7) ]%Q)
                       [0.9; 0.8; 0.7; 0.6]%Q
                       [2; 0; 7]%Q))
              None ]
    else inl (ValueError "conf");
  Yolo.astype_overflow := fun _ => - 2 ^ 63;
|}.

(** ultralytics is not installed. *)
Definition demo_yolo_missing : Yolo.Ultralytics := {|
  Yolo.YOLO := string;
  Yolo.import_YOLO := Some (ImportError "No module named 'ultralytics'");
  Yolo.YOLO_new := fun name => inr name;
  Yolo.yolo_names := fun _ => None;
  Yolo.yolo_predict := fun m img conf => inr [];
  Yolo.astype_overflow := fun _ => - 2 ^ 63;
|}.

(** Paths with [/] between their parts. *)
Fixpoint path_parts (cur : string) (p : string) : list string :=
  match p with
  | EmptyString => [cur]
  | String c rest =>
      if Ascii.eqb c "/" then cur :: path_parts "" rest
      else path_parts (cur +:+ String c "") rest
  end.

Definition demo_name (p : Path) : string := List.last (path_parts "" p) "".

Definition demo_parent (p : Path) : Path :=
  String.concat "/" (removelast (path_parts "" p)).

(** Files that hold the value itself for a text, so that reading gives back
    what was written. *)
Definition demo_files : Storage.Files := {|
  Storage.Text := Json;
  Storage.json_dumps := fun j => j;
  Storage.json_loads := fun t => inr t;
  Storage.joinpath := fun p name => p +:+ "/" +:+ name;
  Storage.path_name := demo_name;
  Storage.parent := demo_parent;
|}.

(** An empty disk, some time in 2023. *)
Definition demo_disk : Storage.Disk (F := demo_files) :=
  Storage.mkDisk (F := demo_files) ∅ ∅ 1700000000.5%Q.

(** A disk on which the output video of analysis [abc] is in place. *)
Definition demo_disk_video : Storage.Disk (F := demo_files) :=
  Storage.mkDisk (F := demo_files) {[ "results/abc/output.mp4" := JNone ]} ∅ 1700000000.5%Q.

(** A [video_meta] that sets the type anew. *)
Definition demo_video_meta : dict Json :=
  [ ("video", JDict [("fps", JFloat 25%Q)]); ("type", JStr "clip") ].

(** A CSV writer that quotes nothing: the fields with commas between them
    and a line end. *)
Definition demo_field (j : Json) : string :=
  match j with
  | JStr s => s
  | JInt i => str_of_int i
  | JFloat x => f_fmt2 x
  | JBool true => "True"
  | JBool false => "False"
  | _ => ""
  end.

Definition demo_csv : Api.Csv := {|
  Api.csv_row := fun row =>
    String.concat "," (map demo_field row) +:+ String "013" (String "010" "");
|}.

(** reportlab on the demo files: an image is what its file holds, every image
    can be drawn, and the document lists the calls of the canvas: the text of
    a string, [None] for the end of a page, [True] for anything else. *)
Definition demo_reportlab : Reporting.Reportlab (FL := demo_float) (F := demo_files) :=
  Reporting.Build_Reportlab (FL := demo_float) (F := demo_files)
    None
    (595.27, 841.89)%Q
    2.83%Q
    Json
    (fun t => inr t)
    (fun _ => None)
    (fun c =>
       JList (map (fun call =>
                     match call with
                     | Reporting.DrawString _ _ t => JStr t
                     | Reporting.ShowPage => JNone
                     | _ => JBool true
                     end) c))
    Qplus
    Qminus
    (fun a b => negb (Qle_bool b a))
    (fun j => match j with JFloat x => f_fmt2 x | _ => "..." end).

(** The meta dict and the extra lines of a report. *)
Definition demo_meta : Json :=
  JDict [ ("analysis_id", JStr "abc"); ("model", JStr "yolov8n.pt");
          ("conf_threshold", JFloat 0.25%Q); ("duration_ms", JInt 120) ].

Definition demo_extra : list string :=
  ["one"; "two"; "three"; "four"; "five"; "six"; "seven"].

(** Whether a call gave a value, and whether it gave an exception. *)
Definition is_inr {E A S} (x : (E + A) * S) : bool :=
  match x.1 with
  | inr _ => true
  | inl _ => false
  end.

Definition is_inl {E A S} (x : (E + A) * S) : bool := negb (is_inr x).

End MoreDemo.

(** * Properties *)

(** ** Order on strings and on sort keys *)

Lemma string_compare_refl (s : string) : String.compare s s = Eq.
Proof.
  induction s as [|c s IH]; simpl; [reflexivity|].
  unfold Ascii.compare. rewrite N.compare_refl. exact IH.
Qed.

Lemma string_compare_lt_trans (a b c : string) :
  String.compare a b = Lt -> String.compare b c = Lt -> String.compare a c = Lt.
Proof.
  revert b c. induction a as [|x a IH]; intros [|y b] [|z c]; simpl; try congruence.
  unfold Ascii.compare.
  destruct (N.compare_spec (N_of_ascii x) (N_of_ascii y)) as [Exy|Lxy|Gxy];
    destruct (N.compare_spec (N_of_ascii y) (N_of_ascii z)) as [Eyz|Lyz|Gyz];
    try congruence; intros Hab Hbc.
  - rewrite Exy, Eyz, N.compare_refl. eauto.
  - rewrite Exy. apply N.compare_lt_iff in Lyz. rewrite Lyz. reflexivity.
  - rewrite <- Eyz. apply N.compare_lt_iff in Lxy. rewrite Lxy. reflexivity.
  - assert (H : (N_of_ascii x < N_of_ascii z)%N) by lia.
    apply N.compare_lt_iff in H. rewrite H. reflexivity.
Qed.

Lemma string_ltb_irrefl (s : string) : String.ltb s s = false.
Proof. unfold String.ltb. rewrite string_compare_refl. reflexivity. Qed.

Lemma string_ltb_trans (a b c : string) :
  String.ltb a b = true -> String.ltb b c = true -> String.ltb a c = true.
Proof.
  unfold String.ltb. intros Hab Hbc.
  destruct (String.compare a b) eqn:Eab; try discriminate.
  destruct (String.compare b c) eqn:Ebc; try discriminate.
  rewrite (string_compare_lt_trans a b c Eab Ebc). reflexivity.
Qed.

Lemma string_ltb_total (a b : string) :
  a <> b -> String.ltb a b = true \/ String.ltb b a = true.
Proof.
  intros Hne. unfold String.ltb. rewrite (String.compare_antisym b a).
  destruct (String.compare a b) eqn:E; simpl; auto.
  apply String.compare_eq_iff in E. contradiction.
Qed.

Lemma key_ltb_irrefl (a : Z * string) : key_ltb a a = false.
Proof.
  unfold key_ltb. rewrite Z.ltb_irrefl, string_ltb_irrefl, andb_false_r. reflexivity.
Qed.

Lemma key_ltb_trans (a b c : Z * string) :
  key_ltb a b = true -> key_ltb b c = true -> key_ltb a c = true.
Proof.
  unfold key_ltb. intros Hab Hbc.
  apply orb_true_iff in Hab. apply orb_true_iff in Hbc. apply orb_true_iff.
  rewrite andb_true_iff in *. rewrite !Z.ltb_lt in *. rewrite !Z.eqb_eq in *.
  destruct Hab as [Hab|[Hab Hab']], Hbc as [Hbc|[Hbc Hbc']].
  - left. lia.
  - left. lia.
  - left. lia.
  - right. split; [lia|]. eapply string_ltb_trans; eassumption.
Qed.

Lemma key_ltb_total (a b : Z * string) :
  a.2 <> b.2 -> key_ltb a b = true \/ key_ltb b a = true.
Proof.
  intros Hne. unfold key_ltb.
  destruct (Z.lt_total a.1 b.1) as [H|[H|H]].
  - left. apply orb_true_iff. left. apply Z.ltb_lt. exact H.
  - destruct (string_ltb_total _ _ Hne) as [H'|H'].
    + left. apply orb_true_iff. right. rewrite H' , andb_true_r. apply Z.eqb_eq. exact H.
    + right. apply orb_true_iff. right. rewrite H', andb_true_r. apply Z.eqb_eq. lia.
  - right. apply orb_true_iff. left. apply Z.ltb_lt. exact H.
Qed.

Lemma key_ltb_asym (a b : Z * string) : key_ltb a b = true -> key_ltb b a = false.
Proof.
  intros Hab. destruct (key_ltb b a) eqn:Hba; [|reflexivity].
  pose proof (key_ltb_trans _ _ _ Hab Hba) as H. rewrite key_ltb_irrefl in H. discriminate.
Qed.

(** ** [sorted] *)

Section Sorting.
Context {A : Type} (key : A -> Z * string).

(** [a] may stand before [b] in a sorted list. *)
Definition key_le (a b : A) : Prop := key_ltb (key b) (key a) = false.

Lemma key_le_trans (a b c : A) : key_le a b -> key_le b c -> key_le a c.
Proof.
  unfold key_le. intros Hab Hbc.
  destruct (key_ltb (key c) (key a)) eqn:Hca; [|reflexivity].
  destruct (decide ((key a).2 = (key b).2)) as [E|NE].
  - destruct (decide ((key b).2 = (key c).2)) as [E'|NE'].
    + exfalso. unfold key_ltb in *. rewrite E, E' in *.
      rewrite string_ltb_irrefl, andb_false_r, orb_false_r in *.
      apply Z.ltb_lt in Hca. apply Z.ltb_ge in Hab. apply Z.ltb_ge in Hbc. lia.
    + destruct (key_ltb_total _ _ NE') as [H|H]; [|congruence].
      pose proof (key_ltb_trans _ _ _ H Hca). congruence.
  - destruct (key_ltb_total _ _ NE) as [H|H]; [|congruence].
    pose proof (key_ltb_trans _ _ _ Hca H). congruence.
Qed.

Lemma insert_by_perm (x : A) (l : list A) : Permutation (x :: l) (insert_by key x l).
Proof.
  induction l as [|y l IH]; simpl; [reflexivity|].
  destruct (key_ltb (key y) (key x)); [|reflexivity].
  rewrite perm_swap. constructor. exact IH.
Qed.

Lemma sorted_by_perm (l : list A) : Permutation l (sorted_by key l).
Proof.
  induction l as [|x l IH]; simpl; [reflexivity|].
  rewrite <- insert_by_perm. constructor. exact IH.
Qed.

Lemma insert_by_sorted (x : A) (l : list A) :
  StronglySorted key_le l -> StronglySorted key_le (insert_by key x l).
Proof.
  induction 1 as [|y l Hs IH Hall]; simpl.
  - constructor; constructor.
  - destruct (key_ltb (key y) (key x)) eqn:E.
    + constructor; [exact IH|].
      rewrite <- insert_by_perm. constructor; [|exact Hall].
      unfold key_le. apply key_ltb_asym. exact E.
    + constructor; [constructor; assumption|].
      constructor; [exact E|].
      eapply Forall_impl; [exact Hall|]. intros z Hz. eapply key_le_trans; eassumption.
Qed.

Lemma sorted_by_sorted (l : list A) : StronglySorted key_le (sorted_by key l).
Proof.
  induction l as [|x l IH]; simpl; [constructor|]. apply insert_by_sorted. exact IH.
Qed.

End Sorting.

(** ** The monad *)

Section MonadFacts.
Context {FL : PyFloat} {Ext : Externals}.
Local Open Scope py_scope.

Lemma wp_run {A} (m : M A) w Q R a w' :
  m w = (Returned a, w') -> wp m w Q R -> Q a w'.
Proof. unfold wp. intros ->. auto. Qed.

Lemma wp_ret {A} (a : A) w (Q : A -> World -> Prop) R : Q a w -> wp (ret a) w Q R.
Proof. auto. Qed.

Lemma wp_raise {A} e w (Q : A -> World -> Prop) (R : Exn -> World -> Prop) :
  R e w -> wp (raise e) w Q R.
Proof. auto. Qed.

Lemma wp_bind {A B} (m : M A) (k : A -> M B) w Q R :
  wp m w (fun a w1 => wp (k a) w1 Q R) R -> wp (bind m k) w Q R.
Proof. unfold wp, bind. destruct (m w) as [[a|e|] w1]; auto. Qed.

Lemma wp_bind_run {A B} (m : M A) (k : A -> M B) w Q R a w1 :
  m w = (Returned a, w1) -> wp (k a) w1 Q R -> wp (bind m k) w Q R.
Proof. intros Hm Hk. apply wp_bind. unfold wp at 1. rewrite Hm. exact Hk. Qed.

Lemma wp_mono {A} (m : M A) w (Q Q' : A -> World -> Prop) (R R' : Exn -> World -> Prop) :
  wp m w Q R -> (forall a w', Q a w' -> Q' a w') -> (forall e w', R e w' -> R' e w') ->
  wp m w Q' R'.
Proof. unfold wp. destruct (m w) as [[a|e|] w1]; auto. Qed.

Lemma wp_gets {A} (f : World -> A) w (Q : A -> World -> Prop) R :
  Q (f w) w -> wp (gets f) w Q R.
Proof. auto. Qed.

Lemma wp_modify (f : World -> World) w (Q : unit -> World -> Prop) R :
  Q tt (f w) -> wp (modify f) w Q R.
Proof. auto. Qed.

Lemma bind_run {A B} (m : M A) (k : A -> M B) w a w1 :
  m w = (Returned a, w1) -> bind m k w = k a w1.
Proof. unfold bind. intros ->. reflexivity. Qed.

Lemma touches_only_refl out w : touches_only out w w.
Proof. unfold touches_only. auto 10. Qed.

Lemma touches_only_trans out w1 w2 w3 :
  touches_only out w1 w2 -> touches_only out w2 w3 -> touches_only out w1 w3.
Proof.
  intros (K1 & D1 & ? & ? & ? & ? & ?) (K2 & D2 & ? & ? & ? & ? & ?).
  unfold touches_only. repeat split; try congruence.
  - intros a Ha Hne. rewrite K2; auto.
  - auto.
Qed.

(** ** numpy and the drawing calls *)

Lemma np_read_run a w img :
  w_heap w !! a = Some img -> np_read a w = (Returned img, w).
Proof. unfold np_read. intros ->. reflexivity. Qed.

Lemma cv2_draw_run a c w img :
  w_heap w !! a = Some img ->
  cv2_draw a c w =
    (Returned tt,
     set_calls (fun l => l ++ [(a, c)]) (set_heap <[a := cv2_render c img]> w)).
Proof. intros H. unfold cv2_draw, bind. rewrite (np_read_run _ _ _ H). reflexivity. Qed.

Lemma cv2_draw_touches a c w img :
  w_heap w !! a = Some img ->
  touches_only a w (set_calls (fun l => l ++ [(a, c)]) (set_heap <[a := cv2_render c img]> w)).
Proof.
  intros H. unfold touches_only; simpl. repeat split; auto.
  - intros b _ Hne. apply lookup_insert_ne. congruence.
  - intros b Hb. destruct (decide (a = b)) as [->|Hne].
    + rewrite lookup_insert_eq. eauto.
    + rewrite lookup_insert_ne; auto.
Qed.

End MonadFacts.

(** ** Dicts *)

Section DictFacts.
Context {V : Type}.
Implicit Types (d : dict V) (k : string) (v : V).

Lemma dict_get_set d k v k' :
  dict_get (dict_set d k v) k' = if String.eqb k k' then Some v else dict_get d k'.
Proof.
  induction d as [|[k0 v0] d IH]; simpl; [reflexivity|].
  destruct (String.eqb_spec k0 k) as [->|Hne]; simpl.
  - destruct (String.eqb k k'); reflexivity.
  - rewrite IH. destruct (String.eqb_spec k0 k') as [->|Hne']; [|reflexivity].
    destruct (String.eqb_spec k k'); [congruence|reflexivity].
Qed.

Lemma dict_get_setdefault d k v k' :
  dict_get (dict_setdefault d k v) k' =
    match dict_get d k' with
    | Some x => Some x
    | None => if String.eqb k k' then Some v else None
    end.
Proof.
  unfold dict_setdefault. destruct (dict_get d k) as [x|] eqn:E.
  - destruct (dict_get d k') eqn:E'; [reflexivity|].
    destruct (String.eqb_spec k k'); [congruence|reflexivity].
  - rewrite dict_get_set. destruct (String.eqb_spec k k') as [->|]; [|destruct (dict_get d k'); reflexivity].
    rewrite E. reflexivity.
Qed.

Lemma elem_of_dict_keys d k : k ∈ dict_keys d <-> is_Some (dict_get d k).
Proof.
  unfold dict_keys. induction d as [|[k0 v0] d IH]; simpl.
  - split; [intros H; inversion H|intros [? ?]; discriminate].
  - rewrite elem_of_cons, IH. destruct (String.eqb_spec k0 k) as [->|Hne].
    + split; eauto.
    + split; [intros [?|?]; [congruence|assumption]|auto].
Qed.

Lemma dict_keys_set d k v :
  dict_keys (dict_set d k v) =
    match dict_get d k with
    | Some _ => dict_keys d
    | None => dict_keys d ++ [k]
    end.
Proof.
  unfold dict_keys. induction d as [|[k0 v0] d IH]; simpl; [reflexivity|].
  destruct (String.eqb_spec k0 k) as [->|Hne]; simpl; [reflexivity|].
  rewrite IH. destruct (dict_get d k); reflexivity.
Qed.

Lemma dict_keys_set_NoDup d k v : NoDup (dict_keys d) -> NoDup (dict_keys (dict_set d k v)).
Proof.
  intros Hnd. rewrite dict_keys_set. destruct (dict_get d k) eqn:E; [exact Hnd|].
  apply NoDup_app. split; [exact Hnd|]. split; [|apply NoDup_singleton].
  intros x Hx Hx'. apply list_elem_of_singleton in Hx'. subst x.
  apply elem_of_dict_keys in Hx. rewrite E in Hx. destruct Hx; discriminate.
Qed.

End DictFacts.

(** ** The dicts that [draw_detections_bgr] fills *)

Section CountFacts.
Context {FL : PyFloat} {Ext : Externals}.
Implicit Types (dets : list Detection) (n : string).

Lemma class_count_cons det dets n :
  class_count (det :: dets) n =
    (if String.eqb (class_name det) n then 1 else 0) + class_count dets n.
Proof.
  unfold class_count. rewrite filter_cons.
  destruct (String.eqb_spec (class_name det) n) as [E|NE].
  - rewrite decide_True by exact E. simpl. lia.
  - rewrite decide_False by exact NE. lia.
Qed.

Lemma class_count_nonneg dets n : 0 <= class_count dets n.
Proof. unfold class_count. lia. Qed.

Lemma class_count_pos dets n : n ∈ map class_name dets <-> 0 < class_count dets n.
Proof.
  induction dets as [|det dets IH]; simpl.
  - unfold class_count; simpl. split; [intros H; inversion H|lia].
  - rewrite class_count_cons, elem_of_cons, IH.
    pose proof (class_count_nonneg dets n).
    destruct (String.eqb_spec (class_name det) n) as [E|NE].
    + split; [lia|auto].
    + split; [intros [?|?]; [congruence|lia]|intros; right; lia].
Qed.

Lemma counts_after_get dets (cs : dict Z) n :
  default 0 (dict_get (fold_left counts_step dets cs) n) =
    default 0 (dict_get cs n) + class_count dets n.
Proof.
  revert cs. induction dets as [|det dets IH]; intros cs; simpl.
  - unfold class_count; simpl. lia.
  - rewrite IH, class_count_cons. unfold counts_step. rewrite dict_get_set.
    destruct (String.eqb_spec (class_name det) n) as [->|NE]; simpl; lia.
Qed.

Lemma counts_after_keys dets (cs : dict Z) n :
  is_Some (dict_get (fold_left counts_step dets cs) n) <->
  is_Some (dict_get cs n) \/ n ∈ map class_name dets.
Proof.
  revert cs. induction dets as [|det dets IH]; intros cs; simpl.
  - split; [auto|intros [?|H]; [assumption|inversion H]].
  - rewrite IH, elem_of_cons. unfold counts_step. rewrite dict_get_set.
    destruct (String.eqb_spec (class_name det) n) as [->|NE].
    + split; eauto.
    + split; [intros [?|?]; auto|intros [?|[?|?]]; auto; congruence].
Qed.

Lemma counts_after_NoDup dets (cs : dict Z) :
  NoDup (dict_keys cs) -> NoDup (dict_keys (fold_left counts_step dets cs)).
Proof.
  revert cs. induction dets as [|det dets IH]; intros cs Hnd; simpl; [exact Hnd|].
  apply IH. apply dict_keys_set_NoDup. exact Hnd.
Qed.

Lemma colors_after_get dets (cs : dict Color) n :
  dict_get (fold_left colors_step dets cs) n =
    match dict_get cs n with
    | Some c => Some c
    | None => class_color dets n
    end.
Proof.
  revert cs. induction dets as [|det dets IH]; intros cs; simpl.
  - unfold class_color; simpl. destruct (dict_get cs n); reflexivity.
  - rewrite IH. unfold colors_step. rewrite dict_get_setdefault.
    unfold class_color. simpl.
    destruct (dict_get cs n); [reflexivity|].
    destruct (String.eqb (class_name det) n); reflexivity.
Qed.

Lemma class_color_is_Some dets n : n ∈ map class_name dets -> is_Some (class_color dets n).
Proof.
  unfold class_color. induction dets as [|det dets IH]; simpl; [intros H; inversion H|].
  rewrite elem_of_cons. destruct (String.eqb_spec (class_name det) n) as [E|NE]; [eauto|].
  intros [?|?]; [congruence|auto].
Qed.

End CountFacts.

(** ** The annotator *)

Section AnnotatorFacts.
Context {FL : PyFloat} {Ext : Externals}.
Local Open Scope py_scope.

Lemma cv2_draw_spec a c w img :
  w_heap w !! a = Some img ->
  exists w',
    cv2_draw a c w = (Returned tt, w') /\
    touches_only a w w' /\
    w_heap w' = <[a := cv2_render c img]> (w_heap w) /\
    w_calls w' = w_calls w ++ [(a, c)].
Proof.
  intros H. eexists. split; [apply cv2_draw_run; exact H|].
  split; [apply cv2_draw_touches; exact H|]. split; reflexivity.
Qed.

Lemma legend_rows_spec out names counts colors x1 i0 w :
  is_Some (w_heap w !! out) ->
  exists w',
    legend_rows out names counts colors x1 10 22 (36 + 22 * Z.of_nat i0) w = (Returned tt, w') /\
    touches_only out w w' /\
    w_calls w' = w_calls w ++ map (pair out) (concat (imap (fun i n =>
      legend_entry_calls x1 (i0 + i) (legend_color colors n) n
        (default 0 (dict_get counts n))) names)).
Proof.
  revert i0 w. induction names as [|n names IH]; intros i0 w [img Himg]; simpl.
  - exists w. split; [reflexivity|]. split; [apply touches_only_refl|].
    rewrite app_nil_r. reflexivity.
  - unfold cv2_rectangle, cv2_putText.
    edestruct (cv2_draw_spec out) as (w1 & Hr1 & Ht1 & Hh1 & Hc1); [exact Himg|].
    rewrite (bind_run _ _ _ _ _ Hr1).
    edestruct (cv2_draw_spec out) as (w2 & Hr2 & Ht2 & Hh2 & Hc2);
      [rewrite Hh1; apply lookup_insert_eq|].
    rewrite (bind_run _ _ _ _ _ Hr2).
    assert (H2 : is_Some (w_heap w2 !! out))
      by (rewrite Hh2, lookup_insert_eq; eauto).
    replace (36 + 22 * Z.of_nat i0 + 22) with (36 + 22 * Z.of_nat (S i0)) by lia.
    destruct (IH (S i0) w2 H2) as (w' & Hrun & Ht & Hc).
    exists w'. split; [exact Hrun|]. split.
    + eapply touches_only_trans; [|exact Ht].
      eapply touches_only_trans; eassumption.
    + rewrite Hc, Hc2, Hc1. rewrite Nat.add_0_r.
      rewrite <- !app_assoc. simpl.
      erewrite (imap_ext (_ ∘ S)); [reflexivity|].
      intros i x _. simpl.
      replace (S (i0 + i))%nat with (i0 + S i)%nat by lia. reflexivity.
Qed.

Lemma draw_boxes_spec out dets counts colors w :
  is_Some (w_heap w !! out) ->
  exists w',
    draw_boxes out dets counts colors w =
      (Returned (fold_left counts_step dets counts, fold_left colors_step dets colors), w') /\
    touches_only out w w' /\
    w_calls w' = w_calls w ++ map (pair out) (concat (map box_calls dets)).
Proof.
  revert counts colors w.
  induction dets as [|det dets IH]; intros counts colors w [img Himg]; simpl.
  - exists w. split; [reflexivity|]. split; [apply touches_only_refl|].
    rewrite app_nil_r. reflexivity.
  - unfold box_calls, cv2_rectangle, cv2_putText.
    destruct (cv2_getTextSize _ _ _) as [[tw th] baseline].
    edestruct (cv2_draw_spec out) as (w1 & Hr1 & Ht1 & Hh1 & Hc1); [exact Himg|].
    rewrite (bind_run _ _ _ _ _ Hr1).
    edestruct (cv2_draw_spec out) as (w2 & Hr2 & Ht2 & Hh2 & Hc2);
      [rewrite Hh1; apply lookup_insert_eq|].
    rewrite (bind_run _ _ _ _ _ Hr2).
    edestruct (cv2_draw_spec out) as (w3 & Hr3 & Ht3 & Hh3 & Hc3);
      [rewrite Hh2; apply lookup_insert_eq|].
    rewrite (bind_run _ _ _ _ _ Hr3).
    assert (H3 : is_Some (w_heap w3 !! out))
      by (rewrite Hh3, lookup_insert_eq; eauto).
    destruct (IH (counts_step counts det) (colors_step colors det) w3 H3)
      as (w' & Hrun & Ht & Hc).
    exists w'. split; [exact Hrun|]. split.
    + eapply touches_only_trans; [|exact Ht].
      eapply touches_only_trans; [|exact Ht3].
      eapply touches_only_trans; eassumption.
    + rewrite Hc, Hc3, Hc2, Hc1. rewrite <- !app_assoc. reflexivity.
Qed.

Lemma np_copy_run a w img :
  w_heap w !! a = Some img ->
  np_copy a w =
    (Returned (fresh (dom (w_heap w))), set_heap <[fresh (dom (w_heap w)) := img]> w).
Proof. intros H. unfold np_copy. rewrite (bind_run _ _ _ _ _ (np_read_run _ _ _ H)). reflexivity. Qed.

Lemma cv2_blend_run a alpha b beta gamma w ia ib :
  w_heap w !! a = Some ia -> w_heap w !! b = Some ib ->
  cv2_blend a alpha b beta gamma w =
    (Returned (fresh (dom (w_heap w))),
     set_heap <[fresh (dom (w_heap w)) := cv2_addWeighted ia alpha ib beta gamma]> w).
Proof.
  intros Ha Hb. unfold cv2_blend.
  rewrite (bind_run _ _ _ _ _ (np_read_run _ _ _ Ha)).
  rewrite (bind_run _ _ _ _ _ (np_read_run _ _ _ Hb)). reflexivity.
Qed.

Lemma np_assign_run a b w ia ib :
  w_heap w !! a = Some ia -> w_heap w !! b = Some ib ->
  np_assign a b w = (Returned tt, set_heap <[a := ib]> w).
Proof.
  intros Ha Hb. unfold np_assign.
  rewrite (bind_run _ _ _ _ _ (np_read_run _ _ _ Ha)).
  rewrite (bind_run _ _ _ _ _ (np_read_run _ _ _ Hb)). reflexivity.
Qed.

Lemma np_shape_run a w img :
  w_heap w !! a = Some img -> np_shape a w = (Returned (im_rows img, im_cols img), w).
Proof. intros H. unfold np_shape. rewrite (bind_run _ _ _ _ _ (np_read_run _ _ _ H)). reflexivity. Qed.

Lemma fresh_heap_None (w : World) : w_heap w !! fresh (dom (w_heap w)) = None.
Proof. apply not_elem_of_dom. apply is_fresh. Qed.

Lemma _draw_legend_spec out names counts colors w :
  is_Some (w_heap w !! out) -> names <> [] ->
  exists w' overlay x1 x2 y2,
    _draw_legend out names counts colors w = (Returned tt, w') /\
    touches_only out w w' /\
    w_heap w !! overlay = None /\
    w_calls w' = w_calls w ++
      [ (overlay, Rectangle (x1, 10) (x2, y2) (255, 255, 255) (-1));
        (out, Rectangle (x1, 10) (x2, y2) (203, 213, 225) 1) ] ++
      map (pair out) (concat (imap (fun i n =>
        legend_entry_calls x1 i (legend_color colors n) n
          (default 0 (dict_get counts n))) names)).
Proof.
  intros [img Himg] Hne. unfold _draw_legend.
  destruct names as [|n0 names0] eqn:En; [congruence|]. rewrite <- En. clear Hne.
  unfold cv2_rectangle.
  rewrite (bind_run _ _ _ _ _ (np_shape_run _ _ _ Himg)).
  rewrite (bind_run _ _ _ _ _ (np_copy_run _ _ _ Himg)).
  pose proof (fresh_heap_None w) as Hov.
  set (ov := fresh (dom (w_heap w))) in *.
  assert (Hovo : ov <> out) by (intros ->; congruence).
  set (w1 := set_heap <[ov := img]> w).
  assert (Hv1 : w_heap w1 !! ov = Some img) by (subst w1; simpl; apply lookup_insert_eq).
  destruct (cv2_draw_spec ov (Rectangle (Z.max 10 (im_cols img - 10 - 220), 10)
      (im_cols img - 10, Z.min (im_rows img - 10) (10 + (10 * 2 + 22 * Z.of_nat (length names))))
      (255, 255, 255) (-1)) w1 img Hv1) as (w2 & Hr2 & Ht2 & Hh2 & Hc2).
  rewrite (bind_run _ _ _ _ _ Hr2).
  assert (Ho2 : w_heap w2 !! out = Some img).
  { rewrite Hh2. subst w1; simpl. rewrite !lookup_insert_ne by congruence. exact Himg. }
  assert (Hv2 : is_Some (w_heap w2 !! ov)) by (rewrite Hh2, lookup_insert_eq; eauto).
  destruct Hv2 as [oimg Hv2].
  rewrite (bind_run _ _ _ _ _ (cv2_blend_run _ _ _ _ _ _ _ _ Hv2 Ho2)).
  pose proof (fresh_heap_None w2) as Hbl.
  set (bl := fresh (dom (w_heap w2))) in *.
  assert (Hblo : bl <> out) by (intros ->; congruence).
  set (bimg := cv2_addWeighted _ _ _ _ _).
  set (w3 := set_heap <[bl := bimg]> w2).
  assert (Ho3 : w_heap w3 !! out = Some img)
    by (subst w3; simpl; rewrite lookup_insert_ne by congruence; exact Ho2).
  assert (Hb3 : w_heap w3 !! bl = Some bimg) by (subst w3; simpl; apply lookup_insert_eq).
  rewrite (bind_run _ _ _ _ _ (np_assign_run _ _ _ _ _ Ho3 Hb3)).
  set (w4 := set_heap <[out := bimg]> w3).
  assert (Ho4 : w_heap w4 !! out = Some bimg) by (subst w4; simpl; apply lookup_insert_eq).
  destruct (cv2_draw_spec out (Rectangle (Z.max 10 (im_cols img - 10 - 220), 10)
      (im_cols img - 10, Z.min (im_rows img - 10) (10 + (10 * 2 + 22 * Z.of_nat (length names))))
      (203, 213, 225) 1) w4 bimg Ho4) as (w5 & Hr5 & Ht5 & Hh5 & Hc5).
  rewrite (bind_run _ _ _ _ _ Hr5).
  assert (H5 : is_Some (w_heap w5 !! out)) by (rewrite Hh5, lookup_insert_eq; eauto).
  change (10 + 10 + 16) with (36 + 22 * Z.of_nat 0).
  destruct (legend_rows_spec out names counts colors
              (Z.max 10 (im_cols img - 10 - 220)) 0 w5 H5) as (w' & Hrun & Ht & Hc).
  exists w', ov. do 3 eexists. split; [exact Hrun|]. split; [|split; [exact Hov|]].
  - eapply touches_only_trans; [|exact Ht].
    destruct Ht2 as (K2 & D2 & F2 & I2 & C2 & W2 & M2).
    destruct Ht5 as (K5 & D5 & F5 & I5 & C5 & W5 & M5).
    unfold touches_only. rewrite F5, I5, C5, W5, M5. subst w4 w3; simpl.
    rewrite F2, I2, C2, W2, M2. subst w1; simpl.
    assert (Hkeep : forall a, is_Some (w_heap w !! a) -> a <> out ->
                      w_heap w5 !! a = w_heap w !! a).
    { intros a Ha Hao. rewrite Hh5. rewrite lookup_insert_ne by congruence.
      simpl. rewrite lookup_insert_ne by congruence.
      assert (a <> ov) by (intros ->; rewrite Hov in Ha; destruct Ha; discriminate).
      assert (Ha2 : w_heap w2 !! a = w_heap w !! a).
      { rewrite Hh2. simpl. rewrite !lookup_insert_ne by congruence. reflexivity. }
      rewrite lookup_insert_ne; [exact Ha2|].
      intros ->. rewrite Hbl in Ha2. rewrite <- Ha2 in Ha. destruct Ha; discriminate. }
    repeat split; auto.
    intros a Ha. destruct (decide (a = out)) as [->|Hao]; [exact H5|].
    rewrite Hkeep; auto.
  - rewrite Hc, Hc5. subst w4 w3; simpl. rewrite Hc2. subst w1; simpl.
    rewrite <- !app_assoc. reflexivity.
Qed.

Lemma counts_after_nonempty det dets : fold_left counts_step (det :: dets) [] <> [].
Proof.
  intros E.
  assert (H : is_Some (dict_get (fold_left counts_step (det :: dets) []) (class_name det))).
  { apply counts_after_keys. right. simpl. apply elem_of_cons. left. reflexivity. }
  rewrite E in H. destruct H; discriminate.
Qed.

Lemma legend_names_nonempty (counts : dict Z) :
  counts <> [] -> take 12 (sorted_by (legend_key counts) (dict_keys counts)) <> [].
Proof.
  intros Hne E.
  pose proof (sorted_by_perm (legend_key counts) (dict_keys counts)) as Hp.
  destruct (sorted_by (legend_key counts) (dict_keys counts)) as [|x l].
  - apply Permutation_nil_r in Hp. destruct counts; [congruence|discriminate].
  - discriminate.
Qed.

(** What one call of the annotator does, in full. *)
Lemma draw_detections_bgr_spec image dets w img :
  w_heap w !! image = Some img ->
  let out := fresh (dom (w_heap w)) in
  let counts := fold_left counts_step dets [] in
  let colors := fold_left colors_step dets [] in
  exists w',
    draw_detections_bgr image dets w = (Returned out, w') /\
    touches_only out (set_heap <[out := img]> w) w' /\
    (dets = [] -> w' = set_heap <[out := img]> w) /\
    (dets <> [] -> exists overlay x1 x2 y2,
       w_heap w !! overlay = None /\ overlay <> out /\
       w_calls w' = w_calls w ++
         map (pair out) (concat (map box_calls dets)) ++
         [ (overlay, Rectangle (x1, 10) (x2, y2) (255, 255, 255) (-1));
           (out, Rectangle (x1, 10) (x2, y2) (203, 213, 225) 1) ] ++
         map (pair out) (concat (imap (fun i n =>
           legend_entry_calls x1 i (legend_color (Some colors) n) n
             (default 0 (dict_get counts n)))
           (take 12 (sorted_by (legend_key counts) (dict_keys counts)))))).
Proof.
  intros Himg out counts colors. unfold draw_detections_bgr.
  rewrite (bind_run _ _ _ _ _ (np_copy_run _ _ _ Himg)). fold out.
  set (w1 := set_heap <[out := img]> w).
  assert (Ho1 : is_Some (w_heap w1 !! out)) by (subst w1; simpl; rewrite lookup_insert_eq; eauto).
  destruct (draw_boxes_spec out dets [] [] w1 Ho1) as (w2 & Hr2 & Ht2 & Hc2).
  rewrite (bind_run _ _ _ _ _ Hr2). fold counts colors.
  destruct dets as [|det dets].
  - simpl in *. injection Hr2 as <-. exists w1.
    split; [reflexivity|]. split; [apply touches_only_refl|]. split; [reflexivity|congruence].
  - pose proof (counts_after_nonempty det dets) as Hne. fold counts in Hne.
    destruct counts as [|kv counts0] eqn:Ec; [congruence|]. rewrite <- Ec in *.
    assert (Ho2 : is_Some (w_heap w2 !! out)) by (apply Ht2; exact Ho1).
    destruct (_draw_legend_spec out _ counts (Some colors) w2 Ho2
                (legend_names_nonempty counts Hne))
      as (w3 & ov & lx1 & lx2 & ly2 & Hr3 & Ht3 & Hov & Hc3).
    rewrite (bind_run _ _ _ _ _ Hr3). exists w3.
    split; [reflexivity|]. split; [eapply touches_only_trans; eassumption|].
    split; [congruence|]. intros _.
    assert (Hov1 : w_heap w1 !! ov = None).
    { destruct (w_heap w1 !! ov) eqn:E; [|reflexivity].
      destruct Ht2 as (_ & D2 & _). destruct (D2 ov) as [x Hx]; [eauto|]. congruence. }
    assert (Hne' : ov <> out) by (intros ->; rewrite Hov1 in Ho1; destruct Ho1; discriminate).
    exists ov, lx1, lx2, ly2. split; [|split; [exact Hne'|]].
    + subst w1; simpl in Hov1. rewrite lookup_insert_ne in Hov1 by congruence. exact Hov1.
    + rewrite Hc3, Hc2. subst w1; simpl. rewrite <- !app_assoc. reflexivity.
Qed.

Lemma StronglySorted_lookup_lt {A} (R : A -> A -> Prop) (l : list A) i j a b :
  StronglySorted R l -> l !! i = Some a -> l !! j = Some b -> (i < j)%nat -> R a b.
Proof.
  intros Hs. revert i j. induction Hs as [|x l Hs IH Hall]; intros i j Hi Hj Hlt.
  - rewrite lookup_nil in Hi. discriminate.
  - destruct j as [|j]; [lia|]. simpl in Hj. destruct i as [|i]; simpl in Hi.
    + injection Hi as ->. rewrite Forall_forall in Hall. apply Hall.
      eapply list_elem_of_lookup_2. exact Hj.
    + eapply IH; eauto. lia.
Qed.

Lemma legend_key_ltb dets a b :
  key_ltb (legend_key (fold_left counts_step dets []) a)
          (legend_key (fold_left counts_step dets []) b) = true <->
  ranks_before dets a b.
Proof.
  unfold key_ltb, legend_key, ranks_before; simpl.
  rewrite !counts_after_get. simpl.
  rewrite orb_true_iff, andb_true_iff, Z.ltb_lt, Z.eqb_eq.
  split; (intros [H|[H H']]; [left; lia|right; split; [lia|exact H']]).
Qed.

Lemma legend_color_Some (cs : dict Color) n c :
  dict_get cs n = Some c -> legend_color (Some cs) n = c.
Proof.
  intros H. unfold legend_color. destruct cs as [|kv cs0]; [discriminate|].
  rewrite H. reflexivity.
Qed.

(** The names of the legend, in its order: what the sort and the cut at
    twelve leave of the class names of the frame. *)
Lemma legend_names_ranked dets :
  let counts := fold_left counts_step dets [] in
  let names := take 12 (sorted_by (legend_key counts) (dict_keys counts)) in
  (length names <= 12)%nat /\
  NoDup names /\
  (forall n, n ∈ names -> n ∈ map class_name dets) /\
  (forall i j a b, names !! i = Some a -> names !! j = Some b -> (i < j)%nat ->
     ranks_before dets a b) /\
  (forall c, c ∈ map class_name dets -> c ∉ names -> length names = 12%nat) /\
  (forall a c, a ∈ names -> c ∈ map class_name dets -> c ∉ names ->
     ranks_before dets a c).
Proof.
  intros counts names.
  set (L := sorted_by (legend_key counts) (dict_keys counts)) in *.
  assert (Hp : Permutation (dict_keys counts) L) by apply sorted_by_perm.
  assert (Hnd : NoDup L).
  { rewrite <- Hp. apply counts_after_NoDup. apply NoDup_nil_2. }
  assert (Hin : forall n, n ∈ L <-> n ∈ map class_name dets).
  { intros n. rewrite <- Hp, elem_of_dict_keys. unfold counts. rewrite counts_after_keys.
    simpl. split; [intros [[? ?]|?]; [discriminate|assumption]|auto]. }
  assert (Hs : forall i j a b, L !! i = Some a -> L !! j = Some b -> (i < j)%nat ->
                 ranks_before dets a b).
  { intros i j a b Hi Hj Hlt.
    pose proof (StronglySorted_lookup_lt _ _ _ _ _ _
                  (sorted_by_sorted (legend_key counts) (dict_keys counts)) Hi Hj Hlt) as Hle.
    unfold key_le in Hle. apply legend_key_ltb. fold counts.
    destruct (key_ltb_total (legend_key counts a) (legend_key counts b)) as [H|H];
      [|exact H|congruence].
    simpl. intros ->. pose proof (NoDup_lookup _ _ _ _ Hnd Hi Hj). lia. }
  split; [subst names; rewrite length_take; lia|].
  split; [subst names; eapply sublist_NoDup; [exact Hnd|apply sublist_take]|].
  split; [intros n Hn; apply Hin; apply elem_of_take in Hn as (i & Hi & _); eapply list_elem_of_lookup_2; exact Hi|].
  split.
  - intros i j a b Hi Hj Hlt. subst names.
    apply lookup_take_Some in Hi as [Hi _]. apply lookup_take_Some in Hj as [Hj _].
    eauto.
  - assert (Hrest : forall c, c ∈ map class_name dets -> c ∉ names ->
                       exists j, L !! (12 + j)%nat = Some c).
    { intros c Hc Hnc. subst names.
      apply Hin in Hc. rewrite <- (take_drop 12 L) in Hc.
      apply elem_of_app in Hc as [Hc|Hc]; [contradiction|].
      apply list_elem_of_lookup in Hc as [j Hj]. rewrite lookup_drop in Hj. eauto. }
    split.
    + intros c Hc Hnc. destruct (Hrest c Hc Hnc) as [j Hj].
      apply lookup_lt_Some in Hj. subst names. rewrite length_take. lia.
    + intros a c Ha Hc Hnc. destruct (Hrest c Hc Hnc) as [j Hj]. subst names.
      apply list_elem_of_lookup in Ha as [i Hi].
      apply lookup_take_Some in Hi as [Hi Hi12].
      eapply Hs; [exact Hi|exact Hj|lia].
Qed.

End AnnotatorFacts.

(** ** What the annotator guarantees *)

Section AnnotatorGuarantees.
Context {FL : PyFloat} {Ext : Externals}.

(** C7: annotating a frame with an empty detection list returns a frame whose
    contents are those of the input frame, and issues no drawing call at all:
    no box and no legend. *)
Theorem annotate_empty_is_copy (w : World) (image : loc) (img : Image) :
  w_heap w !! image = Some img ->
  exists out w',
    draw_detections_bgr image [] w = (Returned out, w') /\
    w_heap w' !! out = Some img /\
    w_calls w' = w_calls w.
Proof.
  intros Himg.
  destruct (draw_detections_bgr_spec image [] w img Himg) as (w' & Hrun & _ & Hw' & _).
  exists (fresh (dom (w_heap w))), w'. split; [exact Hrun|].
  rewrite (Hw' eq_refl). simpl. split; [apply lookup_insert_eq|reflexivity].
Qed.

(** C8: for every frame and every detection list the annotator returns a new
    array and leaves every array that existed before the call as it was, the
    input frame among them; outside the heap of arrays it changes nothing. *)
Theorem annotate_keeps_input (w : World) (image : loc) (img : Image) (dets : list Detection) :
  w_heap w !! image = Some img ->
  exists out w',
    draw_detections_bgr image dets w = (Returned out, w') /\
    w_heap w !! out = None /\
    out <> image /\
    is_Some (w_heap w' !! out) /\
    w_heap w' !! image = Some img /\
    (forall a x, w_heap w !! a = Some x -> w_heap w' !! a = Some x) /\
    w_fs w' = w_fs w /\ w_dirs w' = w_dirs w /\ w_cap w' = w_cap w /\
    w_writer w' = w_writer w /\ w_model w' = w_model w.
Proof.
  intros Himg.
  destruct (draw_detections_bgr_spec image dets w img Himg)
    as (w' & Hrun & (K & D & F & I & C & W & Mo) & _ & _).
  pose proof (fresh_heap_None w) as Hfresh.
  set (out := fresh (dom (w_heap w))) in *.
  assert (Hkeep : forall a x, w_heap w !! a = Some x -> w_heap w' !! a = Some x).
  { intros a x Ha. assert (a <> out) by (intros ->; congruence).
    rewrite K; simpl; rewrite ?lookup_insert_ne by congruence; eauto. }
  exists out, w'. split; [exact Hrun|]. split; [exact Hfresh|].
  split; [intros ->; congruence|].
  split; [apply D; simpl; rewrite lookup_insert_eq; eauto|].
  split; [apply Hkeep; exact Himg|]. split; [exact Hkeep|].
  simpl in *. auto.
Qed.

(** C9: for a non-empty detection list the drawing calls of the annotator are
    the three calls of each box, in detector order, then the legend: its
    panel, and one swatch and one text per entry.  The entries are at most
    twelve distinct class names of the frame, each with the colour of its
    boxes and its number of detections, ordered by descending count and then
    ascending name; a class name is left out only when there are twelve
    entries, and it then ranks after all of them. *)
Theorem legend_lists_top_classes (w : World) (image : loc) (img : Image) (dets : list Detection) :
  dets <> [] ->
  w_heap w !! image = Some img ->
  exists out w' (entries : list (string * Color * Z)) overlay x1 x2 y2,
    let names := map (fun e => e.1.1) entries in
    draw_detections_bgr image dets w = (Returned out, w') /\
    (length entries <= 12)%nat /\
    NoDup names /\
    (forall n, n ∈ names -> n ∈ map class_name dets) /\
    Forall (fun e => class_color dets e.1.1 = Some e.1.2 /\ e.2 = class_count dets e.1.1)
      entries /\
    (forall i j a b, names !! i = Some a -> names !! j = Some b -> (i < j)%nat ->
       ranks_before dets a b) /\
    (forall c, c ∈ map class_name dets -> c ∉ names -> length entries = 12%nat) /\
    (forall a c, a ∈ names -> c ∈ map class_name dets -> c ∉ names ->
       ranks_before dets a c) /\
    overlay <> out /\
    w_calls w' = w_calls w ++
      map (pair out) (concat (map box_calls dets)) ++
      [ (overlay, Rectangle (x1, 10) (x2, y2) (255, 255, 255) (-1));
        (out, Rectangle (x1, 10) (x2, y2) (203, 213, 225) 1) ] ++
      map (pair out) (concat (imap (fun i e =>
        legend_entry_calls x1 i e.1.2 e.1.1 e.2) entries)).
Proof.
  intros Hne Himg.
  destruct (draw_detections_bgr_spec image dets w img Himg) as (w' & Hrun & _ & _ & Hlegend).
  destruct (Hlegend Hne) as (ov & lx1 & lx2 & ly2 & _ & Hov & Hcalls).
  destruct (legend_names_ranked dets) as (Hlen & Hnd & Hin & Hsorted & Hfull & Htop).
  set (counts := fold_left counts_step dets []) in *.
  set (colors := fold_left colors_step dets []) in *.
  set (names := take 12 (sorted_by (legend_key counts) (dict_keys counts))) in *.
  set (entry := fun n : string =>
                  (n, legend_color (Some colors) n, default 0 (dict_get counts n))).
  assert (Hnames : map (fun e : string * Color * Z => e.1.1) (map entry names) = names).
  { rewrite map_map. simpl. apply map_id. }
  exists (fresh (dom (w_heap w))), w', (map entry names), ov, lx1, lx2, ly2.
  cbv zeta. rewrite Hnames, length_map.
  split; [exact Hrun|]. split; [exact Hlen|]. split; [exact Hnd|]. split; [exact Hin|].
  split; [|split; [exact Hsorted|split; [exact Hfull|split; [exact Htop|split; [exact Hov|]]]]].
  - apply Forall_forall. intros e He. apply list_elem_of_fmap in He as (n & -> & Hn).
    simpl. split.
    + destruct (class_color_is_Some dets n (Hin n Hn)) as [c Hc].
      assert (Hget : dict_get colors n = Some c).
      { unfold colors. rewrite colors_after_get. simpl. exact Hc. }
      rewrite Hc. f_equal. symmetry. apply (legend_color_Some colors n c Hget).
    + unfold counts. rewrite counts_after_get. simpl. lia.
  - rewrite Hcalls. do 4 f_equal. unfold entry.
    rewrite (imap_fmap (fun i (e : string * Color * Z) => legend_entry_calls lx1 i e.1.2 e.1.1 e.2)).
    reflexivity.
Qed.

End AnnotatorGuarantees.

(** ** The transcode block *)

Section PipelineFacts.
Context {FL : PyFloat} {Ext : Externals}.
Local Open Scope py_scope.

Lemma fallback_run raw out w :
  raw ∉ w_dirs w ->
  try_except
    (raw_exists <- path_exists raw ;;
     go <- (if raw_exists then
              out_exists <- path_exists out ;;
              ret (negb out_exists)
            else ret false) ;;
     if go then path_replace raw out else ret tt)
    (fun _ => ret tt) w =
  (Returned tt, set_fs (fallback_rename raw out (w_dirs w)) w).
Proof.
  intros Hnd.
  unfold try_except, bind, path_exists, path_replace, fallback_rename, exists_answer,
    fs_exists, ret, set_fs.
  destruct w as [h cl fs d cp wr m]; simpl in *.
  rewrite (bool_decide_eq_false_2 _ Hnd), orb_false_r.
  destruct (os_refuses fs d (OsStat raw)) as [e1|]; [reflexivity|].
  destruct (fs !! raw) as [c|] eqn:Er; simpl; [|reflexivity].
  destruct (os_refuses fs d (OsStat out)) as [e2|]; [reflexivity|].
  destruct (fs !! out) as [c'|] eqn:Eo; simpl; [reflexivity|].
  destruct (bool_decide (out ∈ d)) eqn:Ed; simpl; [reflexivity|].
  rewrite Er.
  destruct (os_refuses fs d (OsReplace raw out)) as [e3|]; [reflexivity|].
  rewrite Eo, Ed. reflexivity.
Qed.

Lemma cleanup_run raw out w :
  try_except
    (raw_exists <- path_exists raw ;;
     if raw_exists && negb (String.eqb raw out) then path_unlink raw else ret tt)
    (fun _ => ret tt) w =
  (Returned tt, set_fs (cleanup_raw raw out (w_dirs w)) w).
Proof.
  unfold try_except, bind, path_exists, path_unlink, cleanup_raw, exists_answer, fs_exists,
    ret, set_fs.
  destruct w as [h cl fs d cp wr m]; simpl.
  destruct (os_refuses fs d (OsStat raw)) as [e1|]; [reflexivity|].
  destruct (fs !! raw) as [c|] eqn:Er; simpl.
  - destruct (String.eqb raw out); simpl.
    + destruct (os_refuses fs d (OsUnlink raw)); reflexivity.
    + rewrite Er. destruct (os_refuses fs d (OsUnlink raw)); reflexivity.
  - destruct (bool_decide (raw ∈ d)); simpl;
      [|destruct (os_refuses fs d (OsUnlink raw)); reflexivity].
    destruct (String.eqb raw out); simpl;
      [destruct (os_refuses fs d (OsUnlink raw)); reflexivity|].
    rewrite Er. destruct (os_refuses fs d (OsUnlink raw)); reflexivity.
Qed.

(** The transcode block always returns when the intermediate path is no
    directory; of the world it changes the files only. *)
Lemma transcode_spec raw out w :
  raw ∉ w_dirs w ->
  transcode raw out w =
    (Returned tt, set_fs (fun _ => after_transcode raw out (w_dirs w) (w_fs w)) w).
Proof.
  intros Hnd. unfold transcode, try_finally, after_transcode, ffmpeg_attempt.
  unfold try_except at 1. unfold bind at 1, import_get_ffmpeg_exe.
  destruct get_ffmpeg_exe as [e|exe]; simpl.
  - rewrite fallback_run, cleanup_run by exact Hnd. destruct w; reflexivity.
  - unfold subprocess_run_check.
    destruct (subprocess_run (ffmpeg_cmd exe raw out) (w_fs w)) as [[e|code] fs'] eqn:Erun; simpl.
    + rewrite fallback_run, cleanup_run by exact Hnd. destruct w; reflexivity.
    + destruct (code =? 0) eqn:Ec; simpl.
      * rewrite cleanup_run. destruct w; reflexivity.
      * rewrite fallback_run, cleanup_run by exact Hnd. destruct w; reflexivity.
Qed.

(** [mkdir] raises what the system refuses it with, or that a file is in
    the way. *)
Lemma wp_path_mkdir p w (Q : unit -> World -> Prop) (R : Exn -> World -> Prop) :
  (forall e,
     os_refuses (w_fs w) (w_dirs w) (OsMkdir p) = Some e \/
     (os_refuses (w_fs w) (w_dirs w) (OsMkdir p) = None /\ is_Some (w_fs w !! p) /\
      e = OSError "File exists") ->
     R e w) ->
  Q tt (set_dirs (fun d => {[p]} ∪ d) w) ->
  wp (path_mkdir p) w Q R.
Proof.
  intros HR HQ. unfold wp, path_mkdir.
  destruct (os_refuses (w_fs w) (w_dirs w) (OsMkdir p)) as [e|]; [apply HR; auto|].
  destruct (w_fs w !! p) as [c|]; [apply HR; eauto 10|exact HQ].
Qed.

Lemma wp_path_with_suffix p suffix w (Q : Path -> World -> Prop) (R : Exn -> World -> Prop) :
  (path_name p = "" -> R (ValueError (path_repr p +:+ " has an empty name")) w) ->
  (path_name p <> "" -> Q (with_suffix p suffix) w) ->
  wp (path_with_suffix p suffix) w Q R.
Proof.
  intros HR HQ. unfold wp, path_with_suffix.
  destruct (String.eqb_spec (path_name p) ""); [apply HR|apply HQ]; assumption.
Qed.

(** ** The capture, the writer and the detector *)

Lemma wp_cap_read w c (Q : bool * option loc -> World -> Prop) R :
  w_cap w = Some c -> cap_opened c = true ->
  match cap_pending c with
  | [] => Q (false, None) w
  | (ok, Some img) :: rest =>
      Q (ok, Some (fresh (dom (w_heap w))))
        (set_heap <[fresh (dom (w_heap w)) := img]>
           (set_cap (Some (mkCapture (cap_video c) rest true)) w))
  | (ok, None) :: rest =>
      Q (ok, None) (set_cap (Some (mkCapture (cap_video c) rest true)) w)
  end ->
  wp cap_read w Q R.
Proof.
  intros Hc Ho HQ. unfold wp, cap_read, with_cap. rewrite Hc, Ho.
  destruct (cap_pending c) as [|[ok [img|]] rest]; simpl; exact HQ.
Qed.

Lemma wp_predict w frame img conf (Q : list Detection -> World -> Prop) :
  w_heap w !! frame = Some img ->
  (forall dets m, Q dets (set_model m w)) ->
  wp (detector_predict_image frame conf) w Q (fun _ _ => True).
Proof.
  intros Himg HQ. unfold wp, detector_predict_image.
  rewrite (bind_run _ _ _ _ _ (np_read_run _ _ _ Himg)).
  destruct (predict_image (w_model w) img conf) as [[e|dets] m]; [exact I|apply HQ].
Qed.

Lemma wp_draw_detections w image img dets (Q : loc -> World -> Prop) R :
  w_heap w !! image = Some img ->
  (forall out w',
     is_Some (w_heap w' !! out) ->
     w_fs w' = w_fs w -> w_dirs w' = w_dirs w -> w_cap w' = w_cap w ->
     w_writer w' = w_writer w -> w_model w' = w_model w -> Q out w') ->
  wp (draw_detections_bgr image dets) w Q R.
Proof.
  intros Himg HQ. unfold wp.
  destruct (draw_detections_bgr_spec image dets w img Himg)
    as (w' & -> & (K & D & F & I & C & W & Mo) & _).
  simpl in *. apply HQ; auto.
  apply D. rewrite lookup_insert_eq. eauto.
Qed.

Lemma wp_writer_write w frame img wr (Q : unit -> World -> Prop) R :
  w_heap w !! frame = Some img -> w_writer w = Some wr -> wr_opened wr = true ->
  Q tt (set_writer (Some (mkWriter (wr_path wr) (wr_fourcc wr) (wr_fps wr) (wr_size wr)
                            (wr_frames wr ++ [img]) true)) w) ->
  wp (writer_write frame) w Q R.
Proof.
  intros Himg Hw Ho HQ. unfold wp, writer_write.
  rewrite (bind_run _ _ _ _ _ (np_read_run _ _ _ Himg)).
  unfold with_writer. rewrite Hw, Ho. exact HQ.
Qed.

(** ** One round of the frame loop *)

Lemma loop_body_wp conf fs mf fps st w c wr :
  w_cap w = Some c -> cap_opened c = true ->
  w_writer w = Some wr -> wr_opened wr = true ->
  wp (loop_body conf fs mf fps st) w
    (fun r w' =>
       w_fs w' = w_fs w /\ w_dirs w' = w_dirs w /\
       match cap_pending c with
       | [] => r = (false, st) /\ w_cap w' = w_cap w /\ w_writer w' = w_writer w
       | rd :: rest =>
           w_cap w' = Some (mkCapture (cap_video c) rest true) /\
           if good_read rd then
             (exists img,
                w_writer w' =
                  Some (mkWriter (wr_path wr) (wr_fourcc wr) (wr_fps wr) (wr_size wr)
                          (wr_frames wr ++ [img]) true)) /\
             frame_idx r.2 = frame_idx st + 1 /\
             r.1 = negb (negb (mf =? 0) && (mf <=? frame_idx st + 1)) /\
             (exists new,
                per_frame r.2 = per_frame st ++ new /\
                map frame_index new =
                  (if decide (frame_idx st mod fs = 0) then [frame_idx st] else []) /\
                sampled r.2 = sampled st + Z.of_nat (length new) /\
                map asdict (flat r.2) = map asdict (flat st) ++ concat (map detections new))
           else r = (false, st) /\ w_writer w' = w_writer w
       end)
    (fun _ _ => True).
Proof.
  intros Hc Ho Hw Hwo. unfold loop_body. apply wp_bind.
  apply (wp_cap_read w c _ _ Hc Ho).
  destruct (cap_pending c) as [|[ok [img|]] rest].
  - apply wp_ret. auto.
  - destruct ok; [|apply wp_ret; simpl; auto].
    set (a := fresh (dom (w_heap w))).
    set (w1 := set_heap _ _).
    assert (Ha : w_heap w1 !! a = Some img) by (subst w1; simpl; apply lookup_insert_eq).
    apply wp_bind.
    destruct (Z.eqb_spec (frame_idx st mod fs) 0) as [Hs|Hs].
    + apply wp_bind. apply (wp_predict w1 a img conf _ Ha). intros dets m.
      apply wp_bind.
      apply (wp_draw_detections (set_model m w1) a img dets); [exact Ha|].
      intros out w2 [img2 Hout] F D C W _. apply wp_ret.
      apply wp_bind. simpl in *.
      apply (wp_writer_write w2 out img2 wr); [exact Hout|congruence|exact Hwo|].
      simpl.
      match goal with |- wp (if ?b then _ else _) _ _ _ => destruct b eqn:Eb end;
        apply wp_ret; simpl; rewrite F, D, C;
        (split; [reflexivity|]; split; [reflexivity|]; split; [reflexivity|]);
        (split; [eauto|]); (split; [reflexivity|]); (split; [first [reflexivity|rewrite Eb; reflexivity]|]);
        eexists [_]; simpl; rewrite decide_True by exact Hs;
        rewrite map_app, app_nil_r; auto.
    + apply wp_ret. apply wp_bind. simpl.
      apply (wp_writer_write w1 a img wr); [exact Ha|exact Hw|exact Hwo|].
      simpl.
      match goal with |- wp (if ?b then _ else _) _ _ _ => destruct b eqn:Eb end;
        apply wp_ret; simpl;
        (split; [reflexivity|]; split; [reflexivity|]; split; [reflexivity|]);
        (split; [eauto|]); (split; [reflexivity|]); (split; [first [reflexivity|rewrite Eb; reflexivity]|]);
        exists []; simpl; rewrite decide_False by exact Hs;
        rewrite app_nil_r; rewrite ?app_nil_r; auto with zarith.
  - destruct ok; apply wp_ret; simpl; auto.
Qed.

(** ** The frame loop *)

Lemma loop_counts_nil mf idx :
  loop_frames mf idx [] = O /\ loop_reads mf idx [] = O.
Proof.
  unfold loop_frames, loop_reads. simpl. destruct (mf =? 0); simpl; [split; reflexivity|].
  destruct (Nat.leb_spec (Z.to_nat (Z.max 1 (mf - idx))) 0); split; lia.
Qed.

Lemma loop_counts_bad mf idx rd rest :
  good_read rd = false ->
  loop_frames mf idx (rd :: rest) = O /\ loop_reads mf idx (rd :: rest) = 1%nat.
Proof.
  intros Hb. unfold loop_frames, loop_reads. simpl. rewrite Hb.
  destruct (mf =? 0); simpl; [split; [reflexivity|lia]|].
  destruct (Nat.leb_spec (Z.to_nat (Z.max 1 (mf - idx))) 0); split; lia.
Qed.

Lemma loop_counts_break mf idx rd rest :
  good_read rd = true -> negb (mf =? 0) && (mf <=? idx + 1) = true ->
  loop_frames mf idx (rd :: rest) = 1%nat /\ loop_reads mf idx (rd :: rest) = 1%nat.
Proof.
  intros Hg Hb. apply andb_true_iff in Hb as [Hz Hle].
  apply negb_true_iff in Hz. apply Z.leb_le in Hle.
  unfold loop_frames, loop_reads. simpl. rewrite Hg, Hz. simpl.
  replace (Z.to_nat (Z.max 1 (mf - idx))) with 1%nat by lia.
  simpl. split; lia.
Qed.

Lemma loop_counts_continue mf idx rd rest :
  good_read rd = true -> negb (mf =? 0) && (mf <=? idx + 1) = false ->
  loop_frames mf idx (rd :: rest) = S (loop_frames mf (idx + 1) rest) /\
  loop_reads mf idx (rd :: rest) = S (loop_reads mf (idx + 1) rest).
Proof.
  intros Hg Hb. unfold loop_frames, loop_reads. simpl. rewrite Hg.
  destruct (Z.eqb_spec mf 0) as [Hz|Hz]; simpl; [split; lia|].
  simpl in Hb. apply Z.leb_gt in Hb.
  replace (Z.to_nat (Z.max 1 (mf - idx))) with (S (Z.to_nat (Z.max 1 (mf - (idx + 1))))) by lia.
  split; [lia|]. simpl.
  destruct (Nat.leb_spec (Z.to_nat (Z.max 1 (mf - (idx + 1)))) (good_prefix rest)); lia.
Qed.

Lemma loop_wp conf fs mf fps fuel :
  forall st w c wr,
    w_cap w = Some c -> cap_opened c = true ->
    w_writer w = Some wr -> wr_opened wr = true ->
    (length (cap_pending c) < fuel)%nat ->
    wp (while_true fuel (loop_body conf fs mf fps) st) w
      (loop_post fs mf st w c wr) (fun _ _ => True).
Proof.
  induction fuel as [|fuel IH]; intros st w c wr Hc Ho Hw Hwo Hfuel; [lia|].
  simpl. apply wp_bind.
  eapply wp_mono; [apply (loop_body_wp conf fs mf fps st w c wr Hc Ho Hw Hwo)| |auto].
  intros [b st1] w1 (F & D & Hm). simpl.
  destruct c as [video pending opened]. simpl in *. subst opened.
  destruct pending as [|rd rest].
  - destruct Hm as (Hr & Hc1 & Hw1). injection Hr as -> ->. apply wp_ret.
    destruct (loop_counts_nil mf (frame_idx st)) as [En Er].
    unfold loop_post. simpl. rewrite En. simpl.
    split; [lia|]. split; [exists []; rewrite !app_nil_r; auto with zarith|].
    split; [exact F|]. split; [exact D|]. split.
    + rewrite Hc1, Hc. f_equal. f_equal. rewrite drop_nil. reflexivity.
    + exists []. rewrite app_nil_r, Hw1, Hw. destruct wr; simpl in *; subst; auto.
  - destruct Hm as (Hc1 & Hm). destruct (good_read rd) eqn:Hg.
    + destruct Hm as ([img Hw1] & Hidx & Hb & new & Hpf & Hnew & Hsm & Hfl). simpl in *.
      destruct b.
      * (* another round *)
        symmetry in Hb. apply negb_true_iff in Hb.
        destruct (loop_counts_continue mf (frame_idx st) rd rest Hg Hb) as [En Er].
        eapply wp_mono;
          [apply (IH st1 w1 _ _ Hc1 eq_refl Hw1 eq_refl); simpl; lia| |auto].
        intros st2 w2 (Hidx2 & (new2 & Hpf2 & Hnew2 & Hsm2 & Hfl2) & F2 & D2 & Hc2 & imgs & Hlen & Hw2).
        simpl in *. rewrite Hidx in *.
        unfold loop_post. simpl. rewrite En, Er. simpl drop.
        split; [lia|]. split.
        { exists (new ++ new2). rewrite Hpf2, Hpf, Hsm2, Hsm, Hfl2, Hfl.
          rewrite !map_app, concat_app, length_app, <- !app_assoc.
          split; [reflexivity|]. split; [|split; [lia|reflexivity]].
          rewrite Hnew, Hnew2.
          rewrite (seqZ_cons (frame_idx st)) by lia.
          replace (Z.pred (Z.of_nat (S (loop_frames mf (frame_idx st + 1) rest))))
            with (Z.of_nat (loop_frames mf (frame_idx st + 1) rest)) by lia.
          replace (Z.succ (frame_idx st)) with (frame_idx st + 1) by lia.
          rewrite filter_cons. destruct (decide (frame_idx st mod fs = 0)); reflexivity. }
        split; [congruence|]. split; [congruence|]. split; [exact Hc2|].
        exists (img :: imgs). split; [simpl; lia|].
        rewrite Hw2. simpl. rewrite <- app_assoc. reflexivity.
      * (* break at the cut *)
        symmetry in Hb. apply negb_false_iff in Hb.
        destruct (loop_counts_break mf (frame_idx st) rd rest Hg Hb) as [En Er].
        apply wp_ret. unfold loop_post. simpl. rewrite En, Er. simpl drop.
        split; [lia|]. split.
        { exists new. split; [exact Hpf|]. split; [|split; [exact Hsm|exact Hfl]].
          rewrite Hnew. rewrite (seqZ_cons (frame_idx st)) by lia. simpl.
          rewrite filter_cons.
          destruct (decide (frame_idx st mod fs = 0)); reflexivity. }
        split; [exact F|]. split; [exact D|]. split; [exact Hc1|].
        exists [img]. split; [reflexivity|exact Hw1].
    + destruct Hm as (Hr & Hw1). injection Hr as -> ->. apply wp_ret.
      destruct (loop_counts_bad mf (frame_idx st) rd rest Hg) as [En Er].
      unfold loop_post. simpl. rewrite En, Er. simpl.
      split; [lia|]. split; [exists []; rewrite !app_nil_r; auto with zarith|].
      split; [exact F|]. split; [exact D|]. split; [exact Hc1|].
      exists []. rewrite app_nil_r, Hw1, Hw. destruct wr; simpl in *; subst; auto.
Qed.

(** ** From the open of the source to the release of the handles *)

Local Arguments while_true : simpl never.

Lemma wp_with_cap {A} (k : Capture -> M A) w c Q R :
  w_cap w = Some c -> wp (k c) w Q R -> wp (with_cap k) w Q R.
Proof. intros Hc. unfold wp, with_cap. rewrite Hc. auto. Qed.

Lemma wp_with_writer {A} (k : Writer -> M A) w c Q R :
  w_writer w = Some c -> wp (k c) w Q R -> wp (with_writer k) w Q R.
Proof. intros Hc. unfold wp, with_writer. rewrite Hc. auto. Qed.

Lemma wp_cap_get prop w v pending (Q : float -> World -> Prop) R :
  w_cap w = Some (mkCapture (Some v) pending true) ->
  Q match prop with
    | CAP_PROP_FPS => v_fps v
    | CAP_PROP_FRAME_WIDTH => v_width v
    | CAP_PROP_FRAME_HEIGHT => v_height v
    | CAP_PROP_FRAME_COUNT => v_frame_count v
    end w ->
  wp (cap_get prop) w Q R.
Proof. intros Hc HQ. unfold cap_get. eapply wp_with_cap; [exact Hc|]. exact HQ. Qed.

(** Lines 40 to 76: with the source open and its size known. *)
Lemma write_loop_wp ip op conf fs mf w v (w2 : World) fps width height total :
  w_fs w !! ip ≫= cv2_demux = Some v ->
  w_cap w2 = Some (mkCapture (Some v) (loop_stream v) true) ->
  w_fs w2 = w_fs w ->
  wp (path_mkdir (path_parent op) ;;
      raw_path <- path_with_suffix op ".raw.mp4" ;;
      VideoWriter raw_path "mp4v" fps (width, height) ;;
      wopened <- writer_isOpened ;;
      if negb wopened then raise (ValueError ("Failed to open video writer: " +:+ op)) else
      fuel <- loop_fuel ;;
      st <- while_true fuel (loop_body conf (Z.max 1 fs) mf fps) (mkLoop 0 0 [] []) ;;
      cap_release ;;
      writer_release ;;
      ret (mkLocals fps width height total (Z.max 1 fs) raw_path st))%py
     w2 (stream_post ip op fs mf w) (fun _ _ => True).
Proof.
  intros Hv Hc2 Hf2.
  apply wp_bind, wp_path_mkdir; [intros; exact I|].
  apply wp_bind, wp_path_with_suffix; [intros; exact I|intros _].
  apply wp_bind, wp_modify.
  set (raw := with_suffix op ".raw.mp4").
  set (w2' := set_dirs _ w2).
  assert (Hc2' : w_cap w2' = Some (mkCapture (Some v) (loop_stream v) true)) by exact Hc2.
  assert (Hf2' : w_fs w2' = w_fs w) by exact Hf2.
  clearbody w2'. clear Hc2 Hf2. rename Hc2' into Hc2, Hf2' into Hf2. clear w2. rename w2' into w2.
  destruct (bool_decide (raw ∈ w_dirs w2)) eqn:Edir; simpl;
    [|destruct (cv2_writer_opens _ _ raw "mp4v" fps (width, height)) eqn:Eopen].
  3,1: (apply wp_bind; (eapply wp_with_writer; [reflexivity|]); apply wp_ret; simpl;
        apply wp_raise; exact I).
  apply bool_decide_eq_false_1 in Edir.
  - set (wr := mkWriter raw "mp4v" fps (width, height) [] true).
    set (w3 := set_writer _ _).
    assert (Hw3 : w_writer w3 = Some wr) by reflexivity.
    assert (Hc3 : w_cap w3 = Some (mkCapture (Some v) (loop_stream v) true)) by exact Hc2.
    apply wp_bind. apply (wp_with_writer _ w3 wr _ _ Hw3). apply wp_ret. simpl.
    apply wp_bind. apply (wp_with_cap _ w3 _ _ _ Hc3). apply wp_ret. simpl.
    apply wp_bind.
    eapply wp_mono;
      [apply (loop_wp conf (Z.max 1 fs) mf fps _ (mkLoop 0 0 [] []) w3 _ wr Hc3 eq_refl Hw3 eq_refl);
       simpl; lia| |auto].
    intros st w4 (Hidx & (new & Hpf & Hnew & Hsm & Hfl) & F4 & D4 & Hc4 & imgs & Hlen & Hw4).
    simpl in *.
    apply wp_bind. apply (wp_with_cap _ w4 _ _ _ Hc4). apply wp_modify.
    apply wp_bind. eapply wp_with_writer; [exact Hw4|]. simpl. apply wp_modify.
    apply wp_ret. exists v, imgs. simpl.
    split; [exact Hv|]. split; [reflexivity|]. split; [reflexivity|].
    split; [exact Hidx|]. split; [rewrite Hpf, Hnew, Hidx; reflexivity|].
    split; [rewrite Hsm, Hpf; reflexivity|]. split; [rewrite Hpf; exact Hfl|].
    split; [reflexivity|]. split; [lia|]. split; [reflexivity|].
    split; [rewrite F4; rewrite insert_insert_eq, Hf2; reflexivity|].
    rewrite D4. exact Edir.
Qed.

Lemma stream_frames_wp ip op conf fs mf w :
  wp (stream_frames ip op conf fs mf) w (stream_post ip op fs mf w) (fun _ _ => True).
Proof.
  unfold stream_frames, VideoCapture.
  apply wp_bind, wp_modify.
  destruct (w_fs w !! ip ≫= cv2_demux) as [v|] eqn:Hv; simpl.
  2:{ apply wp_bind. eapply wp_with_cap; [reflexivity|]. apply wp_ret. simpl.
      apply wp_raise. exact I. }
  set (w1 := set_cap _ w).
  assert (Hc1 : w_cap w1 = Some (mkCapture (Some v) (v_reads v) true)) by reflexivity.
  apply wp_bind. apply (wp_with_cap _ w1 _ _ _ Hc1). apply wp_ret. simpl.
  apply wp_bind. apply (wp_cap_get _ w1 v _ _ _ Hc1).
  apply wp_bind. apply (wp_cap_get _ w1 v _ _ _ Hc1).
  apply wp_bind. apply (wp_cap_get _ w1 v _ _ _ Hc1).
  apply wp_bind. apply (wp_cap_get _ w1 v _ _ _ Hc1).
  apply wp_bind.
  apply (wp_mono _ _
           (fun (hw : Z * Z) (w2 : World) =>
              w_cap w2 = Some (mkCapture (Some v) (loop_stream v) true) /\ w_fs w2 = w_fs w)
           _ (fun _ _ => True)); [| |auto].
  - unfold loop_stream, needs_probe.
    match goal with |- wp (if ?b then _ else _) _ _ _ => destruct b end.
    + apply wp_bind. apply (wp_cap_read w1 _ _ _ Hc1 eq_refl). simpl.
      destruct (v_reads v) as [|[ok [img|]] rest] eqn:Er.
      * apply wp_raise. exact I.
      * destruct ok; [|apply wp_raise; exact I].
        apply wp_bind. unfold wp at 1. erewrite np_shape_run by (simpl; apply lookup_insert_eq).
        apply wp_bind. eapply wp_with_cap; [reflexivity|]. simpl.
        destruct (v_seekable v); simpl.
        -- apply wp_modify. apply wp_ret. simpl. rewrite Er. auto.
        -- apply wp_ret. apply wp_ret. simpl. auto.
      * destruct ok; apply wp_raise; exact I.
    + apply wp_ret. simpl. auto.
  - intros [height width] w2 [Hc2 Hf2]. apply (write_loop_wp ip op conf fs mf w v w2); assumption.
Qed.

(** ** The whole pipeline *)

Lemma process_video_inv ip op conf fs mf w r w' :
  process_video ip op conf fs mf w = (Returned r, w') ->
  exists l w1,
    stream_frames ip op conf fs mf w = (Returned l, w1) /\
    stream_post ip op fs mf w l w1 /\
    r = pipeline_result l /\
    w' = set_fs (fun _ => after_transcode (l_raw_path l) op (w_dirs w1) (w_fs w1)) w1.
Proof.
  unfold process_video. intros Hrun.
  pose proof (stream_frames_wp ip op conf fs mf w) as Hwp. unfold wp in Hwp.
  unfold bind at 1 in Hrun.
  destruct (stream_frames ip op conf fs mf w) as [[l|e|] w1]; try discriminate.
  pose proof Hwp as (v & imgs & _ & _ & _ & _ & _ & _ & _ & _ & _ & _ & _ & Hnd).
  rewrite (bind_run _ _ _ _ _ (transcode_spec _ _ _ Hnd)) in Hrun.
  injection Hrun as <- <-. exists l, w1. auto.
Qed.

Lemma process_video_not_stuck ip op conf fs mf w :
  (process_video ip op conf fs mf w).1 <> Stuck.
Proof.
  unfold process_video.
  pose proof (stream_frames_wp ip op conf fs mf w) as Hwp. unfold wp in Hwp.
  unfold bind at 1.
  destruct (stream_frames ip op conf fs mf w) as [[l|e|] w1]; [|discriminate|contradiction].
  pose proof Hwp as (v & imgs & _ & _ & _ & _ & _ & _ & _ & _ & _ & _ & _ & Hnd).
  rewrite (bind_run _ _ _ _ _ (transcode_spec _ _ _ Hnd)). discriminate.
Qed.

(** ** The sampled indices *)

Lemma sample_indices_S k (n : nat) :
  sample_indices k (Z.of_nat (S n)) =
    sample_indices k (Z.of_nat n) ++
    (if decide (Z.of_nat n mod k = 0) then [Z.of_nat n] else []).
Proof.
  unfold sample_indices. rewrite seqZ_S, filter_app. f_equal.
Qed.

Lemma sample_indices_mod k n : Forall (fun i => i mod k = 0) (sample_indices k n).
Proof.
  unfold sample_indices. apply Forall_forall. intros i Hi.
  apply list_elem_of_filter in Hi as [Hi _]. exact Hi.
Qed.

Lemma sample_indices_elem k n i :
  i ∈ sample_indices k n <-> 0 <= i < n /\ i mod k = 0.
Proof.
  unfold sample_indices. rewrite list_elem_of_filter, elem_of_seqZ. intuition lia.
Qed.

Lemma sample_indices_sorted k n : StronglySorted Z.lt (sample_indices k n).
Proof.
  destruct (Z.le_gt_cases n 0) as [Hn|Hn].
  - unfold sample_indices. rewrite seqZ_nil by exact Hn. constructor.
  - rewrite <- (Z2Nat.id n) by lia. induction (Z.to_nat n) as [|m IH]; [constructor|].
    rewrite sample_indices_S. destruct (decide (Z.of_nat m mod k = 0)).
    + clear Hn. revert IH.
      assert (Hall : Forall (fun i => i < Z.of_nat m) (sample_indices k (Z.of_nat m))).
      { apply Forall_forall. intros i Hi. apply sample_indices_elem in Hi. lia. }
      induction Hall as [|x l Hx Hall IHl]; intros Hs; simpl.
      * constructor; constructor.
      * inversion Hs; subst. constructor; [auto|].
        apply Forall_app. split; [assumption|]. constructor; [exact Hx|constructor].
    + rewrite app_nil_r. exact IH.
Qed.

Lemma ceil_div_step k n :
  1 <= k -> 0 <= n ->
  (n + 1 + k - 1) / k = (n + k - 1) / k + (if decide (n mod k = 0) then 1 else 0).
Proof.
  intros Hk Hn.
  pose proof (Z.div_mod n k ltac:(lia)) as Hdm.
  pose proof (Z.mod_pos_bound n k ltac:(lia)) as Hb.
  set (q := n / k) in *. set (r := n mod k) in *.
  destruct (decide (r = 0)) as [E|NE].
  - replace (n + 1 + k - 1) with (0 + (q + 1) * k) by lia.
    replace (n + k - 1) with ((k - 1) + q * k) by lia.
    rewrite !Z.div_add by lia. rewrite Z.div_0_l by lia.
    rewrite (Z.div_small (k - 1) k) by lia. lia.
  - replace (n + 1 + k - 1) with (r + (q + 1) * k) by lia.
    replace (n + k - 1) with ((r - 1) + (q + 1) * k) by lia.
    rewrite !Z.div_add by lia.
    rewrite (Z.div_small r k) by lia. rewrite (Z.div_small (r - 1) k) by lia. lia.
Qed.

Lemma sample_indices_length k (n : nat) :
  1 <= k ->
  Z.of_nat (length (sample_indices k (Z.of_nat n))) = (Z.of_nat n + k - 1) / k.
Proof.
  intros Hk. induction n as [|n IH].
  - simpl. unfold sample_indices. simpl. rewrite Z.div_small by lia. reflexivity.
  - rewrite sample_indices_S, length_app, Nat2Z.inj_add, IH.
    replace (Z.of_nat (S n) + k - 1) with (Z.of_nat n + 1 + k - 1) by lia.
    rewrite ceil_div_step by lia.
    destruct (decide (Z.of_nat n mod k = 0)); reflexivity.
Qed.

Lemma sample_indices_head k n : 1 <= n -> head (sample_indices k n) = Some 0.
Proof.
  intros Hn. unfold sample_indices. rewrite seqZ_cons by lia.
  rewrite filter_cons. rewrite decide_True by apply Zmod_0_l. reflexivity.
Qed.

End PipelineFacts.

(** ** What the pipeline guarantees *)

Section PipelineExits.
Context {FL : PyFloat} {Ext : Externals}.

(** On the path that returns, the source and the sink have been released. *)
Lemma handles_released_on_return ip op conf fs mf (w : World) r w' :
  process_video ip op conf fs mf w = (Returned r, w') ->
  cap_opened <$> w_cap w' = Some false /\ wr_opened <$> w_writer w' = Some false.
Proof.
  intros Hrun.
  destruct (process_video_inv _ _ _ _ _ _ _ _ Hrun) as (l & w1 & _ & Hpost & _ & ->).
  destruct Hpost as (v & imgs & _ & _ & _ & _ & _ & _ & _ & Hc & _ & Hw & _).
  simpl. rewrite Hc, Hw. split; reflexivity.
Qed.

(** When the source does not open there is no open handle to release. *)
Lemma nothing_opened_on_open_failure ip op conf fs mf (w : World) :
  w_fs w !! ip ≫= cv2_demux = None ->
  exists w',
    process_video ip op conf fs mf w =
      (Raised (ValueError ("Failed to open video: " +:+ ip)), w') /\
    cap_opened <$> w_cap w' = Some false /\ w_writer w' = w_writer w.
Proof.
  intros Hv. exists (set_cap (Some (mkCapture None [] false)) w). split; [|split; reflexivity].
  unfold process_video, stream_frames, VideoCapture, bind, modify. cbv beta zeta.
  rewrite Hv. reflexivity.
Qed.

End PipelineExits.

(** A list whose image is a concatenation splits into the groups behind it. *)
Lemma fmap_concat_inv {A B} (f : A -> B) (l : list A) (ks : list (list B)) :
  map f l = concat ks -> exists gs, l = concat gs /\ ks = map (map f) gs.
Proof.
  revert l. induction ks as [|k ks IH]; intros l H; simpl in H.
  - apply fmap_nil_inv in H. subst l. exists []. auto.
  - apply fmap_app_inv in H as (l1 & l2 & -> & H2 & ->).
    destruct (IH l2 (eq_sym H2)) as (gs & -> & ->). exists (l1 :: gs). auto.
Qed.

(** From a run that returned, the locals [l] and the world [w1] at the end of
    the streaming part, with what [stream_post] says of them. *)
Ltac pipeline_inv Hrun l w1 Hpost :=
  let Hr := fresh "Hr" in
  let Hw := fresh "Hw" in
  destruct (process_video_inv _ _ _ _ _ _ _ _ Hrun) as (l & w1 & _ & Hpost & Hr & Hw);
  unfold pipeline_result in Hr; injection Hr as -> -> ->; subst; simpl.

Section PipelineGuarantees.
Context {FL : PyFloat} {Ext : Externals}.
Implicit Types (ip op : Path) (conf : float) (fs mf : Z) (w : World).

(** C1: whenever the pipeline returns, [sampled_frames] is the length of
    [per_frame], and [flat_detections] is the concatenation, in frame order,
    of the detections of the frame records, each group in the order the
    detector gave: the records hold these detections as dicts, [asdict(d)]. *)
Theorem result_lists_agree ip op conf fs mf w meta flat_detections per_frame w' :
  process_video ip op conf fs mf w = (Returned (meta, flat_detections, per_frame), w') ->
  sampled_frames meta = Z.of_nat (length per_frame) /\
  map asdict flat_detections = concat (map detections per_frame) /\
  exists groups : list (list Detection),
    flat_detections = concat groups /\
    map detections per_frame = map (map asdict) groups.
Proof.
  intros Hrun. pipeline_inv Hrun l w1 Hpost.
  destruct Hpost as (v & imgs & _ & _ & _ & _ & _ & Hsm & Hfl & _).
  split; [exact Hsm|]. split; [exact Hfl|]. apply fmap_concat_inv. exact Hfl.
Qed.

(** C3: with [max_frames = N > 0] at most [N] frames are decoded, and each of
    them is written; on a stream that has [N] frames the loop decodes exactly
    [N] and takes no further read from the capture.  With a stride of 5 and
    [N = 12] on a stream of twelve frames or more, [frames_read] is 12 and the
    sampled indices are 0, 5 and 10. *)
Theorem max_frames_cuts_off ip op conf fs mf w meta flat_detections per_frame w' :
  0 < mf ->
  process_video ip op conf fs mf w = (Returned (meta, flat_detections, per_frame), w') ->
  frames_read meta <= mf /\
  exists v c wr,
    w_fs w !! ip ≫= cv2_demux = Some v /\
    w_cap w' = Some c /\ w_writer w' = Some wr /\
    Z.of_nat (length (wr_frames wr)) = frames_read meta /\
    (mf <= Z.of_nat (good_prefix (loop_stream v)) ->
       frames_read meta = mf /\ cap_pending c = drop (Z.to_nat mf) (loop_stream v)) /\
    (fs = 5 -> mf = 12 -> 12 <= Z.of_nat (good_prefix (loop_stream v)) ->
       frames_read meta = 12 /\ map frame_index per_frame = [0; 5; 10]).
Proof.
  intros Hmf Hrun. pipeline_inv Hrun l w1 Hpost.
  destruct Hpost as (v & imgs & Hv & _ & _ & Hidx & Hpf & _ & _ & Hc & Hlen & Hw & _).
  assert (Hn : loop_frames mf 0 (loop_stream v) =
               Nat.min (good_prefix (loop_stream v)) (Z.to_nat mf)).
  { unfold loop_frames. destruct (Z.eqb_spec mf 0); [lia|]. f_equal. lia. }
  assert (Hcut : mf <= Z.of_nat (good_prefix (loop_stream v)) ->
                 frame_idx (l_loop l) = mf /\
                 loop_reads mf 0 (loop_stream v) = Z.to_nat mf).
  { intros Hlong. split; [lia|]. unfold loop_reads.
    destruct (Z.eqb_spec mf 0); [lia|]. simpl.
    replace (Z.to_nat (Z.max 1 (mf - 0))) with (Z.to_nat mf) by lia.
    destruct (Nat.leb_spec (Z.to_nat mf) (good_prefix (loop_stream v))); [reflexivity|lia]. }
  split; [lia|].
  eexists v, _, _. split; [exact Hv|]. split; [exact Hc|]. split; [exact Hw|].
  split; [exact Hlen|]. split.
  - intros Hlong. destruct (Hcut Hlong) as [E1 E2]. simpl. rewrite E2. auto.
  - intros -> -> Hlong. destruct (Hcut Hlong) as [E1 _].
    split; [exact E1|]. rewrite Hpf, E1. reflexivity.
Qed.

(** C4: whenever the pipeline returns, the stride in force is at least 1,
    every [frame_index] of [per_frame] is a multiple of it, and the indices
    are strictly increasing. *)
Theorem sampled_indices_on_stride ip op conf fs mf w meta flat_detections per_frame w' :
  process_video ip op conf fs mf w = (Returned (meta, flat_detections, per_frame), w') ->
  1 <= frame_step meta /\
  Forall (fun r => frame_index r mod frame_step meta = 0) per_frame /\
  StronglySorted Z.lt (map frame_index per_frame).
Proof.
  intros Hrun. pipeline_inv Hrun l w1 Hpost.
  destruct Hpost as (v & imgs & _ & Hfs & _ & _ & Hpf & _).
  rewrite Hfs. split; [lia|]. split.
  - pose proof (sample_indices_mod (Z.max 1 fs) (frame_idx (l_loop l))) as H.
    rewrite <- Hpf in H. apply Forall_fmap in H. exact H.
  - rewrite Hpf. apply sample_indices_sorted.
Qed.

(** C5: the stride in force is [max(1, frame_step)] whatever the caller gave;
    the frames sampled are exactly those decoded frames whose index is a
    multiple of it; and a stride of zero or less makes the pipeline do, in
    every world, what it does with a stride of 1. *)
Theorem frame_step_clamped ip op conf fs mf w :
  (fs <= 0 -> process_video ip op conf fs mf w = process_video ip op conf 1 mf w) /\
  forall meta flat_detections per_frame w',
    process_video ip op conf fs mf w = (Returned (meta, flat_detections, per_frame), w') ->
    frame_step meta = Z.max 1 fs /\
    1 <= frame_step meta /\
    forall i, i ∈ map frame_index per_frame <->
              0 <= i < frames_read meta /\ i mod Z.max 1 fs = 0.
Proof.
  split.
  - intros Hle. unfold process_video, stream_frames.
    replace (Z.max 1 fs) with (Z.max 1 1) by lia. reflexivity.
  - intros meta flat_detections per_frame w' Hrun. pipeline_inv Hrun l w1 Hpost.
    destruct Hpost as (v & imgs & _ & Hfs & _ & _ & Hpf & _).
    rewrite Hfs. split; [reflexivity|]. split; [lia|].
    intros i. rewrite Hpf. apply sample_indices_elem.
Qed.

(** C10: whenever the pipeline returns, [sampled_frames] is the ceiling of
    [frames_read / frame_step] for the stride in force: zero when no frame was
    decoded, and otherwise [(frames_read - 1) / frame_step + 1], the first
    record being that of frame 0. *)
Theorem sampled_count_is_ceiling ip op conf fs mf w meta flat_detections per_frame w' :
  process_video ip op conf fs mf w = (Returned (meta, flat_detections, per_frame), w') ->
  frame_step meta = Z.max 1 fs /\
  0 <= frames_read meta /\
  sampled_frames meta = (frames_read meta + frame_step meta - 1) / frame_step meta /\
  (frames_read meta = 0 -> sampled_frames meta = 0) /\
  (1 <= frames_read meta ->
     sampled_frames meta = (frames_read meta - 1) / frame_step meta + 1 /\
     head (map frame_index per_frame) = Some 0).
Proof.
  intros Hrun. pipeline_inv Hrun l w1 Hpost.
  destruct Hpost as (v & imgs & _ & Hfs & _ & Hidx & Hpf & Hsm & _).
  assert (Hk : 1 <= l_frame_step l) by lia.
  assert (Hceil : sampled (l_loop l) =
                  (frame_idx (l_loop l) + l_frame_step l - 1) / l_frame_step l).
  { rewrite Hsm, <- (length_map frame_index), Hpf, Hidx, Hfs.
    apply sample_indices_length. lia. }
  split; [exact Hfs|]. split; [lia|]. split; [exact Hceil|]. split.
  - intros E. rewrite Hceil, E. apply Z.div_small. lia.
  - intros Hpos. split.
    + rewrite Hceil.
      replace (frame_idx (l_loop l) + l_frame_step l - 1)
        with (frame_idx (l_loop l) - 1 + 1 * l_frame_step l) by lia.
      apply Z.div_add. lia.
    + rewrite Hpf. apply sample_indices_head. exact Hpos.
Qed.

End PipelineGuarantees.

(** * More properties *)

(** ** The frame loop, once more *)

Section VideoMoreFacts.
Context {FL : PyFloat} {Ext : Externals}.
Local Open Scope py_scope.
Local Arguments while_true : simpl never.

Lemma wp_and {A} (m : M A) w (Q Q' : A -> World -> Prop) (R R' : Exn -> World -> Prop) :
  wp m w Q R -> wp m w Q' R' ->
  wp m w (fun a w' => Q a w' /\ Q' a w') (fun e w' => R e w' /\ R' e w').
Proof. unfold wp. destruct (m w) as [[a|e|] w1]; auto. Qed.

Lemma wp_predict_raises w frame img conf (Q : list Detection -> World -> Prop)
    (R : Exn -> World -> Prop) :
  w_heap w !! frame = Some img ->
  (forall dets m, Q dets (set_model m w)) ->
  (forall e m, det_raises conf e -> R e (set_model m w)) ->
  wp (detector_predict_image frame conf) w Q R.
Proof.
  intros Himg HQ HR. unfold wp, detector_predict_image.
  rewrite (bind_run _ _ _ _ _ (np_read_run _ _ _ Himg)).
  destruct (predict_image (w_model w) img conf) as [[e|dets] m] eqn:E; [|apply HQ].
  apply HR. exists (w_model w), img. rewrite E. reflexivity.
Qed.

Lemma wp_draw_detections_copy w image img dets (Q : loc -> World -> Prop) R :
  w_heap w !! image = Some img ->
  (forall out w',
     is_Some (w_heap w' !! out) ->
     (dets = [] -> w_heap w' !! out = Some img) ->
     w_writer w' = w_writer w -> Q out w') ->
  wp (draw_detections_bgr image dets) w Q R.
Proof.
  intros Himg HQ. unfold wp.
  destruct (draw_detections_bgr_spec image dets w img Himg)
    as (w' & -> & (K & D & F & I & C & W & Mo) & Hnil & _).
  simpl in *. apply HQ; auto.
  - apply D. rewrite lookup_insert_eq. eauto.
  - intros E. rewrite (Hnil E). simpl. apply lookup_insert_eq.
Qed.

Lemma loop_body_more conf fs mf fps st w c wr :
  w_cap w = Some c -> cap_opened c = true ->
  w_writer w = Some wr -> wr_opened wr = true ->
  wp (loop_body conf fs mf fps st) w
    (body_more fs fps st (cap_pending c) wr) (loop_raise conf w).
Proof.
  intros Hc Ho Hw Hwo. unfold loop_body. apply wp_bind.
  apply (wp_cap_read w c _ _ Hc Ho).
  destruct (cap_pending c) as [|[ok [img|]] rest].
  - apply wp_ret. exact I.
  - destruct ok; [|apply wp_ret; exact I].
    set (a := fresh (dom (w_heap w))).
    set (w1 := set_heap _ _).
    assert (Ha : w_heap w1 !! a = Some img) by (subst w1; simpl; apply lookup_insert_eq).
    apply wp_bind.
    destruct (Z.eqb_spec (frame_idx st mod fs) 0) as [Hs|Hs].
    + apply wp_bind. apply (wp_predict_raises w1 a img conf _ _ Ha).
      2:{ intros e m He. split; [exact He|]. simpl. rewrite Hw. simpl. rewrite Hwo. auto. }
      intros dets m. apply wp_bind.
      apply (wp_draw_detections_copy (set_model m w1) a img dets); [exact Ha|].
      intros out w2 [img2 Hout] Hcopy W. apply wp_ret.
      apply wp_bind. simpl in *.
      apply (wp_writer_write w2 out img2 wr); [exact Hout|congruence|exact Hwo|].
      simpl.
      match goal with |- wp (if ?b then _ else _) _ _ _ => destruct b end;
        apply wp_ret; simpl; exists img2; eexists [_]; simpl;
        (split; [reflexivity|]); (split; [reflexivity|]);
        (split; [repeat constructor|]); (split; [intros; contradiction|]);
        intros rec Hrec Hnil; apply list_elem_of_singleton in Hrec; subst rec;
        simpl in Hnil; apply fmap_nil_inv in Hnil;
        pose proof (Hcopy Hnil) as E; congruence.
    + apply wp_ret. apply wp_bind. simpl.
      apply (wp_writer_write w1 a img wr); [exact Ha|exact Hw|exact Hwo|].
      simpl.
      match goal with |- wp (if ?b then _ else _) _ _ _ => destruct b end;
        apply wp_ret; simpl; exists img, []; simpl;
        (split; [reflexivity|]); (split; [rewrite app_nil_r; reflexivity|]);
        (split; [constructor|]); (split; [reflexivity|]);
        intros rec Hrec; inversion Hrec.
  - destruct ok; apply wp_ret; exact I.
Qed.

Lemma while_true_S {S} fuel (body : S -> M (bool * S)) (s : S) :
  while_true (Datatypes.S fuel) body s =
    (r <- body s ;; if r.1 then while_true fuel body r.2 else ret r.2).
Proof. reflexivity. Qed.

Lemma written_as_decoded_nil fs idx pending new : written_as_decoded fs idx pending new [].
Proof. intros i rimg _ Hlt. simpl in Hlt. lia. Qed.

Lemma written_as_decoded_cons fs idx img rest newb new' wimg imgs' :
  (idx mod fs <> 0 -> wimg = img) ->
  (forall rec, rec ∈ newb -> detections rec = [] -> wimg = img) ->
  Forall (fun rec => frame_index rec = idx) newb ->
  Forall (fun rec => idx + 1 <= frame_index rec) new' ->
  written_as_decoded fs (idx + 1) rest new' imgs' ->
  written_as_decoded fs idx ((true, Some img) :: rest) (newb ++ new') (wimg :: imgs').
Proof.
  intros Hpass Hempty Hb Hn' Hrest i rimg Hi Hlt Hcond.
  rewrite Forall_forall in Hb, Hn'.
  destruct i as [|j]; simpl in *.
  - injection Hi as <-. f_equal. rewrite Z.add_0_r in Hcond.
    destruct Hcond as [Hmod|(rec & Hrec & Hidx & Hnil)]; [auto|].
    apply elem_of_app in Hrec as [Hrec|Hrec]; [eauto|].
    specialize (Hn' rec Hrec). lia.
  - apply Hrest; [exact Hi|lia|].
    replace (idx + 1 + Z.of_nat j) with (idx + Z.of_nat (S j)) by lia.
    destruct Hcond as [Hmod|(rec & Hrec & Hidx & Hnil)]; [left; exact Hmod|].
    right. exists rec. split; [|auto].
    apply elem_of_app in Hrec as [Hrec|Hrec]; [|exact Hrec].
    specialize (Hb rec Hrec). lia.
Qed.

Lemma loop_wp_more conf fs mf fps fuel :
  forall st w c wr,
    w_cap w = Some c -> cap_opened c = true ->
    w_writer w = Some wr -> wr_opened wr = true ->
    (length (cap_pending c) < fuel)%nat ->
    wp (while_true fuel (loop_body conf fs mf fps) st) w
      (loop_more fs fps st c wr) (loop_raise conf w).
Proof.
  induction fuel as [|fuel IH]; intros st w c wr Hc Ho Hw Hwo Hfuel; [lia|].
  rewrite while_true_S. apply wp_bind.
  eapply wp_mono;
    [apply (wp_and _ _ _ _ _ _ (loop_body_wp conf fs mf fps st w c wr Hc Ho Hw Hwo)
                               (loop_body_more conf fs mf fps st w c wr Hc Ho Hw Hwo))
    | |intros e w' [_ H]; exact H].
  intros [b st1] w1 [(F & D & Hm) Hmore]. simpl fst. simpl snd.
  assert (Hkeep : forall e w', loop_raise conf w1 e w' -> loop_raise conf w e w').
  { intros e w' (He & F' & D' & HW & HC). split; [exact He|].
    split; [congruence|]. split; [congruence|]. auto. }
  destruct c as [video pending opened]. simpl in *. subst opened.
  assert (Hstop : forall w', w_writer w' = w_writer w -> loop_more fs fps st
            (mkCapture video pending true) wr st w').
  { intros w' Hw'. exists [], []. rewrite !app_nil_r, Hw', Hw.
    split; [destruct wr; simpl in *; subst; reflexivity|].
    split; [reflexivity|]. split; [constructor|apply written_as_decoded_nil]. }
  destruct pending as [|[ok [img|]] rest].
  - destruct Hm as (Hr & _ & Hw1). injection Hr as -> ->. apply wp_ret. auto.
  - destruct Hm as (Hc1 & Hm). destruct ok; simpl in Hm.
    2:{ destruct Hm as (Hr & Hw1). injection Hr as -> ->. apply wp_ret. auto. }
    destruct Hm as (_ & Hidx & Hb & _). simpl in Hfuel.
    destruct Hmore as (wimg & newb & Hw1 & Hpf & Hnewb & Hpass & Hempty).
    assert (Hb1 : Forall (fun rec => frame_index rec = frame_idx st) newb)
      by (eapply Forall_impl; [exact Hnewb|]; intros rec [? ?]; assumption).
    assert (Hb2 : Forall (fun rec => frame_idx st <= frame_index rec /\
                           timestamp_s rec = record_time fps (frame_index rec)) newb).
    { eapply Forall_impl; [exact Hnewb|]. intros rec [E1 E2]. rewrite E1. split; [lia|exact E2]. }
    destruct b.
    + eapply wp_mono;
        [apply (IH st1 w1 _ _ Hc1 eq_refl Hw1 eq_refl); simpl; lia| |exact Hkeep].
      intros st2 w2 (imgs' & new' & Hw2 & Hpf2 & Hnew' & Hwritten). simpl in *.
      exists (wimg :: imgs'), (newb ++ new').
      split; [rewrite Hw2, <- app_assoc; reflexivity|].
      split; [rewrite Hpf2, Hpf, <- app_assoc; reflexivity|].
      rewrite Hidx in *.
      split.
      * apply Forall_app. split; [exact Hb2|].
        eapply Forall_impl; [exact Hnew'|]. intros rec [? ?]. split; [lia|assumption].
      * apply written_as_decoded_cons; auto.
        eapply Forall_impl; [exact Hnew'|]. intros rec [? ?]. assumption.
    + apply wp_ret. exists [wimg], newb.
      split; [exact Hw1|]. split; [exact Hpf|]. split; [exact Hb2|].
      rewrite <- (app_nil_r newb).
      apply written_as_decoded_cons; auto. apply written_as_decoded_nil.
  - destruct Hm as (Hc1 & Hm). destruct ok; simpl in Hm;
      destruct Hm as (Hr & Hw1); injection Hr as -> ->; apply wp_ret; auto.
Qed.

(** ** From the open of the source to the release of the handles, once more *)

(** Lines 40 to 76. *)
Lemma write_loop_more ip op conf fs mf w v (w2 : World) fps width height total :
  w_fs w !! ip ≫= cv2_demux = Some v ->
  w_cap w2 = Some (mkCapture (Some v) (loop_stream v) true) ->
  w_fs w2 = w_fs w -> w_dirs w2 = w_dirs w -> w_writer w2 = w_writer w ->
  fps = (if f_truthy (v_fps v) then v_fps v else f_lit 25.0) ->
  total = (if f_truthy (v_frame_count v) then f_int (v_frame_count v) else 0) ->
  (if needs_probe v then
     exists img rest, v_reads v = (true, Some img) :: rest /\
       width = im_cols img /\ height = im_rows img
   else
     width = f_int (v_width v) /\ height = f_int (v_height v) /\ 0 < width /\ 0 < height) ->
  wp (path_mkdir (path_parent op) ;;
      raw_path <- path_with_suffix op ".raw.mp4" ;;
      VideoWriter raw_path "mp4v" fps (width, height) ;;
      wopened <- writer_isOpened ;;
      if negb wopened then raise (ValueError ("Failed to open video writer: " +:+ op)) else
      fuel <- loop_fuel ;;
      st <- while_true fuel (loop_body conf (Z.max 1 fs) mf fps) (mkLoop 0 0 [] []) ;;
      cap_release ;;
      writer_release ;;
      ret (mkLocals fps width height total (Z.max 1 fs) raw_path st))%py
     w2 (stream_more ip op fs w) (stream_raise ip op conf w).
Proof.
  intros Hv Hc2 Hf2 Hd2 Hw2 Hfps Htotal Hsize.
  apply wp_bind, wp_path_mkdir.
  { intros e He. right. exists v. split; [exact Hv|]. right. left.
    split; [unfold mkdir_raises; rewrite <- Hf2, <- Hd2; exact He|].
    rewrite Hc2. auto. }
  apply wp_bind, wp_path_with_suffix.
  { intros Hname. right. exists v. split; [exact Hv|]. right. right. left.
    split; [reflexivity|]. split; [exact Hname|]. simpl. rewrite Hf2, Hd2, Hw2, Hc2. auto 10. }
  intros _. apply wp_bind, wp_modify.
  set (raw := with_suffix op ".raw.mp4").
  set (w2' := set_dirs _ w2).
  assert (Hc2' : w_cap w2' = Some (mkCapture (Some v) (loop_stream v) true)) by exact Hc2.
  assert (Hf2' : w_fs w2' = w_fs w) by exact Hf2.
  assert (Hd2' : w_dirs w2' = {[path_parent op]} ∪ w_dirs w) by (simpl; rewrite Hd2; reflexivity).
  clearbody w2'. clear Hc2 Hf2 Hd2 Hw2. rename Hc2' into Hc2, Hf2' into Hf2, Hd2' into Hd2.
  clear w2. rename w2' into w2.
  destruct (bool_decide (raw ∈ w_dirs w2)) eqn:Edir; simpl;
    [|destruct (cv2_writer_opens _ _ raw "mp4v" fps (width, height)) eqn:Eopen].
  3,1: (apply wp_bind; (eapply wp_with_writer; [reflexivity|]); apply wp_ret; simpl;
        apply wp_raise; right; exists v; (split; [exact Hv|]); right; right; right; left;
        (split; [reflexivity|]); simpl; rewrite Hf2, Hd2; auto).
  - set (wr := mkWriter raw "mp4v" fps (width, height) [] true).
    set (w3 := set_writer _ _).
    assert (Hw3 : w_writer w3 = Some wr) by reflexivity.
    assert (Hc3 : w_cap w3 = Some (mkCapture (Some v) (loop_stream v) true)) by exact Hc2.
    apply wp_bind. apply (wp_with_writer _ w3 wr _ _ Hw3). apply wp_ret. simpl.
    apply wp_bind. apply (wp_with_cap _ w3 _ _ _ Hc3). apply wp_ret. simpl.
    apply wp_bind.
    eapply wp_mono;
      [apply wp_and;
         [apply (loop_wp conf (Z.max 1 fs) mf fps _ (mkLoop 0 0 [] []) w3 _ wr Hc3 eq_refl Hw3 eq_refl)
         |apply (loop_wp_more conf (Z.max 1 fs) mf fps _ (mkLoop 0 0 [] []) w3 _ wr Hc3 eq_refl Hw3
                   eq_refl)]; simpl; lia
      | |].
    2:{ intros e w' (_ & He & F & D & HW & HC). right. exists v. split; [exact Hv|].
        right. right. right. right. split; [exact He|]. split; [|split; [|auto]].
        - rewrite F. subst w3. simpl. rewrite lookup_insert_eq. eauto.
        - rewrite D. subst w3. simpl. rewrite Hd2. reflexivity. }
    intros st w4 [(_ & _ & F4 & D4 & Hc4 & imgs0 & _ & Hw4') (imgs & new & Hw4 & Hpf & Hnew & Hwritten)].
    simpl in *.
    apply wp_bind. apply (wp_with_cap _ w4 _ _ _ Hc4). apply wp_modify.
    apply wp_bind. eapply wp_with_writer; [exact Hw4|]. simpl. apply wp_modify.
    apply wp_ret. exists v, imgs. simpl.
    split; [exact Hv|]. split; [exact Hfps|]. split; [exact Htotal|].
    split; [exact Hsize|]. split.
    { rewrite Hpf. eapply Forall_impl; [exact Hnew|]. intros rec [_ E]. exact E. }
    split; [reflexivity|]. split; [rewrite Hpf; exact Hwritten|].
    rewrite D4. exact Hd2.
Qed.

Lemma good_prefix_O_iff reads :
  good_prefix reads = O <-> (forall img rest, reads <> (true, Some img) :: rest).
Proof.
  split.
  - intros H img rest ->. simpl in H. discriminate.
  - intros H. destruct reads as [|[[] [img|]] rest]; try reflexivity.
    exfalso. exact (H img rest eq_refl).
Qed.

Lemma needs_probe_false v :
  needs_probe v = false ->
  (if f_truthy (v_width v) then f_int (v_width v) else 0) = f_int (v_width v) /\
  (if f_truthy (v_height v) then f_int (v_height v) else 0) = f_int (v_height v) /\
  0 < f_int (v_width v) /\ 0 < f_int (v_height v).
Proof.
  unfold needs_probe. intros H. apply orb_false_iff in H as [H1 H2].
  apply Z.leb_gt in H1, H2.
  destruct (f_truthy (v_width v)); [|lia]. destruct (f_truthy (v_height v)); [|lia]. auto.
Qed.

Lemma stream_frames_more ip op conf fs mf w :
  wp (stream_frames ip op conf fs mf) w (stream_more ip op fs w) (stream_raise ip op conf w).
Proof.
  unfold stream_frames, VideoCapture.
  apply wp_bind, wp_modify.
  destruct (w_fs w !! ip ≫= cv2_demux) as [v|] eqn:Hv; simpl.
  2:{ apply wp_bind. eapply wp_with_cap; [reflexivity|]. apply wp_ret. simpl.
      apply wp_raise. left. auto. }
  set (w1 := set_cap _ w).
  assert (Hc1 : w_cap w1 = Some (mkCapture (Some v) (v_reads v) true)) by reflexivity.
  apply wp_bind. apply (wp_with_cap _ w1 _ _ _ Hc1). apply wp_ret. simpl.
  apply wp_bind. apply (wp_cap_get _ w1 v _ _ _ Hc1).
  apply wp_bind. apply (wp_cap_get _ w1 v _ _ _ Hc1).
  apply wp_bind. apply (wp_cap_get _ w1 v _ _ _ Hc1).
  apply wp_bind. apply (wp_cap_get _ w1 v _ _ _ Hc1).
  apply wp_bind.
  apply (wp_mono _ _
           (fun (hw : Z * Z) (w2 : World) =>
              w_cap w2 = Some (mkCapture (Some v) (loop_stream v) true) /\
              w_fs w2 = w_fs w /\ w_dirs w2 = w_dirs w /\ w_writer w2 = w_writer w /\
              (if needs_probe v then
                 exists img rest, v_reads v = (true, Some img) :: rest /\
                   hw.2 = im_cols img /\ hw.1 = im_rows img
               else
                 hw.2 = f_int (v_width v) /\ hw.1 = f_int (v_height v) /\ 0 < hw.2 /\ 0 < hw.1))
           _ (stream_raise ip op conf w)); [| |auto].
  - unfold loop_stream. destruct (needs_probe v) eqn:Hn.
    + unfold needs_probe in Hn. rewrite Hn. fold (needs_probe v) in Hn.
      apply wp_bind. apply (wp_cap_read w1 _ _ _ Hc1 eq_refl). simpl.
      destruct (v_reads v) as [|[ok [img|]] rest] eqn:Er.
      * apply wp_raise. right. exists v. split; [exact Hv|]. left. rewrite ?Er. simpl. auto 10.
      * destruct ok.
        2:{ apply wp_raise. right. exists v. split; [exact Hv|]. left. rewrite ?Er. simpl. auto 10. }
        apply wp_bind. unfold wp at 1. erewrite np_shape_run by (simpl; apply lookup_insert_eq).
        apply wp_bind. eapply wp_with_cap; [reflexivity|]. simpl.
        destruct (v_seekable v); simpl.
        -- apply wp_modify. apply wp_ret. simpl. rewrite Er. eauto 10.
        -- apply wp_ret. apply wp_ret. simpl. eauto 10.
      * destruct ok; apply wp_raise; right; exists v; (split; [exact Hv|]); left;
          rewrite ?Er; simpl; auto 10.
    + pose proof (needs_probe_false v Hn) as (Ew & Eh & Hpw & Hph).
      unfold needs_probe in Hn. rewrite Hn. apply wp_ret. simpl. rewrite Ew, Eh. auto 10.
  - intros [height width] w2 (Hc2 & Hf2 & Hd2 & Hw2 & Hsize).
    apply (write_loop_more ip op conf fs mf w v w2); auto.
Qed.

(** From a run that returned: what both [stream_post] and [stream_more] say
    of the locals and of the world before the transcode block. *)
Lemma process_video_inv_more ip op conf fs mf w r w' :
  process_video ip op conf fs mf w = (Returned r, w') ->
  exists l w1,
    stream_post ip op fs mf w l w1 /\
    stream_more ip op fs w l w1 /\
    r = pipeline_result l /\
    w' = set_fs (fun _ => after_transcode (l_raw_path l) op (w_dirs w1) (w_fs w1)) w1.
Proof.
  intros Hrun.
  destruct (process_video_inv _ _ _ _ _ _ _ _ Hrun) as (l & w1 & Hs & Hpost & Hr & Hw).
  exists l, w1. split; [exact Hpost|]. split; [|auto].
  pose proof (stream_frames_more ip op conf fs mf w) as Hwp. unfold wp in Hwp.
  rewrite Hs in Hwp. exact Hwp.
Qed.

Lemma process_video_raise_inv ip op conf fs mf w e w' :
  process_video ip op conf fs mf w = (Raised e, w') ->
  stream_frames ip op conf fs mf w = (Raised e, w').
Proof.
  unfold process_video. intros Hrun. unfold bind at 1 in Hrun.
  pose proof (stream_frames_wp ip op conf fs mf w) as Hwp. unfold wp in Hwp.
  destruct (stream_frames ip op conf fs mf w) as [[l|e1|] w1] eqn:Hs; try discriminate.
  - destruct Hwp as (v & imgs & _ & _ & _ & _ & _ & _ & _ & _ & _ & _ & _ & Hnd).
    rewrite (bind_run _ _ _ _ _ (transcode_spec _ _ _ Hnd)) in Hrun. discriminate.
  - injection Hrun as -> ->. reflexivity.
Qed.

End VideoMoreFacts.

(** ** The legend, once more *)

Section LegendGeometry.
Context {FL : PyFloat} {Ext : Externals}.
Local Open Scope py_scope.

Lemma match_nonempty {A B} (l : list A) (x y : B) :
  l <> [] -> match l with [] => x | _ :: _ => y end = y.
Proof. destruct l; congruence. Qed.

Lemma _draw_legend_geometry out names counts colors w img :
  w_heap w !! out = Some img -> names <> [] ->
  exists w' overlay,
    _draw_legend out names counts colors w = (Returned tt, w') /\
    overlay <> out /\
    w_calls w' = w_calls w ++
      [ (overlay, Rectangle (legend_x1 img, 10) (legend_x2 img, legend_y2 img (length names))
                    (255, 255, 255) (-1));
        (out, Rectangle (legend_x1 img, 10) (legend_x2 img, legend_y2 img (length names))
                (203, 213, 225) 1) ] ++
      map (pair out) (concat (imap (fun i n =>
        legend_entry_calls (legend_x1 img) i (legend_color colors n) n
          (default 0 (dict_get counts n))) names)).
Proof.
  intros Himg Hne. unfold _draw_legend, legend_x1, legend_x2, legend_y2.
  destruct names as [|n0 names0] eqn:En; [congruence|]. rewrite <- En. clear Hne.
  unfold cv2_rectangle.
  rewrite (bind_run _ _ _ _ _ (np_shape_run _ _ _ Himg)).
  rewrite (bind_run _ _ _ _ _ (np_copy_run _ _ _ Himg)).
  pose proof (fresh_heap_None w) as Hov.
  set (ov := fresh (dom (w_heap w))) in *.
  assert (Hovo : ov <> out) by (intros ->; congruence).
  set (w1 := set_heap <[ov := img]> w).
  assert (Hv1 : w_heap w1 !! ov = Some img) by (subst w1; simpl; apply lookup_insert_eq).
  destruct (cv2_draw_spec ov (Rectangle (Z.max 10 (im_cols img - 10 - 220), 10)
      (im_cols img - 10, Z.min (im_rows img - 10) (10 + (10 * 2 + 22 * Z.of_nat (length names))))
      (255, 255, 255) (-1)) w1 img Hv1) as (w2 & Hr2 & Ht2 & Hh2 & Hc2).
  rewrite (bind_run _ _ _ _ _ Hr2).
  assert (Ho2 : w_heap w2 !! out = Some img).
  { rewrite Hh2. subst w1; simpl. rewrite !lookup_insert_ne by congruence. exact Himg. }
  assert (Hv2 : is_Some (w_heap w2 !! ov)) by (rewrite Hh2, lookup_insert_eq; eauto).
  destruct Hv2 as [oimg Hv2].
  rewrite (bind_run _ _ _ _ _ (cv2_blend_run _ _ _ _ _ _ _ _ Hv2 Ho2)).
  pose proof (fresh_heap_None w2) as Hbl.
  set (bl := fresh (dom (w_heap w2))) in *.
  assert (Hblo : bl <> out) by (intros ->; congruence).
  set (bimg := cv2_addWeighted _ _ _ _ _).
  set (w3 := set_heap <[bl := bimg]> w2).
  assert (Ho3 : w_heap w3 !! out = Some img)
    by (subst w3; simpl; rewrite lookup_insert_ne by congruence; exact Ho2).
  assert (Hb3 : w_heap w3 !! bl = Some bimg) by (subst w3; simpl; apply lookup_insert_eq).
  rewrite (bind_run _ _ _ _ _ (np_assign_run _ _ _ _ _ Ho3 Hb3)).
  set (w4 := set_heap <[out := bimg]> w3).
  assert (Ho4 : w_heap w4 !! out = Some bimg) by (subst w4; simpl; apply lookup_insert_eq).
  destruct (cv2_draw_spec out (Rectangle (Z.max 10 (im_cols img - 10 - 220), 10)
      (im_cols img - 10, Z.min (im_rows img - 10) (10 + (10 * 2 + 22 * Z.of_nat (length names))))
      (203, 213, 225) 1) w4 bimg Ho4) as (w5 & Hr5 & Ht5 & Hh5 & Hc5).
  rewrite (bind_run _ _ _ _ _ Hr5).
  assert (H5 : is_Some (w_heap w5 !! out)) by (rewrite Hh5, lookup_insert_eq; eauto).
  change (10 + 10 + 16) with (36 + 22 * Z.of_nat 0).
  destruct (legend_rows_spec out names counts colors
              (Z.max 10 (im_cols img - 10 - 220)) 0 w5 H5) as (w' & Hrun & Ht & Hc).
  exists w', ov. split; [exact Hrun|]. split; [exact Hovo|].
  rewrite Hc, Hc5. subst w4 w3; simpl. rewrite Hc2. subst w1; simpl.
  rewrite <- !app_assoc. reflexivity.
Qed.

Lemma draw_boxes_shape out dets counts colors w img :
  shape_kept ->
  w_heap w !! out = Some img ->
  exists w' img',
    draw_boxes out dets counts colors w =
      (Returned (fold_left counts_step dets counts, fold_left colors_step dets colors), w') /\
    w_heap w' !! out = Some img' /\
    im_rows img' = im_rows img /\ im_cols img' = im_cols img /\
    w_calls w' = w_calls w ++ map (pair out) (concat (map box_calls dets)).
Proof.
  intros Hshape. revert counts colors w img.
  induction dets as [|det dets IH]; intros counts colors w img Himg; simpl.
  - exists w, img. rewrite app_nil_r. auto.
  - unfold box_calls, cv2_rectangle, cv2_putText.
    destruct (cv2_getTextSize _ _ _) as [[tw th] baseline].
    edestruct (cv2_draw_spec out) as (w1 & Hr1 & _ & Hh1 & Hc1); [exact Himg|].
    rewrite (bind_run _ _ _ _ _ Hr1).
    edestruct (cv2_draw_spec out) as (w2 & Hr2 & _ & Hh2 & Hc2);
      [rewrite Hh1; apply lookup_insert_eq|].
    rewrite (bind_run _ _ _ _ _ Hr2).
    edestruct (cv2_draw_spec out) as (w3 & Hr3 & _ & Hh3 & Hc3);
      [rewrite Hh2; apply lookup_insert_eq|].
    rewrite (bind_run _ _ _ _ _ Hr3).
    edestruct (IH (counts_step counts det) (colors_step colors det) w3)
      as (w' & img' & Hrun & Hout & Hrows & Hcols & Hcalls);
      [rewrite Hh3; apply lookup_insert_eq|].
    exists w', img'. split; [exact Hrun|]. split; [exact Hout|].
    split; [|split].
    + rewrite Hrows. rewrite !(proj1 (Hshape _ _)). reflexivity.
    + rewrite Hcols. rewrite !(proj2 (Hshape _ _)). reflexivity.
    + rewrite Hcalls, Hc3, Hc2, Hc1. rewrite <- !app_assoc. reflexivity.
Qed.

(** X27: where the legend is drawn.  When drawing keeps the shape of an
    array, the panel of the legend of a frame with detections has its corners
    at [(x1, 10)] and [(w - 10, y2)] for the width [w] and the height [h] of
    the input image, with [x1 = max(10, w - 230)] and
    [y2 = min(h - 10, 30 + 22 n)] for the [n] entries, between one and
    twelve; row [i] has its swatch and text at [x1 + 10] and [x1 + 32] and at
    height [36 + 22 i].  On an image at least 240 wide the panel is 220 wide;
    on one at least [40 + 22 n] high it reaches below the last row, and on a
    lower one it is cut at [h - 10] while the rows are drawn all the same. *)
Theorem legend_panel_geometry (w : World) (image : loc) (img : Image) (dets : list Detection) :
  shape_kept ->
  dets <> [] ->
  w_heap w !! image = Some img ->
  let counts := fold_left counts_step dets [] in
  let colors := fold_left colors_step dets [] in
  let names := take 12 (sorted_by (legend_key counts) (dict_keys counts)) in
  let x1 := Z.max 10 (im_cols img - 230) in
  let x2 := im_cols img - 10 in
  let y2 := Z.min (im_rows img - 10) (30 + 22 * Z.of_nat (length names)) in
  exists out w' overlay,
    draw_detections_bgr image dets w = (Returned out, w') /\
    overlay <> out /\
    (1 <= length names <= 12)%nat /\
    w_calls w' = w_calls w ++
      map (pair out) (concat (map box_calls dets)) ++
      [ (overlay, Rectangle (x1, 10) (x2, y2) (255, 255, 255) (-1));
        (out, Rectangle (x1, 10) (x2, y2) (203, 213, 225) 1) ] ++
      map (pair out) (concat (imap (fun i n =>
        legend_entry_calls x1 i (legend_color (Some colors) n) n
          (default 0 (dict_get counts n))) names)) /\
    (240 <= im_cols img -> x2 - x1 = 220) /\
    (40 + 22 * Z.of_nat (length names) <= im_rows img ->
       y2 = 30 + 22 * Z.of_nat (length names)) /\
    (im_rows img < 40 + 22 * Z.of_nat (length names) -> y2 = im_rows img - 10).
Proof.
  intros Hshape Hne Himg counts colors names x1 x2 y2.
  destruct dets as [|det dets]; [congruence|].
  pose proof (counts_after_nonempty det dets) as Hcne. fold counts in Hcne.
  pose proof (legend_names_nonempty counts Hcne) as Hnames. fold names in Hnames.
  assert (Hlen : (1 <= length names <= 12)%nat).
  { split; [destruct names; [congruence|simpl; lia]|].
    unfold names. rewrite length_take. lia. }
  set (out := fresh (dom (w_heap w))).
  set (w1 := set_heap <[out := img]> w).
  assert (Ho1 : w_heap w1 !! out = Some img) by (subst w1; simpl; apply lookup_insert_eq).
  destruct (draw_boxes_shape out (det :: dets) [] [] w1 img Hshape Ho1)
    as (w2 & img2 & Hr2 & Ho2 & Hrows & Hcols & Hc2).
  fold counts colors in Hr2.
  destruct (_draw_legend_geometry out names counts (Some colors) w2 img2 Ho2 Hnames)
    as (w3 & ov & Hr3 & Hov & Hc3).
  exists out, w3, ov. split.
  { unfold draw_detections_bgr.
    rewrite (bind_run _ _ _ _ _ (np_copy_run _ _ _ Himg)). fold out w1.
    rewrite (bind_run _ _ _ _ _ Hr2).
    rewrite (match_nonempty counts _ _ Hcne). fold names.
    rewrite (bind_run _ _ _ _ _ Hr3). reflexivity. }
  split; [exact Hov|]. split; [exact Hlen|]. split.
  - rewrite Hc3, Hc2. subst w1; simpl.
    unfold legend_x1, legend_x2, legend_y2. rewrite Hrows, Hcols.
    replace (im_cols img - 10 - 220) with (im_cols img - 230) by lia.
    replace (10 + (10 * 2 + 22 * Z.of_nat (length names)))
      with (30 + 22 * Z.of_nat (length names)) by lia.
    rewrite <- !app_assoc. reflexivity.
  - subst x1 x2 y2. split; [lia|]. split; lia.
Qed.

Lemma total_step (counts : dict Z) k :
  total (dict_set counts k (default 0 (dict_get counts k) + 1)) = total counts + 1.
Proof.
  unfold total. induction counts as [|[k0 v0] counts IH]; simpl; [reflexivity|].
  destruct (String.eqb k0 k); simpl; lia.
Qed.

Lemma total_after dets (counts : dict Z) :
  total (fold_left counts_step dets counts) = total counts + Z.of_nat (length dets).
Proof.
  revert counts. induction dets as [|det dets IH]; intros counts; simpl length; [simpl; lia|].
  cbn [fold_left]. rewrite IH. unfold counts_step. rewrite total_step. lia.
Qed.

Lemma shown_total_app counts l1 l2 :
  shown_total counts (l1 ++ l2) = shown_total counts l1 + shown_total counts l2.
Proof. unfold shown_total. induction l1 as [|n l1 IH]; simpl; [reflexivity|]. rewrite IH. lia. Qed.

Lemma shown_total_perm counts l1 l2 :
  Permutation l1 l2 -> shown_total counts l1 = shown_total counts l2.
Proof.
  unfold shown_total. induction 1; simpl; lia.
Qed.

Lemma shown_total_keys (counts : dict Z) :
  NoDup (dict_keys counts) -> shown_total counts (dict_keys counts) = total counts.
Proof.
  unfold shown_total, total, dict_keys.
  induction counts as [|[k0 v0] counts IH]; simpl; intros Hnd; [reflexivity|].
  apply NoDup_cons in Hnd as [Hk0 Hnd]. rewrite String.eqb_refl. simpl. f_equal.
  rewrite <- (IH Hnd). f_equal. apply map_ext_in. intros k Hk.
  destruct (String.eqb_spec k0 k) as [->|_]; [|reflexivity].
  exfalso. apply Hk0. apply list_elem_of_In. exact Hk.
Qed.

Lemma shown_total_pos counts l :
  Forall (fun n => 0 < default 0 (dict_get counts n)) l ->
  0 <= shown_total counts l /\ (l <> [] -> 0 < shown_total counts l).
Proof.
  unfold shown_total. induction 1 as [|n l Hn Hl [IH0 IH1]]; simpl; [split; [lia|congruence]|].
  split; [lia|intros _; lia].
Qed.

(** X28: the legend accounts for every detection exactly when the frame has
    at most twelve classes.  The counts of all classes add up to the number
    of detections; the counts that the legend prints, those of its at most
    twelve entries, add up to no more, and to exactly the number of
    detections if and only if no class is left out. *)
Theorem legend_accounts_for_detections (dets : list Detection) :
  let counts := fold_left counts_step dets [] in
  let classes := sorted_by (legend_key counts) (dict_keys counts) in
  total counts = Z.of_nat (length dets) /\
  shown_total counts (take 12 classes) <= Z.of_nat (length dets) /\
  (shown_total counts (take 12 classes) = Z.of_nat (length dets) <->
   (length classes <= 12)%nat).
Proof.
  intros counts classes.
  assert (Htotal : total counts = Z.of_nat (length dets)).
  { unfold counts. rewrite total_after. reflexivity. }
  assert (Hp : Permutation (dict_keys counts) classes) by apply sorted_by_perm.
  assert (Hnd : NoDup (dict_keys counts)) by (apply counts_after_NoDup; constructor).
  assert (Hall : shown_total counts classes = Z.of_nat (length dets)).
  { rewrite <- (shown_total_perm counts _ _ Hp), shown_total_keys by exact Hnd. exact Htotal. }
  assert (Hpos : Forall (fun n => 0 < default 0 (dict_get counts n)) classes).
  { apply Forall_forall. intros n Hn. rewrite <- Hp in Hn.
    apply elem_of_dict_keys in Hn. unfold counts in Hn. apply counts_after_keys in Hn.
    destruct Hn as [[? Hn]|Hn]; [discriminate|].
    unfold counts. rewrite counts_after_get. simpl. apply class_count_pos in Hn. lia. }
  rewrite <- (take_drop 12 classes) in Hall, Hpos. rewrite shown_total_app in Hall.
  apply Forall_app in Hpos as [_ Hdrop].
  destruct (shown_total_pos counts _ Hdrop) as [H0 H1].
  split; [exact Htotal|]. split; [lia|]. split.
  - intros E. destruct (drop 12 classes) as [|n rest] eqn:Ed.
    + apply (f_equal length) in Ed. rewrite length_drop in Ed. simpl in Ed. lia.
    + assert (0 < shown_total counts (n :: rest)) by (apply H1; discriminate). lia.
  - intros Hle. rewrite drop_ge in Hall by exact Hle. unfold shown_total in Hall at 2.
    simpl in Hall. lia.
Qed.

End LegendGeometry.

(** ** More of what the pipeline guarantees *)

Ltac pipeline_inv_more Hrun l w1 Hpost Hmore :=
  let Hr := fresh "Hr" in
  let Hw := fresh "Hw" in
  destruct (process_video_inv_more _ _ _ _ _ _ _ _ Hrun) as (l & w1 & Hpost & Hmore & Hr & Hw);
  unfold pipeline_result in Hr; injection Hr as -> -> ->; subst; simpl.

Section VideoGuarantees.
Context {FL : PyFloat} {Ext : Externals}.
Implicit Types (ip op : Path) (conf : float) (fs mf : Z) (w : World).

Lemma good_prefix_lookup (reads : list (bool * option Image)) (i : nat) :
  (i < good_prefix reads)%nat -> exists img, reads !! i = Some (true, Some img).
Proof.
  revert i. induction reads as [|[[] [img|]] rest IH]; intros i Hi; simpl in Hi; try lia.
  destruct i as [|j]; simpl; [eauto|]. apply IH. lia.
Qed.

Lemma loop_frames_le mf idx reads : (loop_frames mf idx reads <= good_prefix reads)%nat.
Proof. unfold loop_frames. destruct (mf =? 0); lia. Qed.

Lemma cleanup_raw_gone (raw out : Path) (dirs : gset Path) (files : gmap Path Content) :
  raw <> out ->
  os_refuses files dirs (OsStat raw) = None ->
  os_refuses files dirs (OsUnlink raw) = None ->
  cleanup_raw raw out dirs files !! raw = None.
Proof.
  intros Hne Hs Hu. unfold cleanup_raw, exists_answer, fs_exists. rewrite Hs, Hu.
  destruct (files !! raw) eqn:E; simpl.
  - destruct (String.eqb_spec raw out); [contradiction|]. apply lookup_delete_eq.
  - destruct (bool_decide (raw ∈ dirs)); exact E.
Qed.

Lemma cleanup_raw_other (raw out p : Path) (dirs : gset Path) (files : gmap Path Content) :
  p <> raw -> cleanup_raw raw out dirs files !! p = files !! p.
Proof.
  intros Hne. unfold cleanup_raw.
  destruct (exists_answer files dirs raw) as [[]|]; try reflexivity.
  destruct (os_refuses files dirs (OsUnlink raw)); [reflexivity|].
  destruct (files !! raw); [|reflexivity].
  destruct (String.eqb raw out); [reflexivity|]. apply lookup_delete_ne. auto.
Qed.

Lemma cleanup_raw_refused (raw out : Path) (dirs : gset Path) (files : gmap Path Content) :
  is_Some (os_refuses files dirs (OsStat raw)) \/
  is_Some (os_refuses files dirs (OsUnlink raw)) ->
  cleanup_raw raw out dirs files = files.
Proof.
  unfold cleanup_raw, exists_answer. intros [[e He]|[e He]]; rewrite He; [reflexivity|].
  destruct (os_refuses files dirs (OsStat raw)); [reflexivity|].
  destruct (fs_exists files dirs raw); reflexivity.
Qed.

Lemma fallback_rename_other (raw out p : Path) (dirs : gset Path) (files : gmap Path Content) :
  p <> raw -> p <> out -> fallback_rename raw out dirs files !! p = files !! p.
Proof.
  intros H1 H2. unfold fallback_rename.
  destruct (exists_answer files dirs raw) as [[]|]; try reflexivity.
  destruct (exists_answer files dirs out) as [[]|]; try reflexivity.
  destruct (os_refuses files dirs (OsReplace raw out)); [reflexivity|].
  destruct (files !! raw); [|reflexivity].
  rewrite lookup_insert_ne by auto. apply lookup_delete_ne. auto.
Qed.

(** X1: [process_video] raises in six ways only.  A [ValueError] that the
    source cannot be opened, when the demuxer finds no video at the input
    path, with files, directories and writer as they were; a [ValueError]
    that no frame can be read, when the container gives no frame size and the
    first read fails, again with nothing written; what [mkdir] raises for
    the parent of the output path, a [FileExistsError] when a file is there
    or what the system refuses it with, and the [ValueError] of
    [with_suffix] for an output path with an empty name, both with nothing
    written and the capture still open; a [ValueError] that the writer
    cannot be opened, with the parent directory created and no file written;
    and what the detector raises, which leaves the intermediate file on disk
    and both handles open.  No exception of the transcoder, of the rename or
    of the clean-up reaches the caller. *)
Theorem process_video_raises ip op conf fs mf w e w' :
  process_video ip op conf fs mf w = (Raised e, w') ->
  stream_raise ip op conf w e w'.
Proof.
  intros Hrun. apply process_video_raise_inv in Hrun.
  pose proof (stream_frames_more ip op conf fs mf w) as Hwp. unfold wp in Hwp.
  rewrite Hrun in Hwp. exact Hwp.
Qed.

(** X2: the [fps] of the result is true as a number whenever 25.0 is, so that
    the [0.0] branch of line 64 is never taken: every record's [timestamp_s]
    is its [frame_index] divided by the [fps] of the result. *)
Theorem timestamps_follow_fps ip op conf fs mf w meta flat_detections per_frame w' :
  f_truthy (f_lit 25.0) = true ->
  process_video ip op conf fs mf w = (Returned (meta, flat_detections, per_frame), w') ->
  f_truthy (fps meta) = true /\
  Forall (fun rec => timestamp_s rec = f_div (f_of_int (frame_index rec)) (fps meta)) per_frame.
Proof.
  intros H25 Hrun. pipeline_inv_more Hrun l w1 Hpost Hmore.
  destruct Hmore as (v & imgs & _ & Hfps & _ & _ & Hts & _).
  assert (Ht : f_truthy (l_fps l) = true).
  { rewrite Hfps. destruct (f_truthy (v_fps v)) eqn:E; [exact E|exact H25]. }
  split; [exact Ht|].
  eapply Forall_impl; [exact Hts|]. intros rec E. rewrite E. unfold record_time.
  rewrite Ht. reflexivity.
Qed.

(** X3: the [meta] of the result describes the source.  [fps] is the rate of
    the container, or 25.0 when that is zero; [total_frames] is its frame
    count; [width] and [height] are those of the container when both are
    positive, and otherwise the shape of the first frame, which is then
    read for this purpose. *)
Theorem meta_describes_source ip op conf fs mf w meta flat_detections per_frame w' :
  process_video ip op conf fs mf w = (Returned (meta, flat_detections, per_frame), w') ->
  exists v,
    w_fs w !! ip ≫= cv2_demux = Some v /\
    fps meta = (if f_truthy (v_fps v) then v_fps v else f_lit 25.0) /\
    total_frames meta = (if f_truthy (v_frame_count v) then f_int (v_frame_count v) else 0) /\
    (needs_probe v = false ->
       width meta = f_int (v_width v) /\ height meta = f_int (v_height v) /\
       0 < width meta /\ 0 < height meta) /\
    (needs_probe v = true ->
       exists img rest, v_reads v = (true, Some img) :: rest /\
         width meta = im_cols img /\ height meta = im_rows img).
Proof.
  intros Hrun. pipeline_inv_more Hrun l w1 Hpost Hmore.
  destruct Hmore as (v & imgs & Hv & Hfps & Htot & Hsize & _).
  exists v. split; [exact Hv|]. split; [exact Hfps|]. split; [exact Htot|].
  split; intros Hn; rewrite Hn in Hsize; exact Hsize.
Qed.

(** X4: every decoded frame is written, in the order of decoding, to a
    writer of the [fps] and the size of the result; a frame that is not
    sampled, and a sampled frame in which nothing was detected, is written
    with the pixels it was decoded with. *)
Theorem unsampled_frames_pass_through ip op conf fs mf w meta flat_detections per_frame w' :
  process_video ip op conf fs mf w = (Returned (meta, flat_detections, per_frame), w') ->
  exists v imgs,
    w_fs w !! ip ≫= cv2_demux = Some v /\
    w_writer w' =
      Some (mkWriter (with_suffix op ".raw.mp4") "mp4v" (fps meta) (width meta, height meta)
              imgs false) /\
    Z.of_nat (length imgs) = frames_read meta /\
    forall i : nat, (i < length imgs)%nat ->
      exists decoded,
        loop_stream v !! i = Some (true, Some decoded) /\
        (Z.of_nat i mod frame_step meta <> 0 \/
         (exists rec, rec ∈ per_frame /\ frame_index rec = Z.of_nat i /\ detections rec = []) ->
         imgs !! i = Some decoded).
Proof.
  intros Hrun. pipeline_inv_more Hrun l w1 Hpost Hmore.
  destruct Hpost as (v & imgs & Hv & Hfs & Hraw & Hidx & _ & _ & _ & _ & Hlen & Hw & _).
  destruct Hmore as (v' & imgs' & Hv' & _ & _ & _ & _ & Hw' & Hwritten & _).
  assert (v' = v) by congruence. subst v'.
  assert (imgs' = imgs) by congruence. subst imgs'.
  exists v, imgs. split; [exact Hv|]. split; [rewrite Hw, Hraw; reflexivity|].
  split; [exact Hlen|].
  intros i Hi.
  destruct (good_prefix_lookup (loop_stream v) i) as [decoded Hd].
  { pose proof (loop_frames_le mf 0 (loop_stream v)). lia. }
  exists decoded. split; [exact Hd|]. intros Hcond.
  apply (Hwritten i decoded Hd Hi). rewrite Hfs in Hcond. rewrite Z.add_0_l. exact Hcond.
Qed.

(** X5: [max_frames = 0] sets no limit.  [frames_read] is then the number of
    frames that the loop finds before the first failing read: all frames of
    the source when the frame size comes from the container or the source
    can seek back, and one less when the first frame went to the probe of a
    source that cannot. *)
Theorem zero_max_frames_reads_all ip op conf fs w meta flat_detections per_frame w' :
  process_video ip op conf fs 0 w = (Returned (meta, flat_detections, per_frame), w') ->
  exists v,
    w_fs w !! ip ≫= cv2_demux = Some v /\
    frames_read meta = Z.of_nat (good_prefix (loop_stream v)) /\
    (needs_probe v = false \/ v_seekable v = true ->
       frames_read meta = Z.of_nat (good_prefix (v_reads v))) /\
    (needs_probe v = true -> v_seekable v = false ->
       frames_read meta = Z.of_nat (good_prefix (v_reads v)) - 1).
Proof.
  intros Hrun. pipeline_inv_more Hrun l w1 Hpost Hmore.
  destruct Hpost as (v & imgs & Hv & _ & _ & Hidx & _).
  destruct Hmore as (v' & _ & Hv' & _ & _ & Hsize & _).
  assert (v' = v) by congruence. subst v'.
  exists v. split; [exact Hv|]. split; [exact Hidx|].
  rewrite Hidx. unfold loop_frames, loop_stream. simpl. split.
  - intros [Hn|Hs]; [rewrite Hn|rewrite Hs, andb_false_r]; reflexivity.
  - intros Hn Hs. rewrite Hn, Hs in *. simpl.
    destruct Hsize as (img & rest & Er & _). rewrite Er. simpl. lia.
Qed.

(** X6: a negative [max_frames] is true as a number and no frame index is
    below it, so the loop stops after the first frame: [frames_read] is 1, or
    0 when there is nothing to read. *)
Theorem negative_max_frames_reads_one ip op conf fs mf w meta flat_detections per_frame w' :
  mf < 0 ->
  process_video ip op conf fs mf w = (Returned (meta, flat_detections, per_frame), w') ->
  exists v,
    w_fs w !! ip ≫= cv2_demux = Some v /\
    frames_read meta = Z.min 1 (Z.of_nat (good_prefix (loop_stream v))) /\
    map frame_index per_frame = (if decide (frames_read meta = 0) then [] else [0]).
Proof.
  intros Hmf Hrun. pipeline_inv_more Hrun l w1 Hpost Hmore.
  destruct Hpost as (v & imgs & Hv & _ & _ & Hidx & Hpf & _).
  exists v. split; [exact Hv|].
  assert (E : frame_idx (l_loop l) = Z.min 1 (Z.of_nat (good_prefix (loop_stream v)))).
  { rewrite Hidx. unfold loop_frames. destruct (Z.eqb_spec mf 0); [lia|].
    replace (Z.to_nat (Z.max 1 (mf - 0))) with 1%nat by lia. lia. }
  split; [exact E|]. rewrite Hpf.
  destruct (decide (frame_idx (l_loop l) = 0)) as [E0|E0]; [rewrite E0; reflexivity|].
  replace (frame_idx (l_loop l)) with (Z.of_nat 1) by lia.
  rewrite sample_indices_S, decide_True by apply Zmod_0_l. reflexivity.
Qed.

(** X7: on return the parent directory of the output exists and, when the
    intermediate path differs from the output path and the system refuses
    neither [exists()] nor [unlink()] on the intermediate path, no file is
    left there, whatever the transcoder did. *)
Theorem intermediate_file_removed ip op conf fs mf w r w' :
  with_suffix op ".raw.mp4" <> op ->
  os_allows (OsStat (with_suffix op ".raw.mp4")) ->
  os_allows (OsUnlink (with_suffix op ".raw.mp4")) ->
  process_video ip op conf fs mf w = (Returned r, w') ->
  w_fs w' !! with_suffix op ".raw.mp4" = None /\
  path_parent op ∈ w_dirs w'.
Proof.
  intros Hne Hstat Hunlink Hrun.
  destruct (process_video_inv_more _ _ _ _ _ _ _ _ Hrun) as (l & w1 & Hpost & Hmore & _ & ->).
  destruct Hpost as (v & imgs & _ & _ & Hraw & _).
  destruct Hmore as (v' & imgs' & _ & _ & _ & _ & _ & _ & _ & Hdirs).
  simpl. rewrite Hraw. split.
  - unfold after_transcode. apply cleanup_raw_gone; [exact Hne|apply Hstat|apply Hunlink].
  - rewrite Hdirs. apply elem_of_union_l, elem_of_singleton. reflexivity.
Qed.

(** X8: when the transcoder goes through, the fallback rename is not run:
    but for the intermediate file the files are as the transcoder left them,
    the output file among them.  The intermediate file is removed when the
    two paths differ and the system refuses neither [exists()] nor
    [unlink()] on it; a refusal is swallowed, and then all files are as the
    transcoder left them, the intermediate one too. *)
Theorem transcode_success_keeps_output ip op conf fs mf w l w1 files :
  stream_frames ip op conf fs mf w = (Returned l, w1) ->
  ffmpeg_attempt (with_suffix op ".raw.mp4") op (w_fs w1) = (true, files) ->
  exists w',
    process_video ip op conf fs mf w = (Returned (pipeline_result l), w') /\
    (forall p, p <> with_suffix op ".raw.mp4" -> w_fs w' !! p = files !! p) /\
    (with_suffix op ".raw.mp4" <> op -> w_fs w' !! op = files !! op) /\
    (with_suffix op ".raw.mp4" <> op ->
     os_refuses files (w_dirs w1) (OsStat (with_suffix op ".raw.mp4")) = None ->
     os_refuses files (w_dirs w1) (OsUnlink (with_suffix op ".raw.mp4")) = None ->
     w_fs w' !! with_suffix op ".raw.mp4" = None) /\
    (is_Some (os_refuses files (w_dirs w1) (OsStat (with_suffix op ".raw.mp4"))) \/
     is_Some (os_refuses files (w_dirs w1) (OsUnlink (with_suffix op ".raw.mp4"))) ->
     w_fs w' = files).
Proof.
  intros Hs Hatt.
  pose proof (stream_frames_wp ip op conf fs mf w) as Hwp. unfold wp in Hwp.
  rewrite Hs in Hwp.
  destruct Hwp as (v & imgs & _ & _ & Hraw & _ & _ & _ & _ & _ & _ & _ & _ & Hnd).
  eexists. split.
  { unfold process_video. rewrite (bind_run _ _ _ _ _ Hs).
    rewrite (bind_run _ _ _ _ _ (transcode_spec _ _ _ Hnd)). reflexivity. }
  simpl. unfold after_transcode. rewrite Hraw, Hatt. simpl. split; [|split; [|split]].
  - intros p Hp. apply cleanup_raw_other. exact Hp.
  - intros Hne. apply cleanup_raw_other. auto.
  - intros Hne Hstat Hunlink. apply cleanup_raw_gone; assumption.
  - apply cleanup_raw_refused.
Qed.

(** X9: when the transcoder cannot be imported, no file other than the
    intermediate one and the output is created, changed or removed. *)
Theorem missing_transcoder_spares_other_files ip op conf fs mf w r w' e :
  get_ffmpeg_exe = inl e ->
  process_video ip op conf fs mf w = (Returned r, w') ->
  forall p, p <> with_suffix op ".raw.mp4" -> p <> op -> w_fs w' !! p = w_fs w !! p.
Proof.
  intros He Hrun p Hp1 Hp2.
  destruct (process_video_inv_more _ _ _ _ _ _ _ _ Hrun) as (l & w1 & Hpost & _ & _ & ->).
  destruct Hpost as (v & imgs & _ & _ & Hraw & _ & _ & _ & _ & _ & _ & _ & Hfs1 & _).
  simpl. unfold after_transcode, ffmpeg_attempt. rewrite He. simpl. rewrite Hraw in *.
  rewrite cleanup_raw_other by exact Hp1.
  rewrite fallback_rename_other by assumption.
  rewrite Hfs1. apply lookup_insert_ne. auto.
Qed.

End VideoGuarantees.

(** ** The detector wrapper *)

Module YoloFacts.
Import Yolo.
Section YoloFacts.
Context {FL : PyFloat} {U : Ultralytics}.

Lemma zip3_length {A B C} (l1 : list A) (l2 : list B) (l3 : list C) :
  length (zip3 l1 l2 l3) = Nat.min (length l1) (Nat.min (length l2) (length l3)).
Proof.
  revert l2 l3. induction l1 as [|a l1 IH]; intros [|b l2] [|c l3]; simpl; try reflexivity.
  rewrite IH. reflexivity.
Qed.

Lemma zip3_lookup {A B C} (l1 : list A) (l2 : list B) (l3 : list C) (i : nat) a b c :
  zip3 l1 l2 l3 !! i = Some (a, b, c) <->
  l1 !! i = Some a /\ l2 !! i = Some b /\ l3 !! i = Some c.
Proof.
  revert l2 l3 i.
  induction l1 as [|a1 l1 IH]; intros [|b1 l2] [|c1 l3] i; simpl;
    try (split; [discriminate|]; intros (H1 & H2 & H3);
         rewrite ?lookup_nil in *; discriminate).
  destruct i as [|i]; simpl.
  - split; [intros [= -> -> ->]; auto|intros ([= ->] & [= ->] & [= ->]); reflexivity].
  - apply IH.
Qed.

Lemma _load_spec (self : YOLODetector) :
  match _load self with
  | (inr _, self') =>
      model_name self' = model_name self /\
      exists m, _model self' = Some m /\
        (_model self = Some m /\ self' = self \/
         _model self = None /\ import_YOLO = None /\ YOLO_new (model_name self) = inr m)
  | (inl e, self') =>
      self' = self /\ _model self = None /\
      ((is_Some import_YOLO /\
        e = LibError (RuntimeError
              ("Ultralytics is not installed or failed to import. " +:+
               "Install requirements.txt and ensure your environment supports it."))) \/
       (exists e', import_YOLO = None /\ YOLO_new (model_name self) = inl e' /\ e = LibError e'))
  end.
Proof.
  unfold _load. destruct self as [name [m|]]; simpl.
  - split; [reflexivity|]. exists m. auto.
  - destruct import_YOLO as [e|] eqn:Ei.
    + split; [reflexivity|]. split; [reflexivity|]. left. eauto.
    + destruct (YOLO_new name) as [e|m] eqn:En; simpl.
      * split; [reflexivity|]. split; [reflexivity|]. right. eauto.
      * split; [reflexivity|]. exists m. auto.
Qed.

Lemma predict_image_loaded (self : YOLODetector) m img conf :
  _model self = Some m ->
  predict_image self img conf =
    (match yolo_predict m img conf with
     | inl e => inl (LibError e)
     | inr results => inr (detections_of m results)
     end, self).
Proof.
  intros Hm. unfold predict_image, _load. rewrite Hm. simpl. rewrite Hm.
  destruct (yolo_predict m img conf); reflexivity.
Qed.

(** X10: the model is constructed at most once.  When [predict_image]
    returns, the detector holds a model: the one it held before, or the one
    that [YOLO(model_name)] gave when it held none.  Every later call on that
    detector leaves it as it is and gives what that model predicts, whatever
    the import and the constructor would do. *)
Theorem model_is_loaded_once (self self' : YOLODetector) img conf dets :
  predict_image self img conf = (inr dets, self') ->
  model_name self' = model_name self /\
  exists m,
    _model self' = Some m /\
    (_model self = Some m \/ _model self = None /\ YOLO_new (model_name self) = inr m) /\
    forall img2 conf2,
      predict_image self' img2 conf2 =
        (match yolo_predict m img2 conf2 with
         | inl e => inl (LibError e)
         | inr results => inr (detections_of m results)
         end, self').
Proof.
  unfold predict_image. pose proof (_load_spec self) as Hl.
  destruct (_load self) as [[e|[]] s1]; [discriminate|].
  destruct Hl as (Hn & m & Hm & Hfrom). rewrite Hm.
  destruct (yolo_predict m img conf) as [e|results]; [discriminate|].
  intros [= <- <-]. split; [exact Hn|]. exists m. split; [exact Hm|]. split.
  - destruct Hfrom as [[H _]|(H & _ & H')]; auto.
  - intros img2 conf2. apply predict_image_loaded. exact Hm.
Qed.

(** X11: [predict_image] raises in three ways only, and never by its
    [assert].  A [RuntimeError] with the fixed message when the import of
    ultralytics fails, whatever the import raised; what the constructor
    raises; in both cases the detector still holds no model, so that the next
    call tries again.  And what [model.predict] raises, in which case the
    detector keeps the model. *)
Theorem predict_image_raises (self self' : YOLODetector) img conf e :
  predict_image self img conf = (inl e, self') ->
  e <> AssertionError /\
  ((self' = self /\ _model self = None /\ is_Some import_YOLO /\
    e = LibError (RuntimeError
          ("Ultralytics is not installed or failed to import. " +:+
           "Install requirements.txt and ensure your environment supports it."))) \/
   (exists e', self' = self /\ _model self = None /\ import_YOLO = None /\
      YOLO_new (model_name self) = inl e' /\ e = LibError e') \/
   (exists m e', _model self' = Some m /\ yolo_predict m img conf = inl e' /\
      e = LibError e')).
Proof.
  unfold predict_image. pose proof (_load_spec self) as Hl.
  destruct (_load self) as [[e1|[]] s1].
  - destruct Hl as (-> & Hnone & Hwhy). intros [= <- <-].
    destruct Hwhy as [[Hi ->]|(e' & Hi & Hn & ->)].
    + split; [discriminate|]. left. auto.
    + split; [discriminate|]. right. left. exists e'. auto.
  - destruct Hl as (Hn & m & Hm & Hfrom). rewrite Hm.
    destruct (yolo_predict m img conf) as [e'|results] eqn:Ep; [|discriminate].
    intros [= <- <-]. split; [discriminate|]. right. right. exists m, e'. auto.
Qed.

Lemma to_int64_range z : - 2 ^ 63 <= to_int64 z < 2 ^ 63.
Proof.
  unfold to_int64. pose proof (Z.mod_pos_bound (z + 2 ^ 63) (2 ^ 64) ltac:(lia)). lia.
Qed.

Lemma astype_int_spec (c : float) :
  - 2 ^ 63 <= astype_int c < 2 ^ 63 /\
  (- 2 ^ 63 <= f_int c < 2 ^ 63 -> astype_int c = f_int c).
Proof.
  unfold astype_int.
  destruct (Z.leb_spec (- 2 ^ 63) (f_int c)); destruct (Z.ltb_spec (f_int c) (2 ^ 63)); simpl;
    (split; [first [lia|apply to_int64_range]|intros; first [reflexivity|lia]]).
Qed.

(** X12: the detections that [predict_image] returns come from the first
    result only; there is none when the model gives no result, when the
    result has no boxes and when the boxes have no [xyxy].  Otherwise there is
    one detection per row of [zip(xyxy, conf, cls)], so as many as the
    shortest of the three arrays has entries, in their order, each with the
    corners and the confidence of its row.  Its [class_id] is what
    [astype(int)] makes of its [cls] entry: an int64, the integer part of
    the entry whenever that is an int64, and not the integer part
    otherwise. *)
Theorem detections_follow_boxes (self self' : YOLODetector) img conf dets :
  predict_image self img conf = (inr dets, self') ->
  exists m results,
    _model self' = Some m /\
    yolo_predict m img conf = inr results /\
    match results with
    | [] => dets = []
    | r0 :: _ =>
        match r_boxes r0 with
        | None => dets = []
        | Some boxes =>
            match b_xyxy boxes with
            | None => dets = []
            | Some xyxy =>
                length dets =
                  Nat.min (length xyxy) (Nat.min (length (b_conf boxes)) (length (b_cls boxes))) /\
                forall (i : nat) d, dets !! i = Some d ->
                  xyxy !! i = Some (x1 d, y1 d, x2 d, y2 d) /\
                  b_conf boxes !! i = Some (confidence d) /\
                  exists c,
                    b_cls boxes !! i = Some c /\
                    class_id d = astype_int c /\
                    - 2 ^ 63 <= class_id d < 2 ^ 63 /\
                    (- 2 ^ 63 <= f_int c < 2 ^ 63 <-> class_id d = f_int c)
            end
        end
    end.
Proof.
  unfold predict_image. pose proof (_load_spec self) as Hl.
  destruct (_load self) as [[e|[]] s1]; [discriminate|].
  destruct Hl as (Hn & m & Hm & Hfrom). rewrite Hm.
  destruct (yolo_predict m img conf) as [e|results] eqn:Ep; [discriminate|].
  intros [= <- <-]. exists m, results. split; [exact Hm|]. split; [exact Ep|].
  unfold detections_of.
  destruct results as [|r0 rest]; [reflexivity|].
  destruct (r_boxes r0) as [boxes|]; [|reflexivity].
  destruct (b_xyxy boxes) as [xyxy|]; [|reflexivity].
  split.
  - rewrite length_map, zip3_length, length_map. reflexivity.
  - intros i d Hd. rewrite list_lookup_fmap in Hd.
    destruct (zip3 xyxy (b_conf boxes) (map astype_int (b_cls boxes)) !! i)
      as [[[[[[bx1 by1] bx2] by2] c] cid]|] eqn:Ez; [|discriminate].
    injection Hd as <-. simpl.
    apply (zip3_lookup xyxy (b_conf boxes) (map astype_int (b_cls boxes)) i
             (bx1, by1, bx2, by2) c cid) in Ez as (H1 & H2 & H3).
    split; [exact H1|]. split; [exact H2|].
    rewrite list_lookup_fmap in H3.
    destruct (b_cls boxes !! i) as [x|]; [|discriminate].
    injection H3 as <-. exists x. split; [reflexivity|]. split; [reflexivity|].
    destruct (astype_int_spec x) as [Hrange Hin].
    split; [exact Hrange|]. split; [exact Hin|]. intros E. rewrite <- E. exact Hrange.
Qed.

Lemma names_in_force_eq m r0 :
  default ∅ (dict_or (dict_or (yolo_names m) (r_names r0)) (Some ∅)) = names_in_force m r0.
Proof.
  unfold names_in_force, dict_or.
  destruct (yolo_names m) as [d|]; [destruct (decide (d = ∅))|];
    try (destruct (r_names r0) as [d'|]; [destruct (decide (d' = ∅)); subst|]; reflexivity).
  destruct (decide (d = ∅)); [contradiction|reflexivity].
Qed.

(** X13: the [class_name] of every detection is looked up under its
    [class_id] in the table of the model or, when the model has none or an
    empty one, in that of the result; a [class_id] that the table in force
    does not list is named by its decimal digits. *)
Theorem class_names_follow_table (self self' : YOLODetector) img conf dets :
  predict_image self img conf = (inr dets, self') ->
  exists m results,
    _model self' = Some m /\
    yolo_predict m img conf = inr results /\
    forall d, d ∈ dets ->
      exists r0, head results = Some r0 /\
        class_name d =
          match names_in_force m r0 !! class_id d with
          | Some name => name
          | None => str_of_int (class_id d)
          end.
Proof.
  unfold predict_image. pose proof (_load_spec self) as Hl.
  destruct (_load self) as [[e|[]] s1]; [discriminate|].
  destruct Hl as (Hn & m & Hm & Hfrom). rewrite Hm.
  destruct (yolo_predict m img conf) as [e|results] eqn:Ep; [discriminate|].
  intros [= <- <-]. exists m, results. split; [exact Hm|]. split; [exact Ep|].
  intros d Hd. unfold detections_of in Hd.
  destruct results as [|r0 rest]; [inversion Hd|].
  exists r0. split; [reflexivity|].
  destruct (r_boxes r0) as [boxes|]; [|inversion Hd].
  destruct (b_xyxy boxes) as [xyxy|]; [|inversion Hd].
  rewrite names_in_force_eq in Hd.
  apply list_elem_of_fmap in Hd as ([[[[[bx1 by1] bx2] by2] c] cid] & -> & _).
  simpl. destruct (names_in_force m r0 !! cid); reflexivity.
Qed.

End YoloFacts.
End YoloFacts.

(** ** The storage layer *)

Module StorageFacts.
Import Storage.
Section StorageFacts.
Context {FL : PyFloat} {F : Files}.
Local Open Scope st_scope.

Lemma st_bind_run {S A B} (m : St S A) (k : A -> St S B) s a s' :
  m s = (inr a, s') -> st_bind m k s = k a s'.
Proof. intros H. unfold st_bind. rewrite H. reflexivity. Qed.

Lemma write_json_run path data (d : Disk) :
  write_json path data d =
    (inr tt, mkDisk (<[path := json_dumps data]> (files d)) ({[parent path]} ∪ dirs d) (clock d)).
Proof. reflexivity. Qed.

Lemma load_json_run path j (d : Disk) :
  files d !! path = Some (json_dumps j) -> json_loads (json_dumps j) = inr j ->
  load_json path d = (inr j, d).
Proof.
  intros Hf Hj. unfold load_json, st_bind, read_text. rewrite Hf, Hj. reflexivity.
Qed.

Lemma load_json_missing path (d : Disk) :
  files d !! path = None -> load_json path d = (inl FileNotFoundError, d).
Proof. intros Hf. unfold load_json, st_bind, read_text. rewrite Hf. reflexivity. Qed.

Lemma wf_json_of_fields (det : Detection) : wf_json (json_of_fields (asdict det)) = true.
Proof.
  reflexivity.
Qed.

Lemma wf_detections (dets : list Detection) :
  wf_json (JList (map json_of_fields (map asdict dets))) = true.
Proof.
  simpl. apply forallb_forall. intros j Hj. apply in_map_iff in Hj as (f & <- & Hf).
  apply in_map_iff in Hf as (det & <- & _). apply wf_json_of_fields.
Qed.

Lemma dict_get_update {V} (d other : dict V) k :
  NoDup (dict_keys other) ->
  dict_get (dict_update d other) k =
    match dict_get other k with
    | Some v => Some v
    | None => dict_get d k
    end.
Proof.
  unfold dict_update. revert d.
  induction other as [|[k0 v0] other IH]; intros d Hnd; simpl; [reflexivity|].
  apply NoDup_cons in Hnd as [Hk0 Hnd].
  rewrite (IH _ Hnd), dict_get_set.
  destruct (String.eqb_spec k0 k) as [->|Hne]; [|reflexivity].
  destruct (dict_get other k) eqn:E; [|reflexivity].
  exfalso. apply Hk0. apply (proj2 (elem_of_dict_keys other k)). rewrite E. eauto.
Qed.

Lemma dict_keys_update_NoDup {V} (d other : dict V) :
  NoDup (dict_keys d) -> NoDup (dict_keys (dict_update d other)).
Proof.
  unfold dict_update. revert d.
  induction other as [|[k0 v0] other IH]; intros d Hnd; simpl; [exact Hnd|].
  apply IH, dict_keys_set_NoDup, Hnd.
Qed.

Lemma dict_set_values {V} (P : V -> Prop) (d : dict V) k v :
  Forall (fun kv => P kv.2) d -> P v -> Forall (fun kv => P kv.2) (dict_set d k v).
Proof.
  intros Hd Hv. induction Hd as [|[k0 v0] d H0 Hd IH]; simpl; [repeat constructor; exact Hv|].
  destruct (String.eqb k0 k); constructor; auto.
Qed.

Lemma dict_update_values {V} (P : V -> Prop) (d other : dict V) :
  Forall (fun kv => P kv.2) d -> Forall (fun kv => P kv.2) other ->
  Forall (fun kv => P kv.2) (dict_update d other).
Proof.
  unfold dict_update. intros Hd Ho. revert d Hd.
  induction Ho as [|[k0 v0] other H0 Ho IH]; intros d Hd; simpl; [exact Hd|].
  apply IH, dict_set_values; assumption.
Qed.

Lemma wf_json_dict (d : dict Json) :
  NoDup (dict_keys d) -> Forall (fun kv => wf_json kv.2 = true) d -> wf_json (JDict d) = true.
Proof.
  intros Hnd Hv. simpl. apply andb_true_iff. split; [apply bool_decide_eq_true; exact Hnd|].
  apply forallb_forall. intros [k v] Hin. rewrite Forall_forall in Hv.
  apply (Hv (k, v)). apply list_elem_of_In. exact Hin.
Qed.

Lemma save_analysis_bundle_spec (d : Disk) results_dir analysis_id input_path preview_path
    (detections : list Detection) model_name conf_threshold duration_ms :
  codec_ok ->
  joinpath (analysis_dir results_dir analysis_id) "detections.json" <>
    joinpath (analysis_dir results_dir analysis_id) "meta.json" ->
  exists d' meta,
    save_analysis_bundle results_dir analysis_id input_path preview_path detections
      model_name conf_threshold duration_ms d = (inr tt, d') /\
    load_analysis_detections results_dir analysis_id d' =
      (inr (JList (map json_of_fields (map asdict detections))), d') /\
    load_analysis_meta results_dir analysis_id d' = (inr (JDict meta), d') /\
    dict_keys meta =
      [ "analysis_id"; "type"; "input_file"; "preview_file"; "model"; "conf_threshold";
        "duration_ms"; "created_at"; "num_detections" ] /\
    dict_get meta "analysis_id" = Some (JStr analysis_id) /\
    dict_get meta "type" = Some (JStr "image") /\
    dict_get meta "created_at" = Some (JInt (f_int (clock d))) /\
    dict_get meta "num_detections" = Some (JInt (Z.of_nat (length detections))).
Proof.
  intros Hcodec Hne. eexists _, _. split.
  { cbv [save_analysis_bundle st_bind mkdir time_time write_json write_text]. reflexivity. }
  unfold load_analysis_detections, load_analysis_meta.
  split; [|split].
  - apply load_json_run; [|apply Hcodec, wf_detections].
    simpl. rewrite lookup_insert_ne by (intros E; apply Hne; symmetry; exact E).
    apply lookup_insert_eq.
  - apply load_json_run; [simpl; apply lookup_insert_eq|].
    apply Hcodec. apply wf_json_dict.
    + apply (bool_decide_eq_true_1 _). reflexivity.
    + repeat constructor.
  - simpl. auto 10.
Qed.

(** X14: what [save_analysis_bundle] writes can be read back.  If
    [json.loads] inverts [json.dumps] and the two files of the bundle have
    different paths, then after the call [load_analysis_detections] gives the
    detections as dicts, in order, and [load_analysis_meta] gives a dict with
    the nine keys of the image bundle, among them the identifier, the type
    ["image"], the time of the call and, under ["num_detections"], the number
    of detections. *)
Theorem image_bundle_round_trip (d : Disk) results_dir analysis_id input_path preview_path
    (detections : list Detection) model_name conf_threshold duration_ms :
  codec_ok ->
  joinpath (analysis_dir results_dir analysis_id) "detections.json" <>
    joinpath (analysis_dir results_dir analysis_id) "meta.json" ->
  exists d' meta,
    save_analysis_bundle results_dir analysis_id input_path preview_path detections
      model_name conf_threshold duration_ms d = (inr tt, d') /\
    load_analysis_detections results_dir analysis_id d' =
      (inr (JList (map json_of_fields (map asdict detections))), d') /\
    load_analysis_meta results_dir analysis_id d' = (inr (JDict meta), d') /\
    dict_keys meta =
      [ "analysis_id"; "type"; "input_file"; "preview_file"; "model"; "conf_threshold";
        "duration_ms"; "created_at"; "num_detections" ] /\
    dict_get meta "analysis_id" = Some (JStr analysis_id) /\
    dict_get meta "type" = Some (JStr "image") /\
    dict_get meta "created_at" = Some (JInt (f_int (clock d))) /\
    dict_get meta "num_detections" = Some (JInt (Z.of_nat (length detections))).
Proof.
  intros Hcodec Hne.
  exact (save_analysis_bundle_spec d results_dir analysis_id input_path preview_path detections
           model_name conf_threshold duration_ms Hcodec Hne).
Qed.

Lemma save_analysis_bundle_video_spec (d : Disk) results_dir analysis_id input_path preview_path
    output_video_path (detections_flat : list Detection) (detections_per_frame : list (dict Json))
    model_name conf_threshold duration_ms (video_meta : dict Json) :
  codec_ok ->
  bundle_paths_differ (analysis_dir results_dir analysis_id) ->
  NoDup (dict_keys video_meta) ->
  wf_json (JDict video_meta) = true ->
  wf_json (JList (map JDict detections_per_frame)) = true ->
  exists d' meta,
    save_analysis_bundle_video results_dir analysis_id input_path preview_path
      output_video_path detections_flat detections_per_frame model_name conf_threshold
      duration_ms video_meta d = (inr tt, d') /\
    load_analysis_detections results_dir analysis_id d' =
      (inr (JList (map json_of_fields (map asdict detections_flat))), d') /\
    load_analysis_detections_per_frame results_dir analysis_id d' =
      (inr (JList (map JDict detections_per_frame)), d') /\
    load_analysis_meta results_dir analysis_id d' = (inr (JDict meta), d') /\
    (forall k v, dict_get video_meta k = Some v -> dict_get meta k = Some v) /\
    (dict_get video_meta "type" = None -> dict_get meta "type" = Some (JStr "video")) /\
    (dict_get video_meta "output_video_file" = None ->
       dict_get meta "output_video_file" = Some (JStr (path_name output_video_path))) /\
    (dict_get video_meta "num_detections" = None ->
       dict_get meta "num_detections" = Some (JInt (Z.of_nat (length detections_flat)))).
Proof.
  intros Hcodec (Hdm & Hpm & Hdp) Hnd Hwf Hpf. eexists _, _. split.
  { cbv [save_analysis_bundle_video st_bind mkdir time_time write_json write_text]. reflexivity. }
  unfold load_analysis_detections, load_analysis_detections_per_frame, load_analysis_meta.
  split; [|split; [|split]].
  - apply load_json_run; [|apply Hcodec, wf_detections].
    simpl. rewrite lookup_insert_ne by (intros E; apply Hdm; symmetry; exact E).
    rewrite lookup_insert_ne by (intros E; apply Hdp; symmetry; exact E).
    apply lookup_insert_eq.
  - apply load_json_run; [|apply Hcodec, Hpf].
    simpl. rewrite lookup_insert_ne by (intros E; apply Hpm; symmetry; exact E).
    apply lookup_insert_eq.
  - apply load_json_run; [simpl; apply lookup_insert_eq|].
    apply Hcodec. apply wf_json_dict.
    + apply dict_keys_update_NoDup. apply (bool_decide_eq_true_1 _). reflexivity.
    + apply (dict_update_values (fun v => wf_json v = true)); [repeat constructor|].
      simpl in Hwf. apply andb_true_iff in Hwf as [_ Hv].
      apply Forall_forall. intros [k v] Hin.
      rewrite forallb_forall in Hv. apply (Hv (k, v)). apply list_elem_of_In. exact Hin.
  - split; [|repeat split]; intros; rewrite dict_get_update by exact Hnd.
    + match goal with H : dict_get video_meta _ = Some _ |- _ => rewrite H end. reflexivity.
    + match goal with H : dict_get video_meta _ = None |- _ => rewrite H end. reflexivity.
    + match goal with H : dict_get video_meta _ = None |- _ => rewrite H end. reflexivity.
    + match goal with H : dict_get video_meta _ = None |- _ => rewrite H end. reflexivity.
Qed.

(** X15: the video bundle can be read back as well, and [meta.update] lets
    the caller's [video_meta] win.  With an inverting codec and three
    different paths, the three loaders give back the flat detections, the
    per-frame list and the meta dict; under every key of [video_meta] the
    meta dict holds the caller's value, and under every other key the one
    that the function set: in particular ["num_detections"] is the number of
    flat detections unless [video_meta] has that key. *)
Theorem video_bundle_round_trip (d : Disk) results_dir analysis_id input_path preview_path
    output_video_path (detections_flat : list Detection) (detections_per_frame : list (dict Json))
    model_name conf_threshold duration_ms (video_meta : dict Json) :
  codec_ok ->
  bundle_paths_differ (analysis_dir results_dir analysis_id) ->
  NoDup (dict_keys video_meta) ->
  wf_json (JDict video_meta) = true ->
  wf_json (JList (map JDict detections_per_frame)) = true ->
  exists d' meta,
    save_analysis_bundle_video results_dir analysis_id input_path preview_path
      output_video_path detections_flat detections_per_frame model_name conf_threshold
      duration_ms video_meta d = (inr tt, d') /\
    load_analysis_detections results_dir analysis_id d' =
      (inr (JList (map json_of_fields (map asdict detections_flat))), d') /\
    load_analysis_detections_per_frame results_dir analysis_id d' =
      (inr (JList (map JDict detections_per_frame)), d') /\
    load_analysis_meta results_dir analysis_id d' = (inr (JDict meta), d') /\
    (forall k v, dict_get video_meta k = Some v -> dict_get meta k = Some v) /\
    (dict_get video_meta "type" = None -> dict_get meta "type" = Some (JStr "video")) /\
    (dict_get video_meta "output_video_file" = None ->
       dict_get meta "output_video_file" = Some (JStr (path_name output_video_path))) /\
    (dict_get video_meta "num_detections" = None ->
       dict_get meta "num_detections" = Some (JInt (Z.of_nat (length detections_flat)))).
Proof.
  intros Hcodec Hpaths Hnd Hwf Hpf.
  exact (save_analysis_bundle_video_spec d results_dir analysis_id input_path preview_path
           output_video_path detections_flat detections_per_frame model_name conf_threshold
           duration_ms video_meta Hcodec Hpaths Hnd Hwf Hpf).
Qed.

(** X16: saving a bundle writes the two files of that bundle and nothing
    else: every other file is as it was, in particular the bundles of other
    analyses, no directory is removed, the directory of the bundle exists
    and the clock is not touched. *)
Theorem bundle_writes_only_its_files (d d' : Disk) results_dir analysis_id input_path
    preview_path (detections : list Detection) model_name conf_threshold duration_ms :
  save_analysis_bundle results_dir analysis_id input_path preview_path detections
    model_name conf_threshold duration_ms d = (inr tt, d') ->
  (forall p,
     p <> joinpath (analysis_dir results_dir analysis_id) "detections.json" ->
     p <> joinpath (analysis_dir results_dir analysis_id) "meta.json" ->
     files d' !! p = files d !! p) /\
  dirs d ⊆ dirs d' /\
  analysis_dir results_dir analysis_id ∈ dirs d' /\
  clock d' = clock d.
Proof.
  intros [= <-]. simpl. split; [|split; [|split]].
  - intros p H1 H2. rewrite !lookup_insert_ne by (intros E; symmetry in E; contradiction).
    reflexivity.
  - apply elem_of_subseteq. intros p Hp. rewrite !elem_of_union. auto.
  - rewrite !elem_of_union, !elem_of_singleton. auto.
  - reflexivity.
Qed.

End StorageFacts.

Section PipelineBundle.
Context {FL : PyFloat} {Ext : Externals} {F : Files}.

Lemma pipeline_fields_are_asdict ip op conf fs mf w meta flat_detections per_frame w' :
  process_video ip op conf fs mf w = (Returned (meta, flat_detections, per_frame), w') ->
  map asdict flat_detections = concat (map detections per_frame) /\
  Forall (fun r => Forall (fun f => exists det : Detection, f = asdict det) (detections r))
    per_frame.
Proof.
  intros Hrun. pipeline_inv Hrun l w1 Hpost.
  destruct Hpost as (v & imgs & _ & _ & _ & _ & _ & _ & Hfl & _).
  split; [exact Hfl|].
  apply Forall_forall. intros r Hr. apply Forall_forall. intros f Hf.
  assert (Hin : f ∈ concat (map detections (per_frame (l_loop l)))).
  { apply list_elem_of_In, in_concat. exists (detections r).
    split; [apply in_map, list_elem_of_In, Hr|apply list_elem_of_In, Hf]. }
  rewrite <- Hfl in Hin. apply list_elem_of_fmap in Hin as (det & -> & _). eauto.
Qed.

Lemma wf_record_dict (r : FrameRecord) :
  Forall (fun f => exists det : Detection, f = asdict det) (detections r) ->
  wf_json (JDict (record_dict r)) = true.
Proof.
  intros Hr. simpl. rewrite !andb_true_r.
  apply forallb_forall. intros j Hj. apply in_map_iff in Hj as (f & <- & Hf).
  rewrite Forall_forall in Hr. destruct (Hr f) as [det ->]; [apply list_elem_of_In; exact Hf|].
  apply wf_json_of_fields.
Qed.

(** X17: the bundle that the upload handlers save for a video agrees with
    itself.  When [process_video] has returned and its three results are
    passed to [save_analysis_bundle_video] as the handlers do, with the meta
    dict under the key ["video"], then [detections.json] is the concatenation
    of the detection lists of [detections_per_frame.json], in frame order,
    ["num_detections"] of [meta.json] is their total, ["type"] is still
    ["video"], and ["video"] holds the meta dict of the pipeline. *)
Theorem pipeline_bundle_agrees ip op conf fs mf w meta flat_detections per_frame w'
    (d : Disk) results_dir analysis_id input_path preview_path output_video_path
    model_name duration_ms :
  process_video ip op conf fs mf w = (Returned (meta, flat_detections, per_frame), w') ->
  codec_ok ->
  bundle_paths_differ (analysis_dir results_dir analysis_id) ->
  exists d' saved,
    save_analysis_bundle_video results_dir analysis_id input_path preview_path
      output_video_path flat_detections (map record_dict per_frame) model_name conf
      duration_ms [("video", JDict (meta_dict meta))] d = (inr tt, d') /\
    load_analysis_detections_per_frame results_dir analysis_id d' =
      (inr (JList (map (fun r => JDict (record_dict r)) per_frame)), d') /\
    load_analysis_detections results_dir analysis_id d' =
      (inr (JList (concat (map (fun r => map json_of_fields (detections r)) per_frame))), d') /\
    load_analysis_meta results_dir analysis_id d' = (inr (JDict saved), d') /\
    dict_get saved "num_detections" =
      Some (JInt (Z.of_nat (length (concat (map detections per_frame))))) /\
    dict_get saved "type" = Some (JStr "video") /\
    dict_get saved "video" = Some (JDict (meta_dict meta)).
Proof.
  intros Hrun Hcodec Hpaths.
  destruct (pipeline_fields_are_asdict _ _ _ _ _ _ _ _ _ _ Hrun) as [Hfl Has].
  destruct (save_analysis_bundle_video_spec d results_dir analysis_id input_path preview_path
              output_video_path flat_detections (map record_dict per_frame) model_name conf
              duration_ms [("video", JDict (meta_dict meta))] Hcodec Hpaths)
    as (d' & saved & Hsave & Hdets & Hpf & Hmeta & Hwin & Htype & _ & Hnum).
  - apply (bool_decide_eq_true_1 _). reflexivity.
  - reflexivity.
  - simpl. apply forallb_forall. intros j Hj.
    apply in_map_iff in Hj as (rd & <- & Hrd). apply in_map_iff in Hrd as (r & <- & Hr).
    apply wf_record_dict. rewrite Forall_forall in Has. apply Has, list_elem_of_In, Hr.
  - exists d', saved. split; [exact Hsave|].
    split; [rewrite Hpf, map_map; reflexivity|].
    split.
    { rewrite Hdets, Hfl. do 3 f_equal. clear.
      induction per_frame as [|r rest IH]; simpl; [reflexivity|].
      rewrite map_app, IH. reflexivity. }
    split; [exact Hmeta|].
    split; [rewrite (Hnum eq_refl), <- Hfl, length_map; reflexivity|].
    split; [exact (Htype eq_refl)|]. apply Hwin. reflexivity.
Qed.

End PipelineBundle.
End StorageFacts.

(** ** The helpers and the read-only endpoints *)

Module ApiFacts.
Import Storage StorageFacts Api.
Section ApiFacts.
Context {FL : PyFloat} {F : Files} {C : Csv}.
Local Open Scope st_scope.




Lemma load_both_run results_dir analysis_id (d : Disk) meta dets :
  load_analysis_meta results_dir analysis_id d = (inr meta, d) ->
  load_analysis_detections results_dir analysis_id d = (inr dets, d) ->
  st_except
    (meta <- load_analysis_meta results_dir analysis_id ;;
     dets <- load_analysis_detections results_dir analysis_id ;;
     st_ret (meta, dets))
    is_FileNotFoundError
    (fun _ => st_raise (HTTPException 404 "Analysis not found")) d = (inr (meta, dets), d).
Proof.
  intros Hm Hd. unfold st_except, st_bind. rewrite Hm, Hd. reflexivity.
Qed.

(** The row that [export_csv] writes for a detection. *)
Lemma csv_rows_of_detections (dets : list Detection) :
  csv_detection_rows (map json_of_fields (map asdict dets)) =
    (map (fun det =>
            [ JInt (class_id det); JStr (class_name det); JFloat (confidence det);
              JFloat (x1 det); JFloat (y1 det); JFloat (x2 det); JFloat (y2 det) ]) dets,
     None).
Proof.
  induction dets as [|det dets IH]; [reflexivity|].
  cbn [map csv_detection_rows]. rewrite IH. reflexivity.
Qed.

(** X19: the CSV export of a saved image analysis lists what was saved.
    With an inverting codec and two different paths for the two files,
    [export_csv] after [save_analysis_bundle] returns a response whose
    content is the rows, in this order: the identifier, the model, the
    threshold and the duration as given to the save, an empty row, the
    column names, and one row per detection with its seven fields, in the
    order of the detections. *)
Theorem export_csv_lists_saved_detections (d : Disk) results_dir analysis_id input_path
    preview_path (detections : list Detection) model_name conf_threshold duration_ms :
  codec_ok ->
  joinpath (analysis_dir results_dir analysis_id) "detections.json" <>
    joinpath (analysis_dir results_dir analysis_id) "meta.json" ->
  exists d',
    save_analysis_bundle results_dir analysis_id input_path preview_path detections
      model_name conf_threshold duration_ms d = (inr tt, d') /\
    export_csv results_dir analysis_id d' =
      (inr (mkResponse
              (String.concat ""
                 (map csv_row
                    ([ [JStr "analysis_id"; JStr analysis_id];
                       [JStr "model"; JStr model_name];
                       [JStr "conf_threshold"; JFloat conf_threshold];
                       [JStr "duration_ms"; JInt duration_ms];
                       [];
                       map JStr ["class_id"; "class_name"; "confidence";
                                 "x1"; "y1"; "x2"; "y2"] ] ++
                     map (fun det =>
                            [ JInt (class_id det); JStr (class_name det);
                              JFloat (confidence det);
                              JFloat (x1 det); JFloat (y1 det);
                              JFloat (x2 det); JFloat (y2 det) ]) detections)))
              "text/csv; charset=utf-8"
              [("Content-Disposition",
                "attachment; filename=" +:+ analysis_id +:+ "_detections.csv")]),
       d').
Proof.
  intros Hcodec Hne.
  destruct (save_analysis_bundle_spec d results_dir analysis_id input_path preview_path
              detections model_name conf_threshold duration_ms Hcodec Hne)
    as (d' & meta & Hsave & Hdets & Hmeta & _).
  exists d'. split; [exact Hsave|].
  unfold export_csv.
  rewrite (st_bind_run _ _ _ _ _ (load_both_run _ _ _ _ _ Hmeta Hdets)).
  cbv [save_analysis_bundle st_bind mkdir time_time write_json write_text] in Hsave.
  injection Hsave as <-.
  unfold load_analysis_meta in Hmeta.
  assert (Em : meta =
    [ ("analysis_id", JStr analysis_id); ("type", JStr "image");
      ("input_file", JStr (path_name input_path));
      ("preview_file", JStr (path_name preview_path));
      ("model", JStr model_name); ("conf_threshold", JFloat conf_threshold);
      ("duration_ms", JInt duration_ms); ("created_at", JInt (f_int (clock d)));
      ("num_detections", JInt (Z.of_nat (length detections))) ]).
  { match type of Hmeta with load_json ?p ?d0 = _ =>
      assert (Hrun : load_json p d0 =
                (inr (JDict
                   [ ("analysis_id", JStr analysis_id); ("type", JStr "image");
                     ("input_file", JStr (path_name input_path));
                     ("preview_file", JStr (path_name preview_path));
                     ("model", JStr model_name); ("conf_threshold", JFloat conf_threshold);
                     ("duration_ms", JInt duration_ms); ("created_at", JInt (f_int (clock d)));
                     ("num_detections", JInt (Z.of_nat (length detections))) ]), d0))
    end.
    { apply load_json_run; [simpl; apply lookup_insert_eq|].
      apply Hcodec. apply wf_json_dict; [|repeat constructor].
      apply (bool_decide_eq_true_1 _). reflexivity. }
    rewrite Hrun in Hmeta. injection Hmeta as <-. reflexivity. }
  subst meta. cbn [py_get dict_get String.eqb Ascii.eqb Bool.eqb default st_lift st_bind py_iter].
  unfold st_bind, st_lift. simpl py_get. cbv beta iota.
  rewrite csv_rows_of_detections. reflexivity.
Qed.

Lemma st_bind_raise {S A B} (m : St S A) (k : A -> St S B) s e s' :
  m s = (inl e, s') -> st_bind m k s = (inl e, s').
Proof. intros H. unfold st_bind. rewrite H. reflexivity. Qed.

Lemma load_json_exists path (d d' : Disk) j :
  load_json path d = (inr j, d') -> is_Some (files d !! path).
Proof.
  unfold load_json, st_bind, read_text. destruct (files d !! path); [eauto|discriminate].
Qed.

Lemma load_json_decode_error path (d : Disk) t e :
  files d !! path = Some t -> json_loads t = inl e -> load_json path d = (inl (LibError e), d).
Proof. intros Hf He. unfold load_json, st_bind, read_text. rewrite Hf, He. reflexivity. Qed.

Lemma load_json_loaded path (d : Disk) t j :
  files d !! path = Some t -> json_loads t = inr j -> load_json path d = (inr j, d).
Proof. intros Hf He. unfold load_json, st_bind, read_text. rewrite Hf, He. reflexivity. Qed.

(** X20: the two endpoints that read an analysis answer 404 exactly for a
    missing file.  When [meta.json] is missing, or it can be read and
    [detections.json] is missing, [get_analysis_api] and [export_csv] raise
    [HTTPException(404)] and leave the disk as it is; a [meta.json] that
    [json.loads] rejects is not reported as missing: the exception of the
    codec reaches the caller. *)
Theorem missing_analysis_is_404 (d : Disk) results_dir analysis_id :
  let meta_path := joinpath (analysis_dir results_dir analysis_id) "meta.json" in
  let dets_path := joinpath (analysis_dir results_dir analysis_id) "detections.json" in
  (files d !! meta_path = None \/
   (exists t j, files d !! meta_path = Some t /\ json_loads t = inr j /\
      files d !! dets_path = None) ->
   get_analysis_api results_dir analysis_id d =
     (inl (HTTPException 404 "Analysis not found"), d) /\
   export_csv results_dir analysis_id d =
     (inl (HTTPException 404 "Analysis not found"), d)) /\
  (forall t e, files d !! meta_path = Some t -> json_loads t = inl e ->
     get_analysis_api results_dir analysis_id d = (inl (LibError e), d) /\
     export_csv results_dir analysis_id d = (inl (LibError e), d)).
Proof.
  cbv zeta. split.
  - intros Hmiss.
    assert (H : st_except
                  (meta <- load_analysis_meta results_dir analysis_id ;;
                   dets <- load_analysis_detections results_dir analysis_id ;;
                   st_ret (meta, dets))
                  is_FileNotFoundError
                  (fun _ => st_raise (HTTPException 404 "Analysis not found")) d =
                (inl (HTTPException 404 "Analysis not found"), d)).
    { unfold st_except, load_analysis_meta, load_analysis_detections.
      destruct Hmiss as [Hm|(t & j & Hm & Hj & Hd)].
      - rewrite (st_bind_raise _ _ _ _ _ (load_json_missing _ _ Hm)). reflexivity.
      - rewrite (st_bind_run _ _ _ _ _ (load_json_loaded _ _ _ _ Hm Hj)).
        rewrite (st_bind_raise _ _ _ _ _ (load_json_missing _ _ Hd)). reflexivity. }
    unfold get_analysis_api, export_csv.
    rewrite !(st_bind_raise _ _ _ _ _ H). split; reflexivity.
  - intros t e Hm He.
    assert (H : st_except
                  (meta <- load_analysis_meta results_dir analysis_id ;;
                   dets <- load_analysis_detections results_dir analysis_id ;;
                   st_ret (meta, dets))
                  is_FileNotFoundError
                  (fun _ => st_raise (HTTPException 404 "Analysis not found")) d =
                (inl (LibError e), d)).
    { unfold st_except, load_analysis_meta.
      rewrite (st_bind_raise _ _ _ _ _ (load_json_decode_error _ _ _ _ Hm He)). reflexivity. }
    unfold get_analysis_api, export_csv.
    rewrite !(st_bind_raise _ _ _ _ _ H). split; reflexivity.
Qed.

(** X21: an image analysis is never served as a video.  After
    [save_analysis_bundle], [get_output_video] for that analysis raises
    [HTTPException(400)], whatever files the directory holds. *)
Theorem image_analysis_has_no_video (d : Disk) results_dir analysis_id input_path
    preview_path (detections : list Detection) model_name conf_threshold duration_ms :
  codec_ok ->
  joinpath (analysis_dir results_dir analysis_id) "detections.json" <>
    joinpath (analysis_dir results_dir analysis_id) "meta.json" ->
  exists d',
    save_analysis_bundle results_dir analysis_id input_path preview_path detections
      model_name conf_threshold duration_ms d = (inr tt, d') /\
    get_output_video results_dir analysis_id d' =
      (inl (HTTPException 400 "This analysis is not a video analysis"), d').
Proof.
  intros Hcodec Hne.
  destruct (save_analysis_bundle_spec d results_dir analysis_id input_path preview_path
              detections model_name conf_threshold duration_ms Hcodec Hne)
    as (d' & meta & Hsave & _ & Hmeta & _ & _ & Htype & _).
  exists d'. split; [exact Hsave|].
  unfold get_output_video.
  pose proof (load_json_exists _ _ _ _ Hmeta) as Hex.
  unfold st_bind at 1, path_exists. rewrite bool_decide_eq_true_2 by exact Hex.
  cbn [negb]. rewrite (st_bind_run _ _ _ _ _ Hmeta).
  unfold st_bind, st_lift, py_get. rewrite Htype. reflexivity.
Qed.

(** X22: a saved video analysis is served from its own directory.  After
    [save_analysis_bundle_video] with a [video_meta] that has neither the key
    ["type"] nor ["output_video_file"], [get_output_video] answers with the
    file of the analysis directory that bears the name of the output path
    given to the save, as [video/mp4], and with 404 when there is no such
    file. *)
Theorem saved_video_is_served (d : Disk) results_dir analysis_id input_path preview_path
    output_video_path (detections_flat : list Detection) (detections_per_frame : list (dict Json))
    model_name conf_threshold duration_ms (video_meta : dict Json) :
  codec_ok ->
  bundle_paths_differ (analysis_dir results_dir analysis_id) ->
  NoDup (dict_keys video_meta) ->
  wf_json (JDict video_meta) = true ->
  wf_json (JList (map JDict detections_per_frame)) = true ->
  dict_get video_meta "type" = None ->
  dict_get video_meta "output_video_file" = None ->
  path_name output_video_path <> "" ->
  let vpath := joinpath (analysis_dir results_dir analysis_id) (path_name output_video_path) in
  exists d',
    save_analysis_bundle_video results_dir analysis_id input_path preview_path
      output_video_path detections_flat detections_per_frame model_name conf_threshold
      duration_ms video_meta d = (inr tt, d') /\
    get_output_video results_dir analysis_id d' =
      (if bool_decide (is_Some (files d' !! vpath))
       then inr (mkFileResponse vpath (Some "video/mp4"))
       else inl (HTTPException 404 "Output video not found"), d').
Proof.
  intros Hcodec Hpaths Hnd Hwf Hpf Ht Ho Hname vpath.
  destruct (save_analysis_bundle_video_spec d results_dir analysis_id input_path preview_path
              output_video_path detections_flat detections_per_frame model_name conf_threshold
              duration_ms video_meta Hcodec Hpaths Hnd Hwf Hpf)
    as (d' & meta & Hsave & _ & _ & Hmeta & _ & Htype & Hout & _).
  exists d'. split; [exact Hsave|].
  unfold get_output_video.
  pose proof (load_json_exists _ _ _ _ Hmeta) as Hex.
  unfold st_bind at 1, path_exists at 1. rewrite bool_decide_eq_true_2 by exact Hex.
  cbn [negb]. rewrite (st_bind_run _ _ _ _ _ Hmeta).
  unfold st_bind at 1, st_lift at 1, py_get at 1. rewrite (Htype Ht).
  cbn [default from_option id differs_from_str]. rewrite String.eqb_refl. cbn [negb].
  unfold st_bind at 1, st_lift at 1, py_get at 1. rewrite (Hout Ho).
  cbn [default from_option id py_truthy].
  destruct (String.eqb_spec (path_name output_video_path) "") as [E|_]; [contradiction|].
  cbn [negb]. unfold st_bind, path_exists. fold vpath.
  destruct (bool_decide (is_Some (files d' !! vpath))); reflexivity.
Qed.

End ApiFacts.

Section RowFacts.
Context {FL : PyFloat} {Ext : Externals}.
Import Crud.

(** X23: [bulk_create_detections] leaves what the session held in front and
    adds one row per detection, in order, each with the given analysis key;
    the corners that it stores are those of the rectangle that
    [draw_detections_bgr] draws for that detection, both being [int()] of the
    box, and the class is that of the colour of the rectangle. *)
Theorem rows_match_drawn_boxes (db : Session) analysis_pk (detections : list Detection) :
  let db' := bulk_create_detections db analysis_pk detections in
  take (length db) db' = db /\
  length db' = (length db + length detections)%nat /\
  forall (i : nat) det, detections !! i = Some det ->
    exists row,
      db' !! (length db + i)%nat = Some row /\
      analysis_fk row = analysis_pk /\
      row_class_name row = class_name det /\
      row_confidence row = confidence det /\
      head (box_calls det) =
        Some (Rectangle (row_x1 row, row_y1 row) (row_x2 row, row_y2 row)
                (_color_for_class (row_class_id row)) 2).
Proof.
  unfold bulk_create_detections, Session. cbv zeta. split; [|split].
  - rewrite take_app_length. reflexivity.
  - rewrite length_app, length_map. reflexivity.
  - intros i det Hi. eexists. split.
    + rewrite lookup_app_r by lia. replace (length db + i - length db)%nat with i by lia.
      rewrite list_lookup_fmap, Hi. reflexivity.
    + simpl. split; [reflexivity|]. split; [reflexivity|]. split; [reflexivity|].
      unfold box_calls. destruct (cv2_getTextSize _ _ _) as [[tw th] baseline]. reflexivity.
Qed.

End RowFacts.
End ApiFacts.

(** ** The report *)

Module ReportingFacts.
Import Storage StorageFacts Reporting.
Section ReportingFacts.
Context {FL : PyFloat} {F : Files} {R : Reportlab}.
Local Open Scope st_scope.

Lemma texts_app (a b : list (CanvasCall Img)) : texts (a ++ b) = texts a ++ texts b.
Proof. apply omap_app. Qed.

Lemma texts_extra_lines lines (cy : Cursor) :
  texts (draw_extra_lines lines cy).1 = texts cy.1 ++ lines.
Proof.
  unfold draw_extra_lines. revert cy.
  induction lines as [|line lines IH]; intros cy; simpl; [rewrite app_nil_r; reflexivity|].
  rewrite IH. simpl. rewrite texts_app, <- app_assoc. reflexivity.
Qed.

Lemma texts_class_lines h top (cy : Cursor) :
  texts (draw_class_lines h top cy).1 = texts cy.1 ++ map class_line top.
Proof.
  unfold draw_class_lines. revert cy.
  induction top as [|kv top IH]; intros cy; simpl; [rewrite app_nil_r; reflexivity|].
  rewrite IH. destruct (f_ltb _ _); simpl; rewrite !texts_app, <- ?app_assoc; simpl;
    rewrite ?app_nil_r; reflexivity.
Qed.

Lemma draw_summary_spec h n extra_lines top (cy : Cursor) :
  texts (draw_summary h n extra_lines top cy) =
    texts cy.1 ++ ["Podsumowanie"; "Liczba detekcji: " +:+ str_of_int n] ++
    take 6 (default [] extra_lines) ++ ["Wykryte klasy (Top)"] ++
    map class_line (take 20 top) /\
  last (draw_summary h n extra_lines top cy) = Some ShowPage.
Proof.
  unfold draw_summary. destruct cy as [c y].
  destruct extra_lines as [[|l0 ls]|]; cbn [default from_option id];
    try match goal with |- context [draw_extra_lines ?ls ?cy] =>
      let H := fresh "H" in
      pose proof (texts_extra_lines ls cy) as H;
      destruct (draw_extra_lines ls cy) as [c1 y1]; simpl in H
    end;
    match goal with |- context [draw_class_lines ?h ?t ?cy] =>
      let H := fresh "H" in
      pose proof (texts_class_lines h t cy) as H;
      destruct (draw_class_lines h t cy) as [c2 y2]; simpl in H
    end;
    (split; [|apply last_snoc]);
    repeat match goal with H : texts _ = _ |- _ => rewrite ?texts_app in H end;
    rewrite !texts_app;
    repeat match goal with H : texts _ = _ |- _ => rewrite H; clear H end;
    rewrite ?texts_app; simpl; rewrite <- ?app_assoc, ?app_nil_r; simpl; reflexivity.
Qed.

Lemma draw_header_spec h meta c :
  draw_header h meta = inr c -> exists md, meta = JDict md /\ texts c = header_texts md.
Proof.
  destruct meta as [| | | | | |md]; try discriminate.
  unfold draw_header. simpl. intros [= <-]. exists md. split; reflexivity.
Qed.

Lemma draw_preview_spec p (cy : Cursor) (d : Disk) :
  exists cy', draw_preview p cy d = (inr cy', d) /\ texts cy'.1 = texts cy.1.
Proof.
  unfold draw_preview. destruct p as [p|]; [|exists cy; split; reflexivity].
  unfold st_bind, path_exists, read_text.
  destruct (files d !! p) as [t|] eqn:Ef.
  - rewrite bool_decide_eq_true_2 by eauto. rewrite Ef.
    destruct (ImageReader t) as [e|img]; [exists cy; split; reflexivity|].
    destruct (drawImage_raises img); [exists cy; split; reflexivity|].
    eexists. split; [reflexivity|]. simpl. rewrite texts_app. simpl. apply app_nil_r.
  - rewrite bool_decide_eq_false_2 by (intros [? ?]; discriminate).
    exists cy. split; reflexivity.
Qed.

(** What [generate_pdf_report] has done when it returns, and when it
    raises. *)
Lemma generate_pdf_report_spec out_path meta detections preview_image_path extra_lines
    (d : Disk) :
  match generate_pdf_report out_path meta detections preview_image_path extra_lines d with
  | (inr _, d') =>
      exists md ds counts n c,
        meta = JDict md /\ py_iter detections = inr ds /\
        count_classes ds [] = inr counts /\ py_len detections = inr n /\
        files d' = <[out_path := pdf_of c]> (files d) /\
        dirs d' = {[parent out_path]} ∪ dirs d /\
        last c = Some ShowPage /\
        texts c =
          header_texts md ++ ["Podsumowanie"; "Liczba detekcji: " +:+ str_of_int n] ++
          take 6 (default [] extra_lines) ++ ["Wykryte klasy (Top)"] ++
          map class_line (take 20 (sorted_by top_key counts))
  | (inl e, d') => files d' = files d
  end.
Proof.
  unfold generate_pdf_report. destruct import_reportlab; [reflexivity|].
  unfold st_bind at 1. simpl. destruct A4 as [w h].
  unfold st_bind at 1, st_lift at 1.
  destruct (draw_header h meta) as [e|c0] eqn:Eh; [reflexivity|].
  destruct (draw_header_spec _ _ _ Eh) as (md & -> & Ht0).
  unfold st_bind at 1.
  match goal with |- context [draw_preview ?p ?cy ?d0] =>
    destruct (draw_preview_spec p cy d0) as (cy1 & -> & Ht1)
  end.
  unfold st_bind at 1, st_lift at 1.
  destruct (py_iter detections) as [e|ds] eqn:Ei; [reflexivity|].
  unfold st_bind at 1, st_lift at 1.
  destruct (count_classes ds []) as [e|counts] eqn:Ec; [reflexivity|].
  unfold st_bind at 1, st_lift at 1.
  destruct (py_len detections) as [e|n] eqn:En; [reflexivity|].
  destruct (draw_summary_spec h n extra_lines (sorted_by top_key counts) cy1) as [Ht2 Hlast].
  simpl. eexists md, ds, counts, n, _.
  do 4 (split; [first [reflexivity|assumption]|]).
  split; [reflexivity|]. split; [reflexivity|]. split; [exact Hlast|].
  rewrite Ht2, Ht1. simpl. rewrite Ht0. rewrite <- ?app_assoc. reflexivity.
Qed.

(** X24: the texts of a report.  When [generate_pdf_report] returns, the
    meta value was a dict, the file at [out_path] is the document of a canvas
    whose last call is [showPage], and the strings drawn on it are, in this
    order: the title and the three header lines of the meta dict, with the
    defaults of the code for missing keys; ["Podsumowanie"]; the number of
    detections given; at most the first six extra lines; the heading of the
    classes; and one line for each of at most twenty classes, those that
    [sorted] puts first under the key (-count, name). *)
Theorem report_texts out_path meta detections preview_image_path extra_lines (d d' : Disk) :
  generate_pdf_report out_path meta detections preview_image_path extra_lines d = (inr tt, d') ->
  exists md ds counts n c,
    meta = JDict md /\ py_iter detections = inr ds /\
    count_classes ds [] = inr counts /\ py_len detections = inr n /\
    files d' = <[out_path := pdf_of c]> (files d) /\
    dirs d' = {[parent out_path]} ∪ dirs d /\
    last c = Some ShowPage /\
    texts c =
      header_texts md ++ ["Podsumowanie"; "Liczba detekcji: " +:+ str_of_int n] ++
      take 6 (default [] extra_lines) ++ ["Wykryte klasy (Top)"] ++
      map class_line (take 20 (sorted_by top_key counts)).
Proof.
  intros Hrun.
  pose proof (generate_pdf_report_spec out_path meta detections preview_image_path extra_lines d)
    as H.
  rewrite Hrun in H. exact H.
Qed.

(** X25: a report that fails leaves no file.  When [generate_pdf_report]
    raises, by a failing import, a meta value that is no dict, detections
    that cannot be iterated or an element without [get], no file has been
    written or changed: nothing is written before [save]. *)
Theorem failed_report_writes_nothing out_path meta detections preview_image_path extra_lines
    (d d' : Disk) e :
  generate_pdf_report out_path meta detections preview_image_path extra_lines d = (inl e, d') ->
  files d' = files d.
Proof.
  intros Hrun.
  pose proof (generate_pdf_report_spec out_path meta detections preview_image_path extra_lines d)
    as H.
  rewrite Hrun in H. exact H.
Qed.

End ReportingFacts.

Section ReportAndLegend.
Context {FL : PyFloat} {Ext : Externals} {F : Files} {R : Reportlab}.

Lemma insert_by_map {A B} (f : A -> B) (key1 : A -> Z * string) (key2 : B -> Z * string)
    (x : A) (l : list A) :
  key1 x = key2 (f x) -> Forall (fun y => key1 y = key2 (f y)) l ->
  map f (insert_by key1 x l) = insert_by key2 (f x) (map f l).
Proof.
  intros Hx Hl. induction Hl as [|y l Hy Hl IH]; simpl; [reflexivity|].
  rewrite Hx, Hy. destruct (key_ltb (key2 (f y)) (key2 (f x))); simpl; [|reflexivity].
  rewrite IH. reflexivity.
Qed.

Lemma sorted_by_map {A B} (f : A -> B) (key1 : A -> Z * string) (key2 : B -> Z * string)
    (l : list A) :
  Forall (fun y => key1 y = key2 (f y)) l ->
  map f (sorted_by key1 l) = sorted_by key2 (map f l).
Proof.
  intros Hl. induction Hl as [|x l Hx Hl IH]; simpl; [reflexivity|].
  rewrite <- IH. apply insert_by_map; [exact Hx|].
  apply Forall_forall. intros y Hy. rewrite Forall_forall in Hl. apply Hl.
  rewrite (sorted_by_perm key1 l). exact Hy.
Qed.

Lemma dict_get_of_item {V} (d : dict V) k v :
  NoDup (dict_keys d) -> (k, v) ∈ d -> dict_get d k = Some v.
Proof.
  unfold dict_keys. induction d as [|[k0 v0] d IH]; simpl; intros Hnd Hin; [inversion Hin|].
  apply NoDup_cons in Hnd as [Hk0 Hnd]. apply elem_of_cons in Hin as [[= -> ->]|Hin].
  - rewrite String.eqb_refl. reflexivity.
  - destruct (String.eqb_spec k0 k) as [->|_]; [|auto].
    exfalso. apply Hk0. apply list_elem_of_fmap. exists (k, v). auto.
Qed.

Lemma count_classes_of_detections (dets : list Detection) (counts : dict Z) :
  Forall (fun det => class_name det <> "") dets ->
  count_classes (map json_of_fields (map asdict dets)) counts =
    inr (fold_left counts_step dets counts).
Proof.
  intros Hne. revert counts. induction Hne as [|det dets Hdet Hne IH]; intros counts;
    [reflexivity|].
  cbn [map count_classes]. change (py_get (json_of_fields (asdict det)) "class_name" (JStr ""))
    with (@inr PyExn Json (JStr (class_name det))).
  cbn [py_str]. destruct (String.eqb_spec (class_name det) "") as [E|_]; [contradiction|].
  cbn [negb fold_left]. apply IH.
Qed.

(** X26: the report and the preview image rank the classes alike.  For
    detections that all have a class name, saved as dicts, the report prints
    the number of detections and then the classes in the order of the legend
    of [draw_detections_bgr], each with the number of its detections: the
    twelve entries of the legend are the first twelve lines, and up to eight
    more classes follow. *)
Theorem report_ranks_like_legend out_path meta (dets : list Detection) preview_image_path
    extra_lines (d d' : Disk) :
  Forall (fun det => class_name det <> "") dets ->
  generate_pdf_report out_path meta (JList (map json_of_fields (map asdict dets)))
    preview_image_path extra_lines d = (inr tt, d') ->
  let counts := fold_left counts_step dets [] in
  let names := sorted_by (legend_key counts) (dict_keys counts) in
  exists c before,
    files d' !! out_path = Some (pdf_of c) /\
    texts c =
      before ++ ["Liczba detekcji: " +:+ str_of_int (Z.of_nat (length dets))] ++
      take 6 (default [] extra_lines) ++ ["Wykryte klasy (Top)"] ++
      map (fun name => "• " +:+ name +:+ ": " +:+ str_of_int (class_count dets name))
        (take 20 names).
Proof.
  intros Hne Hrun counts names.
  pose proof (generate_pdf_report_spec out_path meta (JList (map json_of_fields (map asdict dets)))
                preview_image_path extra_lines d) as H.
  rewrite Hrun in H.
  destruct H as (md & ds & counts' & n & c & _ & Hds & Hc & Hn & Hf & _ & _ & Ht).
  simpl in Hds, Hn. injection Hds as <-. injection Hn as <-.
  rewrite (count_classes_of_detections dets [] Hne) in Hc. injection Hc as <-. fold counts in Ht.
  exists c, (header_texts md ++ ["Podsumowanie"]).
  split; [rewrite Hf; apply lookup_insert_eq|].
  assert (Hnd : NoDup (dict_keys counts)) by (apply counts_after_NoDup; constructor).
  assert (Hitems : Forall (fun kv : string * Z =>
                             top_key kv = legend_key counts kv.1 /\
                             kv.2 = class_count dets kv.1) counts).
  { apply Forall_forall. intros [k v] Hin.
    pose proof (dict_get_of_item counts k v Hnd Hin) as Hg.
    pose proof (counts_after_get dets [] k) as Hcnt. fold counts in Hcnt.
    rewrite Hg in Hcnt. simpl in Hcnt.
    unfold top_key, legend_key. simpl. rewrite Hg. simpl. split; [reflexivity|lia]. }
  assert (Hlines : map class_line (take 20 (sorted_by top_key counts)) =
                   map (fun name => "• " +:+ name +:+ ": " +:+ str_of_int (class_count dets name))
                     (take 20 names)).
  { unfold names, dict_keys.
    rewrite <- (sorted_by_map fst top_key (legend_key counts) counts)
      by (eapply Forall_impl; [exact Hitems|]; intros kv [E _]; exact E).
    rewrite firstn_map, map_map. apply map_ext_in. intros [k v] Hin.
    apply list_elem_of_In, elem_of_take in Hin as (i & Hin & _).
    apply list_elem_of_lookup_2 in Hin.
    rewrite <- (sorted_by_perm top_key counts) in Hin.
    rewrite Forall_forall in Hitems. destruct (Hitems (k, v) Hin) as [_ E]. simpl in E.
    unfold class_line. simpl. rewrite E. reflexivity. }
  rewrite Ht, Hlines, !length_map, <- !app_assoc. reflexivity.
Qed.

End ReportAndLegend.
End ReportingFacts.

(** * The statements at concrete inputs *)

Module DemoRuns.
Import Demo.

Lemma returned_inv {A} (x : Outcome A * World) :
  has_returned x = true -> exists a, x = (Returned a, x.2).
Proof.
  unfold has_returned.
  destruct x as [[a|e|] w]; simpl; intros H; try discriminate. exists a. reflexivity.
Defined.

Lemma annotate_empty_is_copy_witness :
  exists out w',
    draw_detections_bgr 0%nat [] demo_heap = (Returned out, w') /\
    w_heap w' !! out = Some demo_image /\
    w_calls w' = w_calls demo_heap.
Proof. apply (annotate_empty_is_copy demo_heap 0%nat demo_image). reflexivity. Defined.

Lemma annotate_keeps_input_witness :
  exists out w',
    draw_detections_bgr 0%nat demo_dets demo_heap = (Returned out, w') /\
    w_heap demo_heap !! out = None /\
    out <> 0%nat /\
    is_Some (w_heap w' !! out) /\
    w_heap w' !! 0%nat = Some demo_image /\
    (forall a x, w_heap demo_heap !! a = Some x -> w_heap w' !! a = Some x) /\
    w_fs w' = w_fs demo_heap /\ w_dirs w' = w_dirs demo_heap /\
    w_cap w' = w_cap demo_heap /\ w_writer w' = w_writer demo_heap /\
    w_model w' = w_model demo_heap.
Proof. apply (annotate_keeps_input demo_heap 0%nat demo_image demo_dets). reflexivity. Defined.

Lemma legend_lists_top_classes_witness :
  exists out w' (entries : list (string * Color * Z)) overlay x1 x2 y2,
    let names := map (fun e => e.1.1) entries in
    draw_detections_bgr 0%nat demo_dets demo_heap = (Returned out, w') /\
    (length entries <= 12)%nat /\
    NoDup names /\
    (forall n, n ∈ names -> n ∈ map class_name demo_dets) /\
    Forall (fun e => class_color demo_dets e.1.1 = Some e.1.2 /\
                     e.2 = class_count demo_dets e.1.1) entries /\
    (forall i j a b, names !! i = Some a -> names !! j = Some b -> (i < j)%nat ->
       ranks_before demo_dets a b) /\
    (forall c, c ∈ map class_name demo_dets -> c ∉ names -> length entries = 12%nat) /\
    (forall a c, a ∈ names -> c ∈ map class_name demo_dets -> c ∉ names ->
       ranks_before demo_dets a c) /\
    overlay <> out /\
    w_calls w' = w_calls demo_heap ++
      map (pair out) (concat (map box_calls demo_dets)) ++
      [ (overlay, Rectangle (x1, 10) (x2, y2) (255, 255, 255) (-1));
        (out, Rectangle (x1, 10) (x2, y2) (203, 213, 225) 1) ] ++
      map (pair out) (concat (imap (fun i e =>
        legend_entry_calls x1 i e.1.2 e.1.1 e.2) entries)).
Proof.
  apply (legend_lists_top_classes demo_heap 0%nat demo_image demo_dets);
    [discriminate|reflexivity].
Defined.

Lemma result_lists_agree_witness :
  exists meta flat_detections per_frame w',
    process_video (FL := demo_float) "in.mp4" "out.mp4" 0.25%Q 3 0 demo_input =
      (Returned (meta, flat_detections, per_frame), w') /\
    sampled_frames meta = Z.of_nat (length per_frame) /\
    map asdict flat_detections = concat (map detections per_frame) /\
    exists groups : list (list Detection),
      flat_detections = concat groups /\
      map detections per_frame = map (map asdict) groups.
Proof.
  destruct (returned_inv
              (process_video (FL := demo_float) "in.mp4" "out.mp4" 0.25%Q 3 0 demo_input))
    as [[[meta fl] pf] H]; [vm_compute; reflexivity|].
  eexists meta, fl, pf, _. split; [exact H|].
  exact (result_lists_agree _ _ _ _ _ _ _ _ _ _ H).
Defined.

Lemma max_frames_cuts_off_witness :
  exists meta flat_detections per_frame w',
    0 < 12 /\
    process_video (FL := demo_float) "in.mp4" "out.mp4" 0.25%Q 5 12 demo_input =
      (Returned (meta, flat_detections, per_frame), w') /\
    frames_read meta <= 12 /\
    exists v c wr,
      w_fs demo_input !! "in.mp4" ≫= cv2_demux = Some v /\
      w_cap w' = Some c /\ w_writer w' = Some wr /\
      Z.of_nat (length (wr_frames wr)) = frames_read meta /\
      (12 <= Z.of_nat (good_prefix (loop_stream v)) ->
         frames_read meta = 12 /\ cap_pending c = drop (Z.to_nat 12) (loop_stream v)) /\
      (5 = 5 -> 12 = 12 -> 12 <= Z.of_nat (good_prefix (loop_stream v)) ->
         frames_read meta = 12 /\ map frame_index per_frame = [0; 5; 10]).
Proof.
  destruct (returned_inv
              (process_video (FL := demo_float) "in.mp4" "out.mp4" 0.25%Q 5 12 demo_input))
    as [[[meta fl] pf] H]; [vm_compute; reflexivity|].
  eexists meta, fl, pf, _. split; [lia|]. split; [exact H|].
  assert (Hpos : 0 < 12) by lia.
  exact (max_frames_cuts_off _ _ _ _ _ _ _ _ _ _ Hpos H).
Defined.

Lemma sampled_indices_on_stride_witness :
  exists meta flat_detections per_frame w',
    process_video (FL := demo_float) "in.mp4" "out.mp4" 0.25%Q 3 0 demo_input =
      (Returned (meta, flat_detections, per_frame), w') /\
    1 <= frame_step meta /\
    Forall (fun r => frame_index r mod frame_step meta = 0) per_frame /\
    StronglySorted Z.lt (map frame_index per_frame).
Proof.
  destruct (returned_inv
              (process_video (FL := demo_float) "in.mp4" "out.mp4" 0.25%Q 3 0 demo_input))
    as [[[meta fl] pf] H]; [vm_compute; reflexivity|].
  eexists meta, fl, pf, _. split; [exact H|].
  exact (sampled_indices_on_stride _ _ _ _ _ _ _ _ _ _ H).
Defined.

Lemma frame_step_clamped_witness :
  -3 <= 0 /\
  process_video (FL := demo_float) "in.mp4" "out.mp4" 0.25%Q (-3) 0 demo_input =
    process_video "in.mp4" "out.mp4" 0.25%Q 1 0 demo_input /\
  exists meta flat_detections per_frame w',
    process_video (FL := demo_float) "in.mp4" "out.mp4" 0.25%Q (-3) 0 demo_input =
      (Returned (meta, flat_detections, per_frame), w') /\
    frame_step meta = Z.max 1 (-3) /\
    1 <= frame_step meta /\
    forall i, i ∈ map frame_index per_frame <->
              0 <= i < frames_read meta /\ i mod Z.max 1 (-3) = 0.
Proof.
  destruct (frame_step_clamped (FL := demo_float) "in.mp4" "out.mp4" 0.25%Q (-3) 0 demo_input)
    as [Hsame Hret].
  split; [lia|]. split; [apply Hsame; lia|].
  destruct (returned_inv
              (process_video (FL := demo_float) "in.mp4" "out.mp4" 0.25%Q (-3) 0 demo_input))
    as [[[meta fl] pf] H]; [vm_compute; reflexivity|].
  eexists meta, fl, pf, _. split; [exact H|]. exact (Hret _ _ _ _ H).
Defined.

Lemma sampled_count_is_ceiling_witness :
  exists meta flat_detections per_frame w',
    process_video (FL := demo_float) "in.mp4" "out.mp4" 0.25%Q 3 0 demo_input =
      (Returned (meta, flat_detections, per_frame), w') /\
    frame_step meta = Z.max 1 3 /\
    0 <= frames_read meta /\
    sampled_frames meta = (frames_read meta + frame_step meta - 1) / frame_step meta /\
    (frames_read meta = 0 -> sampled_frames meta = 0) /\
    (1 <= frames_read meta ->
       sampled_frames meta = (frames_read meta - 1) / frame_step meta + 1 /\
       head (map frame_index per_frame) = Some 0).
Proof.
  destruct (returned_inv
              (process_video (FL := demo_float) "in.mp4" "out.mp4" 0.25%Q 3 0 demo_input))
    as [[[meta fl] pf] H]; [vm_compute; reflexivity|].
  eexists meta, fl, pf, _. split; [exact H|].
  exact (sampled_count_is_ceiling _ _ _ _ _ _ _ _ _ _ H).
Defined.

Example sorted_by_count_then_name :
  sorted_by (legend_key [("dog", 2); ("cat", 2); ("bird", 5); ("ant", 1)])
    ["dog"; "cat"; "bird"; "ant"] = ["bird"; "cat"; "dog"; "ant"].
Proof. reflexivity. Qed.

Example demo_dicts :
  fold_left counts_step demo_dets [] = [("car", 1); ("person", 2)].
Proof. reflexivity. Qed.

Example demo_legend_texts :
  omap (fun c => match c.2 with PutText t _ 0.55%Q _ _ => Some t | _ => None end)
    (w_calls (draw_detections_bgr 0%nat demo_dets demo_heap).2) =
  ["person: 2"; "car: 1"].
Proof. vm_compute. reflexivity. Qed.

Example demo_files_after_run :
  w_fs (process_video "in.mp4" "out.mp4" 0.25%Q 5 12 demo_input).2 !! "out.mp4" =
  Some [4; 2; 17; 11; 12; 13; 14; 22; 16; 17; 18; 19; 27; 21].
Proof. vm_compute. reflexivity. Qed.

(** C2, evaluated: a clip of fourteen frames, no file at the final path
    before the invocation, and a transcoder that creates its output file and
    exits with status 1 before it has written to it.  The pipeline returns;
    the fallback finds a file at the final path and skips the rename, and
    the clean-up removes the intermediate file.  The final path holds the
    empty file of the failed transcoder, and the video that the writer had
    produced is on disk no more. *)
Lemma failed_transcode_leaves_empty_output :
  let streamed :=
    stream_frames (Ext := demo_ext_failing) "in.mp4" "out.mp4" 0.25%Q 3 0 demo_input_failing in
  let run :=
    process_video (Ext := demo_ext_failing) "in.mp4" "out.mp4" 0.25%Q 3 0 demo_input_failing in
  w_fs demo_input_failing !! "out.mp4" = None /\
  w_fs streamed.2 !! "out.mp4.raw.mp4" =
    Some [4; 2; 17; 11; 12; 20; 14; 15; 23; 17; 18; 26; 20; 21; 29; 23] /\
  (ffmpeg_attempt (Ext := demo_ext_failing) "out.mp4.raw.mp4" "out.mp4" (w_fs streamed.2)).1 =
    false /\
  has_returned run = true /\
  w_fs run.2 = {[ "in.mp4" := demo_clip; "out.mp4" := [] ]} /\
  ~ (exists c, w_fs run.2 !! "out.mp4" = Some c /\ c <> []).
Proof.
  cbv zeta. split; [reflexivity|]. split; [vm_compute; reflexivity|].
  split; [vm_compute; reflexivity|]. split; [vm_compute; reflexivity|].
  assert (H : w_fs (process_video (Ext := demo_ext_failing) "in.mp4" "out.mp4" 0.25%Q 3 0
                      demo_input_failing).2 = {[ "in.mp4" := demo_clip; "out.mp4" := [] ]})
    by (vm_compute; reflexivity).
  split; [exact H|]. intros (c & Hc & Hne). rewrite H in Hc.
  vm_compute in Hc. congruence.
Qed.

(** C6, evaluated: when the container gives no frame size and the probing
    read fails, and when the writer cannot be opened, [process_video] raises
    and the capture that it opened is still open. *)
Lemma capture_left_open_on_fatal_error :
  let probe := process_video (FL := demo_float) "in.mp4" "out.mp4" 0.25%Q 5 0 demo_broken in
  let sink := process_video (FL := demo_float) "in.mp4" "out.mp4" 0.25%Q 5 0 demo_narrow in
  (probe.1 = Raised (ValueError "Failed to read frames from video: in.mp4") /\
   cap_opened <$> w_cap probe.2 = Some true) /\
  (sink.1 = Raised (ValueError "Failed to open video writer: out.mp4") /\
   cap_opened <$> w_cap sink.2 = Some true /\
   wr_opened <$> w_writer sink.2 = Some false).
Proof. vm_compute. repeat split; reflexivity. Qed.

End DemoRuns.


(** * More statements at concrete inputs *)

Module RunFacts.
Import Demo MoreDemo.

Lemma run_returned {E : Externals} {A} (x : Outcome A * World) :
  has_returned x = true -> exists a, x = (Returned a, x.2).
Proof.
  unfold has_returned.
  destruct x as [[a|e|] w]; simpl; intros H; try discriminate. exists a. reflexivity.
Defined.

Lemma run_raised {E : Externals} {A} (x : Outcome A * World) :
  has_raised x = true -> exists e, x = (Raised e, x.2).
Proof.
  unfold has_raised.
  destruct x as [[a|e|] w]; simpl; intros H; try discriminate. exists e. reflexivity.
Defined.

Lemma pair_true {A} (x : bool * A) : x.1 = true -> x = (true, x.2).
Proof. destruct x as [b a]. simpl. intros ->. reflexivity. Defined.

Lemma inr_inv {E A S} (x : (E + A) * S) : is_inr x = true -> exists a, x = (inr a, x.2).
Proof. destruct x as [[e|a] s]; simpl; intros H; [discriminate|]. exists a. reflexivity. Defined.

Lemma inl_inv {E A S} (x : (E + A) * S) : is_inl x = true -> exists e, x = (inl e, x.2).
Proof. destruct x as [[e|a] s]; simpl; intros H; [|discriminate]. exists e. reflexivity. Defined.

End RunFacts.


(** ** [detector/video.py] *)

Module VideoRuns.
Import Demo MoreDemo RunFacts.

Lemma process_video_raises_witness :
  exists e w',
    process_video (FL := demo_float) "in.mp4" "out.mp4" 0.25%Q 5 0 demo_broken = (Raised e, w') /\
    stream_raise "in.mp4" "out.mp4" 0.25%Q demo_broken e w'.
Proof.
  destruct (run_raised
              (process_video (FL := demo_float) "in.mp4" "out.mp4" 0.25%Q 5 0 demo_broken))
    as [e H]; [vm_compute; reflexivity|].
  eexists e, _. split; [exact H|].
  exact (process_video_raises _ _ _ _ _ _ _ _ H).
Defined.

Lemma timestamps_follow_fps_witness :
  exists meta flat_detections per_frame w',
    f_truthy (f_lit 25.0) = true /\
    process_video (FL := demo_float) "in.mp4" "out.mp4" 0.25%Q 3 0 demo_input =
      (Returned (meta, flat_detections, per_frame), w') /\
    f_truthy (fps meta) = true /\
    Forall (fun rec => timestamp_s rec = f_div (f_of_int (frame_index rec)) (fps meta)) per_frame.
Proof.
  destruct (run_returned
              (process_video (FL := demo_float) "in.mp4" "out.mp4" 0.25%Q 3 0 demo_input))
    as [[[meta fl] pf] H]; [vm_compute; reflexivity|].
  assert (H25 : @f_truthy demo_float (f_lit 25.0) = true) by reflexivity.
  eexists meta, fl, pf, _. split; [exact H25|]. split; [exact H|].
  exact (timestamps_follow_fps _ _ _ _ _ _ _ _ _ _ H25 H).
Defined.

Lemma meta_describes_source_witness :
  exists meta flat_detections per_frame w',
    process_video (FL := demo_float) "in.mp4" "out.mp4" 0.25%Q 3 0 demo_input =
      (Returned (meta, flat_detections, per_frame), w') /\
    exists v,
      w_fs demo_input !! "in.mp4" ≫= cv2_demux = Some v /\
      fps meta = (if f_truthy (v_fps v) then v_fps v else f_lit 25.0) /\
      total_frames meta = (if f_truthy (v_frame_count v) then f_int (v_frame_count v) else 0) /\
      (needs_probe v = false ->
         width meta = f_int (v_width v) /\ height meta = f_int (v_height v) /\
         0 < width meta /\ 0 < height meta) /\
      (needs_probe v = true ->
         exists img rest, v_reads v = (true, Some img) :: rest /\
           width meta = im_cols img /\ height meta = im_rows img).
Proof.
  destruct (run_returned
              (process_video (FL := demo_float) "in.mp4" "out.mp4" 0.25%Q 3 0 demo_input))
    as [[[meta fl] pf] H]; [vm_compute; reflexivity|].
  eexists meta, fl, pf, _. split; [exact H|].
  exact (meta_describes_source _ _ _ _ _ _ _ _ _ _ H).
Defined.

Lemma unsampled_frames_pass_through_witness :
  exists meta flat_detections per_frame w',
    process_video (FL := demo_float) "in.mp4" "out.mp4" 0.25%Q 3 0 demo_input =
      (Returned (meta, flat_detections, per_frame), w') /\
    exists v imgs,
      w_fs demo_input !! "in.mp4" ≫= cv2_demux = Some v /\
      w_writer w' =
        Some (mkWriter (with_suffix "out.mp4" ".raw.mp4") "mp4v" (fps meta)
                (width meta, height meta) imgs false) /\
      Z.of_nat (length imgs) = frames_read meta /\
      forall i : nat, (i < length imgs)%nat ->
        exists decoded,
          loop_stream v !! i = Some (true, Some decoded) /\
          (Z.of_nat i mod frame_step meta <> 0 \/
           (exists rec, rec ∈ per_frame /\ frame_index rec = Z.of_nat i /\ detections rec = []) ->
           imgs !! i = Some decoded).
Proof.
  destruct (run_returned
              (process_video (FL := demo_float) "in.mp4" "out.mp4" 0.25%Q 3 0 demo_input))
    as [[[meta fl] pf] H]; [vm_compute; reflexivity|].
  eexists meta, fl, pf, _. split; [exact H|].
  exact (unsampled_frames_pass_through _ _ _ _ _ _ _ _ _ _ H).
Defined.

Lemma zero_max_frames_reads_all_witness :
  exists meta flat_detections per_frame w',
    process_video (FL := demo_float) "in.mp4" "out.mp4" 0.25%Q 3 0 demo_input =
      (Returned (meta, flat_detections, per_frame), w') /\
    exists v,
      w_fs demo_input !! "in.mp4" ≫= cv2_demux = Some v /\
      frames_read meta = Z.of_nat (good_prefix (loop_stream v)) /\
      (needs_probe v = false \/ v_seekable v = true ->
         frames_read meta = Z.of_nat (good_prefix (v_reads v))) /\
      (needs_probe v = true -> v_seekable v = false ->
         frames_read meta = Z.of_nat (good_prefix (v_reads v)) - 1).
Proof.
  destruct (run_returned
              (process_video (FL := demo_float) "in.mp4" "out.mp4" 0.25%Q 3 0 demo_input))
    as [[[meta fl] pf] H]; [vm_compute; reflexivity|].
  eexists meta, fl, pf, _. split; [exact H|].
  exact (zero_max_frames_reads_all _ _ _ _ _ _ _ _ _ H).
Defined.

Lemma negative_max_frames_reads_one_witness :
  exists meta flat_detections per_frame w',
    -1 < 0 /\
    process_video (FL := demo_float) "in.mp4" "out.mp4" 0.25%Q 3 (-1) demo_input =
      (Returned (meta, flat_detections, per_frame), w') /\
    exists v,
      w_fs demo_input !! "in.mp4" ≫= cv2_demux = Some v /\
      frames_read meta = Z.min 1 (Z.of_nat (good_prefix (loop_stream v))) /\
      map frame_index per_frame = (if decide (frames_read meta = 0) then [] else [0]).
Proof.
  destruct (run_returned
              (process_video (FL := demo_float) "in.mp4" "out.mp4" 0.25%Q 3 (-1) demo_input))
    as [[[meta fl] pf] H]; [vm_compute; reflexivity|].
  assert (Hneg : -1 < 0) by lia.
  eexists meta, fl, pf, _. split; [exact Hneg|]. split; [exact H|].
  exact (negative_max_frames_reads_one _ _ _ _ _ _ _ _ _ _ Hneg H).
Defined.

Lemma intermediate_file_removed_witness :
  exists r w',
    with_suffix "out.mp4" ".raw.mp4" <> "out.mp4" /\
    os_allows (OsStat (with_suffix "out.mp4" ".raw.mp4")) /\
    os_allows (OsUnlink (with_suffix "out.mp4" ".raw.mp4")) /\
    process_video (FL := demo_float) "in.mp4" "out.mp4" 0.25%Q 3 0 demo_input = (Returned r, w') /\
    w_fs w' !! with_suffix "out.mp4" ".raw.mp4" = None /\
    path_parent "out.mp4" ∈ w_dirs w'.
Proof.
  destruct (run_returned
              (process_video (FL := demo_float) "in.mp4" "out.mp4" 0.25%Q 3 0 demo_input))
    as [r H]; [vm_compute; reflexivity|].
  assert (Hne : with_suffix "out.mp4" ".raw.mp4" <> "out.mp4") by discriminate.
  assert (Hstat : os_allows (OsStat (with_suffix "out.mp4" ".raw.mp4")))
    by (intros files dirs; reflexivity).
  assert (Hunlink : os_allows (OsUnlink (with_suffix "out.mp4" ".raw.mp4")))
    by (intros files dirs; reflexivity).
  eexists r, _. split; [exact Hne|]. split; [exact Hstat|]. split; [exact Hunlink|].
  split; [exact H|].
  exact (intermediate_file_removed _ _ _ _ _ _ _ _ Hne Hstat Hunlink H).
Defined.

Lemma transcode_success_keeps_output_witness :
  exists l w1 files w',
    stream_frames (FL := demo_float) (Ext := demo_ext_ok) "in.mp4" "out.mp4" 0.25%Q 3 0
      demo_input_ok = (Returned l, w1) /\
    ffmpeg_attempt (Ext := demo_ext_ok) (with_suffix "out.mp4" ".raw.mp4") "out.mp4" (w_fs w1) =
      (true, files) /\
    process_video (Ext := demo_ext_ok) "in.mp4" "out.mp4" 0.25%Q 3 0 demo_input_ok =
      (Returned (pipeline_result l), w') /\
    (forall p, p <> with_suffix "out.mp4" ".raw.mp4" -> w_fs w' !! p = files !! p) /\
    (with_suffix "out.mp4" ".raw.mp4" <> "out.mp4" -> w_fs w' !! "out.mp4" = files !! "out.mp4") /\
    (with_suffix "out.mp4" ".raw.mp4" <> "out.mp4" ->
     os_refuses files (w_dirs w1) (OsStat (with_suffix "out.mp4" ".raw.mp4")) = None ->
     os_refuses files (w_dirs w1) (OsUnlink (with_suffix "out.mp4" ".raw.mp4")) = None ->
     w_fs w' !! with_suffix "out.mp4" ".raw.mp4" = None) /\
    (is_Some (os_refuses files (w_dirs w1) (OsStat (with_suffix "out.mp4" ".raw.mp4"))) \/
     is_Some (os_refuses files (w_dirs w1) (OsUnlink (with_suffix "out.mp4" ".raw.mp4"))) ->
     w_fs w' = files).
Proof.
  destruct (run_returned
              (stream_frames (FL := demo_float) (Ext := demo_ext_ok) "in.mp4" "out.mp4" 0.25%Q 3 0
                 demo_input_ok))
    as [l H]; [vm_compute; reflexivity|].
  assert (Hatt : (ffmpeg_attempt (Ext := demo_ext_ok) (with_suffix "out.mp4" ".raw.mp4") "out.mp4"
                    (w_fs (stream_frames (FL := demo_float) (Ext := demo_ext_ok) "in.mp4"
                             "out.mp4" 0.25%Q 3 0 demo_input_ok).2)).1 = true)
    by (vm_compute; reflexivity).
  apply pair_true in Hatt.
  destruct (transcode_success_keeps_output _ _ _ _ _ _ _ _ _ H Hatt) as (w' & Hrest).
  eexists l, _, _, w'. split; [exact H|]. split; [exact Hatt|]. exact Hrest.
Defined.

Lemma missing_transcoder_spares_other_files_witness :
  exists r w' e,
    get_ffmpeg_exe = inl e /\
    process_video (FL := demo_float) "in.mp4" "out.mp4" 0.25%Q 3 0 demo_input = (Returned r, w') /\
    forall p, p <> with_suffix "out.mp4" ".raw.mp4" -> p <> "out.mp4" ->
      w_fs w' !! p = w_fs demo_input !! p.
Proof.
  destruct (run_returned
              (process_video (FL := demo_float) "in.mp4" "out.mp4" 0.25%Q 3 0 demo_input))
    as [r H]; [vm_compute; reflexivity|].
  assert (He : get_ffmpeg_exe (Externals := demo_ext) =
               inl (ImportError "No module named 'imageio_ffmpeg'")) by reflexivity.
  eexists r, _, _. split; [exact He|]. split; [exact H|].
  exact (missing_transcoder_spares_other_files _ _ _ _ _ _ _ _ _ He H).
Defined.

Example demo_files_after_transcode :
  w_fs (process_video (Ext := demo_ext_ok) "in.mp4" "out.mp4" 0.25%Q 5 12 demo_input_ok).2 =
  {[ "in.mp4" := demo_clip;
     "out.mp4" := [4; 2; 17; 11; 12; 13; 14; 22; 16; 17; 18; 19; 27; 21] ]}.
Proof. vm_compute. reflexivity. Qed.

(** A system that refuses every [unlink]: the transcoder goes through, the
    pipeline returns, and the intermediate file stays beside the output. *)
Example demo_files_after_refused_unlink :
  let run :=
    process_video (Ext := demo_ext_locked) "in.mp4" "out.mp4" 0.25%Q 5 12 demo_input_locked in
  has_returned run = true /\
  w_fs run.2 =
    {[ "in.mp4" := demo_clip;
       "out.mp4" := [4; 2; 17; 11; 12; 13; 14; 22; 16; 17; 18; 19; 27; 21];
       "out.mp4.raw.mp4" := [4; 2; 17; 11; 12; 13; 14; 22; 16; 17; 18; 19; 27; 21] ]}.
Proof. vm_compute. split; reflexivity. Qed.

(** A system that refuses the rename of the fallback: the refusal is
    swallowed, the clean-up removes the intermediate file all the same, and
    the pipeline returns with no video on disk but its input. *)
Example demo_files_after_refused_rename :
  let run :=
    process_video (Ext := demo_ext_norename) "in.mp4" "out.mp4" 0.25%Q 5 12
      demo_input_norename in
  has_returned run = true /\
  w_fs run.2 = {[ "in.mp4" := demo_clip ]}.
Proof. vm_compute. split; reflexivity. Qed.

(** What makes [process_video] raise before the writer is opened: a file at
    the parent of the output path, and an output path without a name. *)
Example demo_mkdir_and_suffix_raise :
  (process_video (FL := demo_float) "in.mp4" "out.mp4" 0.25%Q 5 0
     (demo_world {[ "in.mp4" := demo_clip; "/" := [] ]})).1 =
    Raised (OSError "File exists") /\
  (process_video (FL := demo_float) "in.mp4" "" 0.25%Q 5 0 demo_input).1 =
    Raised (ValueError "PosixPath('') has an empty name").
Proof. vm_compute. split; reflexivity. Qed.

End VideoRuns.


(** ** [detector/visualize.py] *)

Module VisualizeRuns.
Import Demo MoreDemo RunFacts.

Lemma demo_shape_kept : shape_kept (Ext := demo_ext).
Proof. intros c img. split; reflexivity. Defined.

Lemma legend_panel_geometry_witness :
  shape_kept (Ext := demo_ext) /\
  demo_dets <> [] /\
  w_heap demo_heap !! 0%nat = Some demo_image /\
  let counts := fold_left counts_step demo_dets [] in
  let colors := fold_left colors_step demo_dets [] in
  let names := take 12 (sorted_by (legend_key counts) (dict_keys counts)) in
  let x1 := Z.max 10 (im_cols demo_image - 230) in
  let x2 := im_cols demo_image - 10 in
  let y2 := Z.min (im_rows demo_image - 10) (30 + 22 * Z.of_nat (length names)) in
  exists out w' overlay,
    draw_detections_bgr 0%nat demo_dets demo_heap = (Returned out, w') /\
    overlay <> out /\
    (1 <= length names <= 12)%nat /\
    w_calls w' = w_calls demo_heap ++
      map (pair out) (concat (map box_calls demo_dets)) ++
      [ (overlay, Rectangle (x1, 10) (x2, y2) (255, 255, 255) (-1));
        (out, Rectangle (x1, 10) (x2, y2) (203, 213, 225) 1) ] ++
      map (pair out) (concat (imap (fun i n =>
        legend_entry_calls x1 i (legend_color (Some colors) n) n
          (default 0 (dict_get counts n))) names)) /\
    (240 <= im_cols demo_image -> x2 - x1 = 220) /\
    (40 + 22 * Z.of_nat (length names) <= im_rows demo_image ->
       y2 = 30 + 22 * Z.of_nat (length names)) /\
    (im_rows demo_image < 40 + 22 * Z.of_nat (length names) -> y2 = im_rows demo_image - 10).
Proof.
  assert (Hne : demo_dets <> []) by discriminate.
  assert (Himg : w_heap demo_heap !! 0%nat = Some demo_image) by reflexivity.
  split; [exact demo_shape_kept|]. split; [exact Hne|]. split; [exact Himg|].
  exact (legend_panel_geometry demo_heap 0%nat demo_image demo_dets demo_shape_kept Hne Himg).
Defined.

Lemma legend_accounts_for_detections_witness :
  let counts := fold_left counts_step demo_dets [] in
  let classes := sorted_by (legend_key counts) (dict_keys counts) in
  total counts = Z.of_nat (length demo_dets) /\
  shown_total counts (take 12 classes) <= Z.of_nat (length demo_dets) /\
  (shown_total counts (take 12 classes) = Z.of_nat (length demo_dets) <->
   (length classes <= 12)%nat).
Proof. exact (legend_accounts_for_detections demo_dets). Defined.

Example demo_legend_panel :
  omap (fun c => match c.2 with Rectangle p q (203, 213, 225) 1 => Some (p, q) | _ => None end)
    (w_calls (draw_detections_bgr 0%nat demo_dets demo_heap).2) =
  [ ((410, 10), (630, 74)) ].
Proof. vm_compute. reflexivity. Qed.

End VisualizeRuns.


(** ** [detector/yolo_detector.py] *)

Module YoloRuns.
Import Demo MoreDemo RunFacts Yolo YoloFacts.

Lemma model_is_loaded_once_witness :
  exists dets self',
    let self := __init__ (U := demo_yolo) "yolov8n.pt" in
    predict_image (FL := demo_float) self demo_image 0.25%Q = (inr dets, self') /\
    model_name self' = model_name self /\
    exists m,
      _model self' = Some m /\
      (_model self = Some m \/
       _model self = None /\ YOLO_new (Ultralytics := demo_yolo) (model_name self) = inr m) /\
      forall img2 conf2,
        predict_image self' img2 conf2 =
          (match yolo_predict (Ultralytics := demo_yolo) m img2 conf2 with
           | inl e => inl (LibError e)
           | inr results => inr (detections_of m results)
           end, self').
Proof.
  destruct (inr_inv (predict_image (FL := demo_float) (__init__ (U := demo_yolo) "yolov8n.pt")
                       demo_image 0.25%Q)) as [dets H]; [vm_compute; reflexivity|].
  eexists dets, _. cbv zeta. split; [exact H|].
  exact (model_is_loaded_once _ _ _ _ _ H).
Defined.

Lemma predict_image_raises_witness :
  exists e self',
    let self := __init__ (U := demo_yolo_missing) "yolov8n.pt" in
    predict_image (FL := demo_float) self demo_image 0.25%Q = (inl e, self') /\
    e <> AssertionError /\
    ((self' = self /\ _model self = None /\ is_Some (import_YOLO (Ultralytics := demo_yolo_missing)) /\
      e = LibError (RuntimeError
            ("Ultralytics is not installed or failed to import. " +:+
             "Install requirements.txt and ensure your environment supports it."))) \/
     (exists e', self' = self /\ _model self = None /\ import_YOLO (Ultralytics := demo_yolo_missing) = None /\
        YOLO_new (Ultralytics := demo_yolo_missing) (model_name self) = inl e' /\ e = LibError e') \/
     (exists m e', _model self' = Some m /\ yolo_predict (Ultralytics := demo_yolo_missing) m demo_image 0.25%Q = inl e' /\
        e = LibError e')).
Proof.
  destruct (inl_inv (predict_image (FL := demo_float)
                       (__init__ (U := demo_yolo_missing) "yolov8n.pt") demo_image 0.25%Q))
    as [e H]; [vm_compute; reflexivity|].
  eexists e, _. cbv zeta. split; [exact H|].
  exact (predict_image_raises _ _ _ _ _ H).
Defined.

Lemma detections_follow_boxes_witness :
  exists dets self',
    predict_image (FL := demo_float) (__init__ (U := demo_yolo) "yolov8n.pt") demo_image 0.25%Q =
      (inr dets, self') /\
    exists m results,
      _model self' = Some m /\
      yolo_predict (Ultralytics := demo_yolo) m demo_image 0.25%Q = inr results /\
      match results with
      | [] => dets = []
      | r0 :: _ =>
          match r_boxes r0 with
          | None => dets = []
          | Some boxes =>
              match b_xyxy boxes with
              | None => dets = []
              | Some xyxy =>
                  length dets =
                    Nat.min (length xyxy)
                      (Nat.min (length (b_conf boxes)) (length (b_cls boxes))) /\
                  forall (i : nat) d, dets !! i = Some d ->
                    xyxy !! i = Some (x1 d, y1 d, x2 d, y2 d) /\
                    b_conf boxes !! i = Some (confidence d) /\
                    exists c,
                      b_cls boxes !! i = Some c /\
                      class_id d = astype_int (U := demo_yolo) c /\
                      - 2 ^ 63 <= class_id d < 2 ^ 63 /\
                      (- 2 ^ 63 <= f_int c < 2 ^ 63 <-> class_id d = f_int c)
              end
          end
      end.
Proof.
  destruct (inr_inv (predict_image (FL := demo_float) (__init__ (U := demo_yolo) "yolov8n.pt")
                       demo_image 0.25%Q)) as [dets H]; [vm_compute; reflexivity|].
  eexists dets, _. split; [exact H|].
  exact (detections_follow_boxes _ _ _ _ _ H).
Defined.

Lemma class_names_follow_table_witness :
  exists dets self',
    predict_image (FL := demo_float) (__init__ (U := demo_yolo) "yolov8n.pt") demo_image 0.25%Q =
      (inr dets, self') /\
    exists m results,
      _model self' = Some m /\
      yolo_predict (Ultralytics := demo_yolo) m demo_image 0.25%Q = inr results /\
      forall d, d ∈ dets ->
        exists r0, head results = Some r0 /\
          class_name d =
            match names_in_force m r0 !! class_id d with
            | Some name => name
            | None => str_of_int (class_id d)
            end.
Proof.
  destruct (inr_inv (predict_image (FL := demo_float) (__init__ (U := demo_yolo) "yolov8n.pt")
                       demo_image 0.25%Q)) as [dets H]; [vm_compute; reflexivity|].
  eexists dets, _. split; [exact H|].
  exact (class_names_follow_table _ _ _ _ _ H).
Defined.

Example demo_yolo_names :
  map class_name
    (match (predict_image (FL := demo_float) (__init__ (U := demo_yolo) "yolov8n.pt")
              demo_image 0.25%Q).1 with
     | inr dets => dets
     | inl _ => []
     end) = ["car"; "person"; "7"].
Proof. vm_compute. reflexivity. Qed.

(** A [cls] entry beyond the int64 range is not cast to its integer part. *)
Example demo_astype_int :
  astype_int (FL := demo_float) (U := demo_yolo) 7.9%Q = 7 /\
  astype_int (FL := demo_float) (U := demo_yolo) (-7.9)%Q = -7 /\
  astype_int (FL := demo_float) (U := demo_yolo) 100000000000000000000%Q = - 2 ^ 63.
Proof. vm_compute. repeat split; reflexivity. Qed.

End YoloRuns.


(** ** [backend/storage.py] *)

Module StorageRuns.
Import Demo MoreDemo RunFacts Storage StorageFacts.
#[local] Existing Instance demo_files.

Lemma demo_codec_ok : codec_ok (F := demo_files).
Proof. intros j _. reflexivity. Defined.

Lemma demo_paths_differ : bundle_paths_differ (F := demo_files) (analysis_dir "results" "abc").
Proof. repeat split; discriminate. Defined.

Lemma image_bundle_round_trip_witness :
  codec_ok (F := demo_files) /\
  joinpath (analysis_dir "results" "abc") "detections.json" <>
    joinpath (analysis_dir "results" "abc") "meta.json" /\
  exists d' meta,
    save_analysis_bundle "results" "abc" "uploads/1_cat.jpg" "results/abc/preview.jpg"
      demo_dets "yolov8n.pt" 0.25%Q 120 demo_disk = (inr tt, d') /\
    load_analysis_detections "results" "abc" d' =
      (inr (JList (map json_of_fields (map asdict demo_dets))), d') /\
    load_analysis_meta "results" "abc" d' = (inr (JDict meta), d') /\
    dict_keys meta =
      [ "analysis_id"; "type"; "input_file"; "preview_file"; "model"; "conf_threshold";
        "duration_ms"; "created_at"; "num_detections" ] /\
    dict_get meta "analysis_id" = Some (JStr "abc") /\
    dict_get meta "type" = Some (JStr "image") /\
    dict_get meta "created_at" = Some (JInt (f_int (clock demo_disk))) /\
    dict_get meta "num_detections" = Some (JInt (Z.of_nat (length demo_dets))).
Proof.
  split; [exact demo_codec_ok|]. split; [exact (proj1 demo_paths_differ)|].
  exact (image_bundle_round_trip demo_disk "results" "abc" "uploads/1_cat.jpg"
           "results/abc/preview.jpg" demo_dets "yolov8n.pt" 0.25%Q 120
           demo_codec_ok (proj1 demo_paths_differ)).
Defined.

Lemma video_bundle_round_trip_witness :
  codec_ok (F := demo_files) /\
  bundle_paths_differ (analysis_dir "results" "abc") /\
  NoDup (dict_keys demo_video_meta) /\
  wf_json (JDict demo_video_meta) = true /\
  wf_json (JList (map JDict [[("frame_index", JInt 0)]])) = true /\
  exists d' meta,
    save_analysis_bundle_video "results" "abc" "uploads/1_in.mp4" "results/abc/preview.jpg"
      "results/abc/output.mp4" demo_dets [[("frame_index", JInt 0)]] "yolov8n.pt" 0.25%Q 120
      demo_video_meta demo_disk = (inr tt, d') /\
    load_analysis_detections "results" "abc" d' =
      (inr (JList (map json_of_fields (map asdict demo_dets))), d') /\
    load_analysis_detections_per_frame "results" "abc" d' =
      (inr (JList (map JDict [[("frame_index", JInt 0)]])), d') /\
    load_analysis_meta "results" "abc" d' = (inr (JDict meta), d') /\
    (forall k v, dict_get demo_video_meta k = Some v -> dict_get meta k = Some v) /\
    (dict_get demo_video_meta "type" = None -> dict_get meta "type" = Some (JStr "video")) /\
    (dict_get demo_video_meta "output_video_file" = None ->
       dict_get meta "output_video_file" = Some (JStr (path_name "results/abc/output.mp4"))) /\
    (dict_get demo_video_meta "num_detections" = None ->
       dict_get meta "num_detections" = Some (JInt (Z.of_nat (length demo_dets)))).
Proof.
  assert (Hnd : NoDup (dict_keys demo_video_meta))
    by (apply (bool_decide_eq_true_1 _); reflexivity).
  assert (Hwf : wf_json (JDict demo_video_meta) = true) by reflexivity.
  assert (Hpf : wf_json (JList (map JDict [[("frame_index", JInt 0)]])) = true) by reflexivity.
  split; [exact demo_codec_ok|]. split; [exact demo_paths_differ|].
  split; [exact Hnd|]. split; [exact Hwf|]. split; [exact Hpf|].
  exact (video_bundle_round_trip demo_disk "results" "abc" "uploads/1_in.mp4"
           "results/abc/preview.jpg" "results/abc/output.mp4" demo_dets
           [[("frame_index", JInt 0)]] "yolov8n.pt" 0.25%Q 120 demo_video_meta
           demo_codec_ok demo_paths_differ Hnd Hwf Hpf).
Defined.

Lemma bundle_writes_only_its_files_witness :
  exists d',
    save_analysis_bundle "results" "abc" "uploads/1_cat.jpg" "results/abc/preview.jpg"
      demo_dets "yolov8n.pt" 0.25%Q 120 demo_disk = (inr tt, d') /\
    (forall p,
       p <> joinpath (analysis_dir "results" "abc") "detections.json" ->
       p <> joinpath (analysis_dir "results" "abc") "meta.json" ->
       files d' !! p = files demo_disk !! p) /\
    dirs demo_disk ⊆ dirs d' /\
    analysis_dir "results" "abc" ∈ dirs d' /\
    clock d' = clock demo_disk.
Proof.
  destruct (inr_inv (save_analysis_bundle "results" "abc" "uploads/1_cat.jpg"
                       "results/abc/preview.jpg" demo_dets "yolov8n.pt" 0.25%Q 120 demo_disk))
    as [[] H]; [reflexivity|].
  eexists. split; [exact H|].
  exact (bundle_writes_only_its_files demo_disk _ "results" "abc" "uploads/1_cat.jpg"
           "results/abc/preview.jpg" demo_dets "yolov8n.pt" 0.25%Q 120 H).
Defined.

Lemma pipeline_bundle_agrees_witness :
  exists meta flat_detections per_frame w',
    process_video (FL := demo_float) "in.mp4" "out.mp4" 0.25%Q 3 0 demo_input =
      (Returned (meta, flat_detections, per_frame), w') /\
    codec_ok (F := demo_files) /\
    bundle_paths_differ (analysis_dir "results" "abc") /\
    exists d' saved,
      save_analysis_bundle_video "results" "abc" "uploads/1_in.mp4" "results/abc/preview.jpg"
        "results/abc/output.mp4" flat_detections (map record_dict per_frame) "yolov8n.pt"
        0.25%Q 120 [("video", JDict (meta_dict meta))] demo_disk = (inr tt, d') /\
      load_analysis_detections_per_frame "results" "abc" d' =
        (inr (JList (map (fun r => JDict (record_dict r)) per_frame)), d') /\
      load_analysis_detections "results" "abc" d' =
        (inr (JList (concat (map (fun r => map json_of_fields (detections r)) per_frame))), d') /\
      load_analysis_meta "results" "abc" d' = (inr (JDict saved), d') /\
      dict_get saved "num_detections" =
        Some (JInt (Z.of_nat (length (concat (map detections per_frame))))) /\
      dict_get saved "type" = Some (JStr "video") /\
      dict_get saved "video" = Some (JDict (meta_dict meta)).
Proof.
  destruct (run_returned
              (process_video (FL := demo_float) "in.mp4" "out.mp4" 0.25%Q 3 0 demo_input))
    as [[[meta fl] pf] H]; [vm_compute; reflexivity|].
  eexists meta, fl, pf, _. split; [exact H|].
  split; [exact demo_codec_ok|]. split; [exact demo_paths_differ|].
  exact (pipeline_bundle_agrees _ _ _ _ _ _ _ _ _ _ demo_disk "results" "abc" "uploads/1_in.mp4"
           "results/abc/preview.jpg" "results/abc/output.mp4" "yolov8n.pt" 120
           H demo_codec_ok demo_paths_differ).
Defined.

Example demo_path_name : demo_name "results/abc/output.mp4" = "output.mp4".
Proof. reflexivity. Qed.

End StorageRuns.


(** ** [backend/main.py] and [backend/crud.py] *)

Module ApiRuns.
Import Demo MoreDemo RunFacts Storage StorageFacts Api ApiFacts StorageRuns.
#[local] Existing Instance demo_files.
#[local] Existing Instance demo_csv.


Lemma export_csv_lists_saved_detections_witness :
  codec_ok (F := demo_files) /\
  joinpath (analysis_dir "results" "abc") "detections.json" <>
    joinpath (analysis_dir "results" "abc") "meta.json" /\
  exists d',
    save_analysis_bundle "results" "abc" "uploads/1_cat.jpg" "results/abc/preview.jpg"
      demo_dets "yolov8n.pt" 0.25%Q 120 demo_disk = (inr tt, d') /\
    export_csv "results" "abc" d' =
      (inr (mkResponse
              (String.concat ""
                 (map csv_row
                    ([ [JStr "analysis_id"; JStr "abc"];
                       [JStr "model"; JStr "yolov8n.pt"];
                       [JStr "conf_threshold"; JFloat 0.25%Q];
                       [JStr "duration_ms"; JInt 120];
                       [];
                       map JStr ["class_id"; "class_name"; "confidence";
                                 "x1"; "y1"; "x2"; "y2"] ] ++
                     map (fun det =>
                            [ JInt (class_id det); JStr (class_name det);
                              JFloat (confidence det);
                              JFloat (x1 det); JFloat (y1 det);
                              JFloat (x2 det); JFloat (y2 det) ]) demo_dets)))
              "text/csv; charset=utf-8"
              [("Content-Disposition",
                "attachment; filename=" +:+ "abc" +:+ "_detections.csv")]),
       d').
Proof.
  split; [exact demo_codec_ok|]. split; [exact (proj1 demo_paths_differ)|].
  exact (export_csv_lists_saved_detections demo_disk "results" "abc" "uploads/1_cat.jpg"
           "results/abc/preview.jpg" demo_dets "yolov8n.pt" 0.25%Q 120
           demo_codec_ok (proj1 demo_paths_differ)).
Defined.

Lemma missing_analysis_is_404_witness :
  files demo_disk !! joinpath (analysis_dir "results" "abc") "meta.json" = None /\
  get_analysis_api "results" "abc" demo_disk =
    (inl (HTTPException 404 "Analysis not found"), demo_disk) /\
  export_csv "results" "abc" demo_disk =
    (inl (HTTPException 404 "Analysis not found"), demo_disk).
Proof.
  assert (H : files demo_disk !! joinpath (analysis_dir "results" "abc") "meta.json" = None)
    by reflexivity.
  split; [exact H|].
  exact (proj1 (missing_analysis_is_404 demo_disk "results" "abc") (or_introl H)).
Defined.

Lemma image_analysis_has_no_video_witness :
  codec_ok (F := demo_files) /\
  joinpath (analysis_dir "results" "abc") "detections.json" <>
    joinpath (analysis_dir "results" "abc") "meta.json" /\
  exists d',
    save_analysis_bundle "results" "abc" "uploads/1_cat.jpg" "results/abc/preview.jpg"
      demo_dets "yolov8n.pt" 0.25%Q 120 demo_disk = (inr tt, d') /\
    get_output_video "results" "abc" d' =
      (inl (HTTPException 400 "This analysis is not a video analysis"), d').
Proof.
  split; [exact demo_codec_ok|]. split; [exact (proj1 demo_paths_differ)|].
  exact (image_analysis_has_no_video demo_disk "results" "abc" "uploads/1_cat.jpg"
           "results/abc/preview.jpg" demo_dets "yolov8n.pt" 0.25%Q 120
           demo_codec_ok (proj1 demo_paths_differ)).
Defined.

Lemma saved_video_is_served_witness :
  let video_meta := [("video", JDict [("fps", JFloat 25%Q)])] in
  let per_frame := [[("frame_index", JInt 0)]] in
  codec_ok (F := demo_files) /\
  bundle_paths_differ (analysis_dir "results" "abc") /\
  NoDup (dict_keys video_meta) /\
  wf_json (JDict video_meta) = true /\
  wf_json (JList (map JDict per_frame)) = true /\
  dict_get video_meta "type" = None /\
  dict_get video_meta "output_video_file" = None /\
  path_name "results/abc/output.mp4" <> "" /\
  let vpath := joinpath (analysis_dir "results" "abc") (path_name "results/abc/output.mp4") in
  exists d',
    save_analysis_bundle_video "results" "abc" "uploads/1_in.mp4" "results/abc/preview.jpg"
      "results/abc/output.mp4" demo_dets per_frame "yolov8n.pt" 0.25%Q 120 video_meta
      demo_disk_video = (inr tt, d') /\
    get_output_video "results" "abc" d' =
      (if bool_decide (is_Some (files d' !! vpath))
       then inr (mkFileResponse vpath (Some "video/mp4"))
       else inl (HTTPException 404 "Output video not found"), d').
Proof.
  cbv zeta.
  assert (Hnd : NoDup (dict_keys [("video", JDict [("fps", JFloat 25%Q)])]))
    by (apply (bool_decide_eq_true_1 _); reflexivity).
  assert (Hwf : wf_json (JDict [("video", JDict [("fps", JFloat 25%Q)])]) = true) by reflexivity.
  assert (Hpf : wf_json (JList (map JDict [[("frame_index", JInt 0)]])) = true) by reflexivity.
  assert (Ht : dict_get [("video", JDict [("fps", JFloat 25%Q)])] "type" = None) by reflexivity.
  assert (Ho : dict_get [("video", JDict [("fps", JFloat 25%Q)])] "output_video_file" = None)
    by reflexivity.
  assert (Hname : path_name "results/abc/output.mp4" <> "") by (vm_compute; discriminate).
  split; [exact demo_codec_ok|]. split; [exact demo_paths_differ|].
  split; [exact Hnd|]. split; [exact Hwf|]. split; [exact Hpf|].
  split; [exact Ht|]. split; [exact Ho|]. split; [exact Hname|].
  exact (saved_video_is_served demo_disk_video "results" "abc" "uploads/1_in.mp4"
           "results/abc/preview.jpg" "results/abc/output.mp4" demo_dets
           [[("frame_index", JInt 0)]] "yolov8n.pt" 0.25%Q 120
           [("video", JDict [("fps", JFloat 25%Q)])]
           demo_codec_ok demo_paths_differ Hnd Hwf Hpf Ht Ho Hname).
Defined.

Lemma rows_match_drawn_boxes_witness :
  exists det row,
    demo_dets !! 0%nat = Some det /\
    Crud.bulk_create_detections [] 7 demo_dets !! (length (@nil Crud.DetectionRow) + 0)%nat =
      Some row /\
    Crud.analysis_fk row = 7 /\
    Crud.row_class_name row = class_name det /\
    Crud.row_confidence row = confidence det /\
    head (box_calls det) =
      Some (Rectangle (Crud.row_x1 row, Crud.row_y1 row) (Crud.row_x2 row, Crud.row_y2 row)
              (_color_for_class (Crud.row_class_id row)) 2).
Proof.
  destruct (rows_match_drawn_boxes (FL := demo_float) [] 7 demo_dets) as (_ & _ & Hrows).
  assert (H0 : demo_dets !! 0%nat = Some (mkDetection 2 "car" 0.9%Q 10%Q 20%Q 110%Q 90%Q))
    by reflexivity.
  destruct (Hrows 0%nat _ H0) as (row & Hrow).
  eexists _, row. split; [exact H0|]. exact Hrow.
Defined.

Example demo_csv_text :
  match (export_csv "results" "abc"
           (save_analysis_bundle "results" "abc" "uploads/1_cat.jpg" "results/abc/preview.jpg"
              (take 1 demo_dets) "yolov8n.pt" 0.25%Q 120 demo_disk).2).1 with
  | inr r => content r
  | inl _ => ""
  end =
  String.concat (String "013" (String "010" ""))
    [ "analysis_id,abc"; "model,yolov8n.pt"; "conf_threshold,0.25"; "duration_ms,120"; "";
      "class_id,class_name,confidence,x1,y1,x2,y2"; "2,car,0.90,10.0,20.0,110.0,90.0"; "" ].
Proof. vm_compute. reflexivity. Qed.

End ApiRuns.


(** ** [backend/reporting.py] *)

Module ReportingRuns.
Import Demo MoreDemo RunFacts Storage StorageFacts Reporting ReportingFacts.
#[local] Existing Instance demo_files.
#[local] Existing Instance demo_reportlab.

Lemma report_texts_witness :
  exists d',
    generate_pdf_report "results/abc/report.pdf" demo_meta
      (JList (map json_of_fields (map asdict demo_dets))) None (Some demo_extra) demo_disk =
      (inr tt, d') /\
    exists md ds counts n c,
      demo_meta = JDict md /\
      py_iter (JList (map json_of_fields (map asdict demo_dets))) = inr ds /\
      count_classes ds [] = inr counts /\
      py_len (JList (map json_of_fields (map asdict demo_dets))) = inr n /\
      files d' = <[("results/abc/report.pdf" : Path) := pdf_of c]> (files demo_disk) /\
      dirs d' = {[parent "results/abc/report.pdf"]} ∪ dirs demo_disk /\
      last c = Some ShowPage /\
      texts c =
        header_texts md ++ ["Podsumowanie"; "Liczba detekcji: " +:+ str_of_int n] ++
        take 6 (default [] (Some demo_extra)) ++ ["Wykryte klasy (Top)"] ++
        map class_line (take 20 (sorted_by top_key counts)).
Proof.
  destruct (inr_inv (generate_pdf_report "results/abc/report.pdf" demo_meta
                       (JList (map json_of_fields (map asdict demo_dets))) None (Some demo_extra)
                       demo_disk)) as [[] H]; [vm_compute; reflexivity|].
  eexists. split; [exact H|].
  exact (report_texts _ _ _ _ _ _ _ H).
Defined.

Lemma failed_report_writes_nothing_witness :
  exists e d',
    generate_pdf_report "results/abc/report.pdf" (JList []) (JList []) None None demo_disk =
      (inl e, d') /\
    files d' = files demo_disk.
Proof.
  destruct (inl_inv (generate_pdf_report "results/abc/report.pdf" (JList []) (JList []) None None
                       demo_disk)) as [e H]; [vm_compute; reflexivity|].
  eexists e, _. split; [exact H|].
  exact (failed_report_writes_nothing _ _ _ _ _ _ _ _ H).
Defined.

Lemma report_ranks_like_legend_witness :
  exists d',
    Forall (fun det => class_name det <> "") demo_dets /\
    generate_pdf_report "results/abc/report.pdf" demo_meta
      (JList (map json_of_fields (map asdict demo_dets))) None (Some demo_extra) demo_disk =
      (inr tt, d') /\
    let counts := fold_left counts_step demo_dets [] in
    let names := sorted_by (legend_key counts) (dict_keys counts) in
    exists c before,
      files d' !! ("results/abc/report.pdf" : Path) = Some (pdf_of c) /\
      texts c =
        before ++ ["Liczba detekcji: " +:+ str_of_int (Z.of_nat (length demo_dets))] ++
        take 6 (default [] (Some demo_extra)) ++ ["Wykryte klasy (Top)"] ++
        map (fun name => "• " +:+ name +:+ ": " +:+ str_of_int (class_count demo_dets name))
          (take 20 names).
Proof.
  destruct (inr_inv (generate_pdf_report "results/abc/report.pdf" demo_meta
                       (JList (map json_of_fields (map asdict demo_dets))) None (Some demo_extra)
                       demo_disk)) as [[] H]; [vm_compute; reflexivity|].
  assert (Hne : Forall (fun det : Detection => class_name det <> "") demo_dets)
    by (repeat constructor; discriminate).
  eexists. split; [exact Hne|]. split; [exact H|].
  exact (report_ranks_like_legend _ _ _ _ _ _ _ Hne H).
Defined.

Example demo_report :
  files (generate_pdf_report "results/abc/report.pdf" demo_meta
           (JList (map json_of_fields (map asdict demo_dets))) None (Some demo_extra)
           demo_disk).2 !! ("results/abc/report.pdf" : Path) =
  Some (JList
    [ JBool true; JStr "Object Detection Hub — Raport"; JBool true;
      JStr "Analysis ID: abc"; JStr "Typ: image";
      JStr "Model: yolov8n.pt | conf: 0.25 | czas: 120 ms";
      JBool true; JStr "Podsumowanie"; JBool true; JStr "Liczba detekcji: 3";
      JStr "one"; JStr "two"; JStr "three"; JStr "four"; JStr "five"; JStr "six";
      JBool true; JStr "Wykryte klasy (Top)"; JBool true;
      JStr "• person: 2"; JStr "• car: 1"; JNone ]).
Proof. vm_compute. reflexivity. Qed.

End ReportingRuns.
